(** * EtherCAT EoE "set IP parameter" state machine (master/fsm_eoe.c)

    A shallow embedding of the state machine of [master/fsm_eoe.c] and the
    properties of its specification.  The C code works on a context
    structure, on datagrams, requests and slaves reached through pointers;
    here the pointers are addresses into finite maps, the handlers are
    functions from a world to an optional world ([None] is a dereference
    of NULL or of an address that holds nothing), and the volatile inputs
    (the tick counter, the outcome of the mailbox layer) are given to each
    call in an environment record.

    Diagnostics ([EC_SLAVE_ERR], [EC_SLAVE_DBG], [ec_print_data], the
    datagram printers) change nothing the state machine reads back, and
    are left out. *)

From Stdlib Require Import ZArith Lia List.
From Stdlib Require Import Strings.Byte.
From stdpp Require Import base option list gmap.
Import ListNotations.
Local Open Scope Z_scope.

(** ** Bytes and buffers *)

(** A byte of memory is a [Byte.byte]; [byte_Z] reads it as an unsigned
    number and [u8] is the C conversion to [uint8_t]. *)
Definition byte_Z (b : byte) : Z := Z.of_N (Byte.to_N b).

Definition u8 (z : Z) : byte :=
  default x00 (Byte.of_N (Z.to_N (z mod 256))).

(** A pointer into a byte array is modelled by the bytes from the pointer
    onwards; [at_ptr off f data] runs [f] on [data + off].  The functions
    that write through a pointer take the destination last, so that a call
    with its other arguments can be run at an offset. *)
Definition buf := list byte.

Definition at_ptr (off : nat) (f : buf -> buf) (data : buf) : buf :=
  take off data ++ f (drop off data).

(** The [n] bytes from offset [off] on. *)
Definition slice (off n : nat) (data : buf) : buf :=
  take n (drop off data).

(** [memset(p, c, n)]: the first [n] bytes at [p] become [c]. *)
Definition memset (c : byte) (n : nat) (p : buf) : buf :=
  replicate n c ++ drop n p.

(** [memcpy(dst, src, n)]: the first [n] bytes of [src] overwrite [dst] in
    place. *)
Definition memcpy (src : buf) (n : nat) (dst : buf) : buf :=
  list_inserts 0 (take n src) dst.

(** Modelled from the spec: the [EC_WRITE_U8], [EC_WRITE_U16], [EC_WRITE_U32],
    [EC_READ_U8] and [EC_READ_U16] macros of ecrt.h are not part of this
    file; the wire format has every integer little-endian, whatever the
    host. *)
Definition EC_WRITE_U8 (v : Z) (p : buf) : buf :=
  <[0%nat := u8 v]> p.

Definition EC_WRITE_U16 (v : Z) (p : buf) : buf :=
  <[1%nat := u8 (Z.shiftr v 8)]> (<[0%nat := u8 v]> p).

Definition EC_WRITE_U32 (v : Z) (p : buf) : buf :=
  <[3%nat := u8 (Z.shiftr v 24)]>
    (<[2%nat := u8 (Z.shiftr v 16)]>
       (<[1%nat := u8 (Z.shiftr v 8)]> (<[0%nat := u8 v]> p))).

Definition EC_READ_U8 (p : buf) : option Z :=
  byte_Z <$> p !! 0%nat.

Definition EC_READ_U16 (p : buf) : option Z :=
  b0 ← p !! 0%nat;
  b1 ← p !! 1%nat;
  Some (byte_Z b0 + 256 * byte_Z b1).

(** ** The byte-order helper *)

(** [memcpy_swap32(dst, src)]: the loop [for (i = 0; i < 4; i++)
    dst[i] = src[3 - i]], one write after the other.  A read past the end
    of the [src] window leaves the destination byte as it is. *)
Definition memcpy_swap32 (src : buf) (dst : buf) : buf :=
  foldl (fun d i =>
           match src !! (3 - i)%nat with
           | Some b => <[i := b]> d
           | None => d
           end)
        dst [0%nat; 1%nat; 2%nat; 3%nat].

(** The in-memory image of a 32-bit value on either kind of host. *)
Inductive endianness := LittleEndian | BigEndian.

Definition le32 (x : Z) : buf :=
  [u8 x; u8 (Z.shiftr x 8); u8 (Z.shiftr x 16); u8 (Z.shiftr x 24)].

Definition store32 (e : endianness) (x : Z) : buf :=
  match e with
  | LittleEndian => le32 x
  | BigEndian => rev (le32 x)
  end.

Definition le32_value (p : buf) : Z :=
  match p with
  | b0 :: b1 :: b2 :: b3 :: _ =>
      byte_Z b0 + 256 * byte_Z b1 + 65536 * byte_Z b2 + 16777216 * byte_Z b3
  | _ => 0
  end.

Definition load32 (e : endianness) (p : buf) : Z :=
  match e with
  | LittleEndian => le32_value p
  | BigEndian => le32_value (rev (take 4 p))
  end.

(** [swap32 x]: the value a host of byte order [e] reads back after one
    [memcpy_swap32] from the image of [x] into the buffer [dst]. *)
Definition swap32 (e : endianness) (dst : buf) (x : Z) : Z :=
  load32 e (memcpy_swap32 (store32 e x) dst).

(** ** Constants of the platform and of the master *)

(** What the headers of the master and of the kernel fix and this file
    only names: [HZ] ticks per second, the width of [unsigned long], the
    datagram retry count, the width of the host name field, the mailbox
    protocol tag of EoE and the EoE bit of the slave's protocol mask. *)
Record platform := {
  HZ : Z;
  ULONG_BITS : Z;
  EC_FSM_RETRIES : Z;
  EC_MAX_HOSTNAME_SIZE : nat;
  EC_MBOX_TYPE_EOE : Z;
  EC_MBOX_EOE : Z
}.

(** [unsigned int] has 32 bits on every platform the master builds
    for. *)
Definition UINT_BITS : Z := 32.

(** Maximum time to wait for a set IP parameter response, in ms. *)
Definition EC_EOE_RESPONSE_TIMEOUT : Z := 3000.

(** Modelled from the spec: the frame types of ethernet.h, "type = 0x02
    (SET_IP_REQUEST class)" and "frame_type_nibble = 0x03 (SET_IP_RESPONSE
    class)", and the six bytes of a MAC address. *)
Definition EC_EOE_FRAMETYPE_SET_IP_REQ : Z := 2.
Definition EC_EOE_FRAMETYPE_SET_IP_RES : Z := 3.
Definition ETH_ALEN : nat := 6.

(** ** Data model *)

(** An address.  NULL is [None] of [option ptr]. *)
Abbreviation ptr := N.

(** Modelled from the spec: the states of a transport slot,
    "Init, Queued, Sent, Received, TimedOut" (datagram.h). *)
Inductive ec_datagram_state_t :=
| EC_DATAGRAM_INIT
| EC_DATAGRAM_QUEUED
| EC_DATAGRAM_SENT
| EC_DATAGRAM_RECEIVED
| EC_DATAGRAM_TIMED_OUT.

(** What the mailbox layer has armed in a datagram. *)
Inductive mbox_op :=
| MboxIdle
| MboxSend (type : Z) (payload : buf)
| MboxCheck
| MboxFetch.

(** A datagram, as far as this file reads and writes it.  The mailbox
    layer (mailbox.c) is not part of this file: [armed] is what its
    prepare functions left in the datagram, [mbox_has_data] is what
    [ec_slave_mbox_check] answers on it, and [mbox_reply] what
    [ec_slave_mbox_fetch] returns: nothing on an error, otherwise the
    protocol tag and the payload, whose length is the received size. *)
Record ec_datagram_t := {
  dg_state : ec_datagram_state_t;
  working_counter : Z;
  dg_jiffies_sent : Z;
  jiffies_received : Z;
  armed : mbox_op;
  mbox_has_data : bool;
  mbox_reply : option (Z * buf)
}.

(** The slave: only the protocol mask of its SII is read here. *)
Record ec_slave_t := {
  mailbox_protocols : Z
}.

(** The request.  An inclusion flag counts as set when it is not zero;
    the four addresses are the four bytes of their fields as they lie in
    memory. *)
Record ec_eoe_request_t := {
  jiffies_sent : Z;
  mac_address_included : Z;
  ip_address_included : Z;
  subnet_mask_included : Z;
  gateway_included : Z;
  dns_included : Z;
  name_included : Z;
  mac_address : buf;
  ip_address : buf;
  subnet_mask : buf;
  gateway : buf;
  dns : buf;
  name : buf;
  result : Z
}.

(** The state of the machine is a pointer to one of six handlers. *)
Inductive state_fn :=
| fn_set_ip_start
| fn_set_ip_request
| fn_set_ip_check
| fn_set_ip_response
| fn_end
| fn_error.

Record ec_fsm_eoe_t := {
  slave : option ptr;
  retries : Z;
  state : option state_fn;
  datagram : option ptr;
  jiffies_start : Z;
  request : option ptr;
  frame_type_retries : Z
}.

(** The memory the state machine lives in. *)
Record world := {
  fsm : ec_fsm_eoe_t;
  slaves : gmap ptr ec_slave_t;
  requests : gmap ptr ec_eoe_request_t;
  datagrams : gmap ptr ec_datagram_t
}.

(** Modelled from the spec: [ec_slave_mbox_prepare_send] of mailbox.c,
    "prepare_send(protocol_tag, size) -> buffer | Error": a buffer, or an
    error pointer that carries [-errno]. *)
Inductive send_result :=
| SendOk
| SendErr (errno : positive).

(** What a call reads from outside the world: [jiffies_now] is the tick
    counter where a handler computes an elapsed time, [jiffies_stamp] the
    counter where the encoder stamps the request, [mbox_send] the outcome
    of the mailbox layer for a send, [stale] the former content of the
    buffer it hands out. *)
Record env := {
  jiffies_now : Z;
  jiffies_stamp : Z;
  mbox_send : send_result;
  stale : buf
}.

Global Instance state_fn_eq_dec : EqDecision state_fn.
Proof. solve_decision. Defined.

Global Instance ec_datagram_state_eq_dec : EqDecision ec_datagram_state_t.
Proof. solve_decision. Defined.

(** *** Field updates *)

Definition set_slave (v : option ptr) (f : ec_fsm_eoe_t) : ec_fsm_eoe_t :=
  {| slave := v; retries := retries f; state := state f;
     datagram := datagram f; jiffies_start := jiffies_start f;
     request := request f; frame_type_retries := frame_type_retries f |}.

Definition set_retries (v : Z) (f : ec_fsm_eoe_t) : ec_fsm_eoe_t :=
  {| slave := slave f; retries := v; state := state f;
     datagram := datagram f; jiffies_start := jiffies_start f;
     request := request f; frame_type_retries := frame_type_retries f |}.

Definition set_state (v : option state_fn) (f : ec_fsm_eoe_t) : ec_fsm_eoe_t :=
  {| slave := slave f; retries := retries f; state := v;
     datagram := datagram f; jiffies_start := jiffies_start f;
     request := request f; frame_type_retries := frame_type_retries f |}.

Definition set_datagram (v : option ptr) (f : ec_fsm_eoe_t) : ec_fsm_eoe_t :=
  {| slave := slave f; retries := retries f; state := state f;
     datagram := v; jiffies_start := jiffies_start f;
     request := request f; frame_type_retries := frame_type_retries f |}.

Definition set_jiffies_start (v : Z) (f : ec_fsm_eoe_t) : ec_fsm_eoe_t :=
  {| slave := slave f; retries := retries f; state := state f;
     datagram := datagram f; jiffies_start := v;
     request := request f; frame_type_retries := frame_type_retries f |}.

Definition set_request (v : option ptr) (f : ec_fsm_eoe_t) : ec_fsm_eoe_t :=
  {| slave := slave f; retries := retries f; state := state f;
     datagram := datagram f; jiffies_start := jiffies_start f;
     request := v; frame_type_retries := frame_type_retries f |}.

Definition set_frame_type_retries (v : Z) (f : ec_fsm_eoe_t) : ec_fsm_eoe_t :=
  {| slave := slave f; retries := retries f; state := state f;
     datagram := datagram f; jiffies_start := jiffies_start f;
     request := request f; frame_type_retries := v |}.

Definition with_fsm (g : ec_fsm_eoe_t -> ec_fsm_eoe_t) (w : world) : world :=
  {| fsm := g (fsm w); slaves := slaves w; requests := requests w;
     datagrams := datagrams w |}.

Definition with_requests
    (g : gmap ptr ec_eoe_request_t -> gmap ptr ec_eoe_request_t)
    (w : world) : world :=
  {| fsm := fsm w; slaves := slaves w; requests := g (requests w);
     datagrams := datagrams w |}.

Definition with_datagrams
    (g : gmap ptr ec_datagram_t -> gmap ptr ec_datagram_t)
    (w : world) : world :=
  {| fsm := fsm w; slaves := slaves w; requests := requests w;
     datagrams := g (datagrams w) |}.

Definition set_armed (op : mbox_op) (d : ec_datagram_t) : ec_datagram_t :=
  {| dg_state := dg_state d; working_counter := working_counter d;
     dg_jiffies_sent := dg_jiffies_sent d;
     jiffies_received := jiffies_received d;
     armed := op; mbox_has_data := mbox_has_data d;
     mbox_reply := mbox_reply d |}.

Definition set_jiffies_sent (v : Z) (r : ec_eoe_request_t) : ec_eoe_request_t :=
  {| jiffies_sent := v;
     mac_address_included := mac_address_included r;
     ip_address_included := ip_address_included r;
     subnet_mask_included := subnet_mask_included r;
     gateway_included := gateway_included r;
     dns_included := dns_included r;
     name_included := name_included r;
     mac_address := mac_address r; ip_address := ip_address r;
     subnet_mask := subnet_mask r; gateway := gateway r; dns := dns r;
     name := name r; result := result r |}.

Definition set_result (v : Z) (r : ec_eoe_request_t) : ec_eoe_request_t :=
  {| jiffies_sent := jiffies_sent r;
     mac_address_included := mac_address_included r;
     ip_address_included := ip_address_included r;
     subnet_mask_included := subnet_mask_included r;
     gateway_included := gateway_included r;
     dns_included := dns_included r;
     name_included := name_included r;
     mac_address := mac_address r; ip_address := ip_address r;
     subnet_mask := subnet_mask r; gateway := gateway r; dns := dns r;
     name := name r; result := v |}.

(** ** The state machine *)

Section Machine.

Variable cfg : platform.

(** *** Unsigned arithmetic *)

Definition wrap (bits z : Z) : Z := z mod 2 ^ bits.

Definition ulong (z : Z) : Z := wrap (ULONG_BITS cfg) z.

Definition uint (z : Z) : Z := wrap UINT_BITS z.

(** [(later - earlier) * 1000 / HZ] in [unsigned long]: the elapsed
    milliseconds as the handlers compute them. *)
Definition diff_ms (later earlier : Z) : Z :=
  ulong (ulong (later - earlier) * 1000) / HZ cfg.

(** [v--] on an [unsigned int] used as a condition: the test sees the old
    value, the variable keeps the decremented one. *)
Definition post_decrement (v : Z) : bool * Z :=
  (negb (v =? 0), uint (v - 1)).

(** *** The mailbox layer *)

(** Modelled from the spec: [ec_slave_mbox_prepare_check] and
    [ec_slave_mbox_prepare_fetch] of mailbox.c, "arms a poll; cannot fail"
    and "arms a read; cannot fail", and [ec_slave_mbox_check] and
    [ec_slave_mbox_fetch], "has_data(slot) -> bool" and
    "fetch(slot) -> (buffer, protocol_tag, size) | Error". *)
Definition arm (op : mbox_op) (p : ptr) (w : world) : option world :=
  d ← datagrams w !! p;
  Some (with_datagrams (insert p (set_armed op d)) w).

Definition ec_slave_mbox_prepare_check (p : ptr) (w : world) : option world :=
  arm MboxCheck p w.

Definition ec_slave_mbox_prepare_fetch (p : ptr) (w : world) : option world :=
  arm MboxFetch p w.

Definition ec_slave_mbox_check (d : ec_datagram_t) : bool :=
  mbox_has_data d.

Definition ec_slave_mbox_fetch (d : ec_datagram_t) : option (Z * buf) :=
  mbox_reply d.

(** *** The request encoder *)

Definition set_ip_size : nat :=
  (8 + ETH_ALEN + 4 + 4 + 4 + 4 + EC_MAX_HOSTNAME_SIZE cfg)%nat.

(** [(flag != 0)] as an [int]. *)
Definition nonzero (flag : Z) : Z :=
  if flag =? 0 then 0 else 1.

Definition included (flag : Z) : bool :=
  negb (flag =? 0).

Definition set_ip_flags (req : ec_eoe_request_t) : Z :=
  Z.lor
    (Z.lor
       (Z.lor
          (Z.lor
             (Z.lor (Z.shiftl (nonzero (mac_address_included req)) 0)
                    (Z.shiftl (nonzero (ip_address_included req)) 1))
             (Z.shiftl (nonzero (subnet_mask_included req)) 2))
          (Z.shiftl (nonzero (gateway_included req)) 3))
       (Z.shiftl (nonzero (dns_included req)) 4))
    (Z.shiftl (nonzero (name_included req)) 5).

(** The writes of [ec_fsm_eoe_prepare_set] into the buffer [data] that the
    mailbox layer handed out, from the [memset] to the host name. *)
Definition set_ip_data (req : ec_eoe_request_t) (data : buf) : buf :=
  let data := memset x00 set_ip_size data in
  let data := EC_WRITE_U8 EC_EOE_FRAMETYPE_SET_IP_REQ data in
  let data := at_ptr 1 (EC_WRITE_U8 0) data in
  let data := at_ptr 2 (EC_WRITE_U16 0) data in
  let data := at_ptr 4 (EC_WRITE_U32 (set_ip_flags req)) data in
  let cur := 8%nat in
  let data :=
    if included (mac_address_included req)
    then at_ptr cur (memcpy (mac_address req) ETH_ALEN) data else data in
  let cur := (cur + ETH_ALEN)%nat in
  let data :=
    if included (ip_address_included req)
    then at_ptr cur (memcpy_swap32 (ip_address req)) data else data in
  let cur := (cur + 4)%nat in
  let data :=
    if included (subnet_mask_included req)
    then at_ptr cur (memcpy_swap32 (subnet_mask req)) data else data in
  let cur := (cur + 4)%nat in
  let data :=
    if included (gateway_included req)
    then at_ptr cur (memcpy_swap32 (gateway req)) data else data in
  let cur := (cur + 4)%nat in
  let data :=
    if included (dns_included req)
    then at_ptr cur (memcpy_swap32 (dns req)) data else data in
  let cur := (cur + 4)%nat in
  let data :=
    if included (name_included req)
    then at_ptr cur (memcpy (name req) (EC_MAX_HOSTNAME_SIZE cfg)) data
    else data in
  data.

(** The layout of the payload in the specification's words: frame type,
    three reserved bytes, the little-endian inclusion mask, then each field
    in its slot, zero when it is not included. *)
Definition field (flag : Z) (bytes : buf) (n : nat) : buf :=
  if included flag then bytes else replicate n x00.

Definition set_ip_layout (req : ec_eoe_request_t) : buf :=
  [u8 EC_EOE_FRAMETYPE_SET_IP_REQ; x00; x00; x00]
  ++ le32 (set_ip_flags req)
  ++ field (mac_address_included req) (mac_address req) ETH_ALEN
  ++ field (ip_address_included req) (rev (ip_address req)) 4
  ++ field (subnet_mask_included req) (rev (subnet_mask req)) 4
  ++ field (gateway_included req) (rev (gateway req)) 4
  ++ field (dns_included req) (rev (dns req)) 4
  ++ field (name_included req) (name req) (EC_MAX_HOSTNAME_SIZE cfg).

(** The arrays of a request have the sizes of their C declarations. *)
Definition request_sized (req : ec_eoe_request_t) : Prop :=
  length (mac_address req) = ETH_ALEN
  /\ length (ip_address req) = 4%nat
  /\ length (subnet_mask req) = 4%nat
  /\ length (gateway req) = 4%nat
  /\ length (dns req) = 4%nat
  /\ length (name req) = EC_MAX_HOSTNAME_SIZE cfg.

(** [ec_fsm_eoe_prepare_set]: returns 0, or the negative error code of the
    mailbox layer, in which case nothing is written and the request is not
    stamped. *)
Definition ec_fsm_eoe_prepare_set (datagram : ptr) (e : env) (w : world)
  : option (Z * world) :=
  sp ← slave (fsm w);
  _ ← slaves w !! sp;
  match mbox_send e with
  | SendErr errno => Some (Z.neg errno, w)
  | SendOk =>
      dg ← datagrams w !! datagram;
      rp ← request (fsm w);
      req ← requests w !! rp;
      let data := set_ip_data req (stale e) in
      let w :=
        with_datagrams
          (insert datagram
             (set_armed (MboxSend (EC_MBOX_TYPE_EOE cfg)
                                  (take set_ip_size data)) dg)) w in
      let w :=
        with_requests
          (insert rp (set_jiffies_sent (jiffies_stamp e) req)) w in
      Some (0, w)
  end.

(** *** The handlers *)

Definition goto (s : state_fn) (w : world) : world :=
  with_fsm (set_state (Some s)) w.

(** [fsm->datagram->state == EC_DATAGRAM_TIMED_OUT && fsm->retries--]:
    the decrement only runs when the datagram timed out. *)
Definition timed_out_and_retry (d : ec_datagram_t) (w : world)
  : bool * world :=
  if bool_decide (dg_state d = EC_DATAGRAM_TIMED_OUT) then
    let '(again, r) := post_decrement (retries (fsm w)) in
    (again, with_fsm (set_retries r) w)
  else (false, w).

(** The datagram of the previous step, [*fsm->datagram].  A handler reads
    it once: what it writes before its last read of the datagram (the
    retry count) is not part of it. *)
Definition previous_datagram (w : world) : option ec_datagram_t :=
  dp ← datagram (fsm w);
  datagrams w !! dp.

(** [if (ec_fsm_eoe_prepare_set(fsm, datagram)) fsm->state = error]. *)
Definition prepare_set_or_error (datagram : ptr) (e : env) (w : world)
  : option world :=
  '(rc, w) ← ec_fsm_eoe_prepare_set datagram e w;
  Some (if rc =? 0 then w else goto fn_error w).

(** EoE state: SET IP START. *)
Definition ec_fsm_eoe_set_ip_start (datagram : ptr) (e : env) (w : world)
  : option world :=
  sp ← slave (fsm w);
  s ← slaves w !! sp;
  if Z.land (mailbox_protocols s) (EC_MBOX_EOE cfg) =? 0 then
    Some (goto fn_error w)
  else
    '(rc, w) ← ec_fsm_eoe_prepare_set datagram e w;
    if rc =? 0 then
      Some (goto fn_set_ip_request
              (with_fsm (set_retries (EC_FSM_RETRIES cfg)) w))
    else Some (goto fn_error w).

(** EoE state: SET IP REQUEST. *)
Definition ec_fsm_eoe_set_ip_request (datagram : ptr) (e : env) (w : world)
  : option world :=
  d ← previous_datagram w;
  let '(again, w) := timed_out_and_retry d w in
  if again then prepare_set_or_error datagram e w
  else if negb (bool_decide (dg_state d = EC_DATAGRAM_RECEIVED)) then
    Some (goto fn_error w)
  else if negb (working_counter d =? 1) then
    rp ← request (fsm w);
    req ← requests w !! rp;
    let diff := diff_ms (jiffies_now e) (jiffies_sent req) in
    if (working_counter d =? 0) && (diff <? EC_EOE_RESPONSE_TIMEOUT) then
      prepare_set_or_error datagram e w
    else Some (goto fn_error w)
  else
    let w := with_fsm (set_jiffies_start (dg_jiffies_sent d)) w in
    w ← ec_slave_mbox_prepare_check datagram w;
    let w := with_fsm (set_retries (EC_FSM_RETRIES cfg)) w in
    let w := goto fn_set_ip_check w in
    Some (with_fsm (set_frame_type_retries 10) w).

(** EoE state: SET IP CHECK. *)
Definition ec_fsm_eoe_set_ip_check (datagram : ptr) (e : env) (w : world)
  : option world :=
  d ← previous_datagram w;
  let '(again, w) := timed_out_and_retry d w in
  if again then ec_slave_mbox_prepare_check datagram w
  else if negb (bool_decide (dg_state d = EC_DATAGRAM_RECEIVED)) then
    Some (goto fn_error w)
  else if negb (working_counter d =? 1) then
    Some (goto fn_error w)
  else if negb (ec_slave_mbox_check d) then
    let diff := diff_ms (jiffies_received d) (jiffies_start (fsm w)) in
    if diff >=? EC_EOE_RESPONSE_TIMEOUT then Some (goto fn_error w)
    else
      w ← ec_slave_mbox_prepare_check datagram w;
      Some (with_fsm (set_retries (EC_FSM_RETRIES cfg)) w)
  else
    w ← ec_slave_mbox_prepare_fetch datagram w;
    let w := with_fsm (set_retries (EC_FSM_RETRIES cfg)) w in
    Some (goto fn_set_ip_response w).

(** EoE state: SET IP RESPONSE. *)
Definition ec_fsm_eoe_set_ip_response (datagram : ptr) (e : env) (w : world)
  : option world :=
  sp ← slave (fsm w);
  _ ← slaves w !! sp;
  d ← previous_datagram w;
  let '(again, w) := timed_out_and_retry d w in
  if again then ec_slave_mbox_prepare_fetch datagram w
  else if negb (bool_decide (dg_state d = EC_DATAGRAM_RECEIVED)) then
    Some (goto fn_error w)
  else if negb (working_counter d =? 1) then
    Some (goto fn_error w)
  else
    match ec_slave_mbox_fetch d with
    | None => Some (goto fn_error w)
    | Some (mbox_prot, data) =>
        let rec_size := Z.of_nat (length data) in
        if negb (mbox_prot =? EC_MBOX_TYPE_EOE cfg) then
          Some (goto fn_error w)
        else if rec_size <? 4 then Some (goto fn_error w)
        else
          b0 ← EC_READ_U8 data;
          let frame_type := Z.land b0 15 in
          if negb (frame_type =? EC_EOE_FRAMETYPE_SET_IP_RES) then
            let '(again, r) := post_decrement (frame_type_retries (fsm w)) in
            let w := with_fsm (set_frame_type_retries r) w in
            if again then
              let w := with_fsm (set_jiffies_start (dg_jiffies_sent d)) w in
              w ← ec_slave_mbox_prepare_check datagram w;
              let w := with_fsm (set_retries (EC_FSM_RETRIES cfg)) w in
              Some (goto fn_set_ip_check w)
            else Some (goto fn_error w)
          else
            res ← EC_READ_U16 (drop 2 data);
            rp ← request (fsm w);
            req ← requests w !! rp;
            let w := with_requests (insert rp (set_result res req)) w in
            if negb (res =? 0) then Some (goto fn_error w)
            else Some (goto fn_end w)
    end.

(** State: ERROR. *)
Definition ec_fsm_eoe_error (datagram : ptr) (e : env) (w : world)
  : option world :=
  Some w.

(** State: END. *)
Definition ec_fsm_eoe_end (datagram : ptr) (e : env) (w : world)
  : option world :=
  Some w.

(** The call through the function pointer [fsm->state]. *)
Definition call (s : state_fn) : ptr -> env -> world -> option world :=
  match s with
  | fn_set_ip_start => ec_fsm_eoe_set_ip_start
  | fn_set_ip_request => ec_fsm_eoe_set_ip_request
  | fn_set_ip_check => ec_fsm_eoe_set_ip_check
  | fn_set_ip_response => ec_fsm_eoe_set_ip_response
  | fn_end => ec_fsm_eoe_end
  | fn_error => ec_fsm_eoe_error
  end.

(** *** Construction, start and the cyclic entry point *)

(** Constructor. *)
Definition ec_fsm_eoe_init (f : ec_fsm_eoe_t) : ec_fsm_eoe_t :=
  {| slave := None; retries := 0; state := None; datagram := None;
     jiffies_start := 0; request := None; frame_type_retries := 0 |}.

(** Starts to set the EoE IP parameters of a slave. *)
Definition ec_fsm_eoe_set_ip_param (sl rq : option ptr) (f : ec_fsm_eoe_t)
  : ec_fsm_eoe_t :=
  set_state (Some fn_set_ip_start) (set_request rq (set_slave sl f)).

(** The test at the head of [ec_fsm_eoe_exec]: a datagram is stored and it
    is still on its way. *)
Definition datagram_pending (w : world) : option bool :=
  match datagram (fsm w) with
  | None => Some false
  | Some dp =>
      d ← datagrams w !! dp;
      Some (bool_decide (dg_state d = EC_DATAGRAM_INIT)
            || bool_decide (dg_state d = EC_DATAGRAM_QUEUED)
            || bool_decide (dg_state d = EC_DATAGRAM_SENT))
  end.

Definition is_terminal (f : ec_fsm_eoe_t) : bool :=
  bool_decide (state f = Some fn_end)
  || bool_decide (state f = Some fn_error).

(** Executes the current state of the state machine; the number is 1 if
    the datagram was used, else 0. *)
Definition ec_fsm_eoe_exec (datagram : ptr) (e : env) (w : world)
  : option (Z * world) :=
  waiting ← datagram_pending w;
  if waiting : bool then Some (0, w)
  else
    s ← state (fsm w);
    w ← call s datagram e w;
    let datagram_used := negb (is_terminal (fsm w)) in
    if datagram_used then
      Some (1, with_fsm (set_datagram (Some datagram)) w)
    else Some (0, with_fsm (set_datagram None) w).

(** Returns whether the state machine terminated with success. *)
Definition ec_fsm_eoe_success (f : ec_fsm_eoe_t) : bool :=
  bool_decide (state f = Some fn_end).

(** *** Cycles *)

(** Between two calls the transport resolves the stored datagram: it
    rewrites everything in it but what was armed. *)
Record resolution := {
  r_state : ec_datagram_state_t;
  r_working_counter : Z;
  r_jiffies_sent : Z;
  r_jiffies_received : Z;
  r_has_data : bool;
  r_reply : option (Z * buf)
}.

Definition resolve (r : resolution) (d : ec_datagram_t) : ec_datagram_t :=
  {| dg_state := r_state r; working_counter := r_working_counter r;
     dg_jiffies_sent := r_jiffies_sent r;
     jiffies_received := r_jiffies_received r;
     armed := armed d; mbox_has_data := r_has_data r;
     mbox_reply := r_reply r |}.

Definition transport (r : resolution) (w : world) : world :=
  match datagram (fsm w) with
  | Some dp => with_datagrams (alter (resolve r) dp) w
  | None => w
  end.

(** One cycle of the master: the stored datagram has been resolved as
    [resolved], and the state machine is executed with the datagram at
    [slot]. *)
Record cycle := {
  resolved : resolution;
  slot : ptr;
  outside : env
}.

Definition step (c : cycle) (w : world) : option world :=
  '(_, w) ← ec_fsm_eoe_exec (slot c) (outside c) (transport (resolved c) w);
  Some w.

Fixpoint run (cs : list cycle) (w : world) : option world :=
  match cs with
  | [] => Some w
  | c :: cs => w ← step c w; run cs w
  end.

(** RESPONSE: what every branch behind the fetch has in common. *)
Definition fetched (w : world) (d : ec_datagram_t) (mbox_prot : Z)
    (data : buf) : Prop :=
  (exists sp s, slave (fsm w) = Some sp /\ slaves w !! sp = Some s)
  /\ previous_datagram w = Some d
  /\ dg_state d = EC_DATAGRAM_RECEIVED
  /\ working_counter d = 1
  /\ ec_slave_mbox_fetch d = Some (mbox_prot, data).

(** *** Worlds and cycles the properties speak of *)

(** The pointers of the context lead somewhere: a slave, a request and the
    datagram of the previous step. *)
Definition wired (w : world) : Prop :=
  (exists sp, slave (fsm w) = Some sp /\ sp ∈ dom (slaves w))
  /\ (exists rp, request (fsm w) = Some rp /\ rp ∈ dom (requests w))
  /\ (exists dp, datagram (fsm w) = Some dp /\ dp ∈ dom (datagrams w)).

(** Two worlds with the same slave and request behind the context and the
    same addresses in use. *)
Definition same_layout (w w' : world) : Prop :=
  slave (fsm w') = slave (fsm w)
  /\ request (fsm w') = request (fsm w)
  /\ slaves w' = slaves w
  /\ dom (requests w') = dom (requests w)
  /\ dom (datagrams w') = dom (datagrams w).

(** The world [w] after the cycle [c] encoded the request anew: the
    request carries the stamp of the cycle, and the datagram of the cycle
    holds a send of the encoded request. *)
Definition re_encoded (c : cycle) (w : world) : Prop :=
  exists rp req d,
    request (fsm w) = Some rp /\ requests w !! rp = Some req
    /\ jiffies_sent req = jiffies_stamp (outside c)
    /\ datagrams w !! slot c = Some d
    /\ armed d
       = MboxSend (EC_MBOX_TYPE_EOE cfg)
           (take set_ip_size (set_ip_data req (stale (outside c)))).

(** A cycle that finds the stored datagram timed out, with a mailbox layer
    that accepts a send and a datagram of the world [w] to use. *)
Definition timed_out_cycle (w : world) (c : cycle) : Prop :=
  r_state (resolved c) = EC_DATAGRAM_TIMED_OUT
  /\ mbox_send (outside c) = SendOk
  /\ slot c ∈ dom (datagrams w).

(** A cycle that finds the stored datagram received with the working
    counter [wc], and has a datagram of the world [w] to use. *)
Definition received_cycle (w : world) (c : cycle) (wc : Z) : Prop :=
  r_state (resolved c) = EC_DATAGRAM_RECEIVED
  /\ r_working_counter (resolved c) = wc
  /\ slot c ∈ dom (datagrams w).






Definition round_cycles (r : cycle * cycle) : list cycle :=
  [fst r; snd r].


(** The part of a world the handlers dereference: the slave, the request
    and the datagram of the call. *)
Definition reachable (w : world) (p : ptr) : Prop :=
  (exists sp s, slave (fsm w) = Some sp /\ slaves w !! sp = Some s)
  /\ (exists rp req, request (fsm w) = Some rp /\ requests w !! rp = Some req)
  /\ (exists f, datagrams w !! p = Some f).

(** The stored datagram is still on its way. *)
Definition unresolved (w : world) : Prop :=
  exists dp d,
    datagram (fsm w) = Some dp /\ datagrams w !! dp = Some d
    /\ (dg_state d = EC_DATAGRAM_INIT \/ dg_state d = EC_DATAGRAM_QUEUED
        \/ dg_state d = EC_DATAGRAM_SENT).

(** No datagram is stored, or the stored one came back or timed out. *)
Definition settled (w : world) : Prop :=
  datagram (fsm w) = None
  \/ exists dp d,
       datagram (fsm w) = Some dp /\ datagrams w !! dp = Some d
       /\ (dg_state d = EC_DATAGRAM_RECEIVED
           \/ dg_state d = EC_DATAGRAM_TIMED_OUT).

(** *** What a call may change *)

(** A call on the datagram at [p] takes [w] to [w1]: the pointers of the
    context and the slaves are as before, at most the datagram at [p] is
    rewritten and only in what is armed in it, and at most the request of
    the context is rewritten, in its stamp or in its result. *)
Definition touches_only (p : ptr) (w w1 : world) : Prop :=
  slave (fsm w1) = slave (fsm w)
  /\ request (fsm w1) = request (fsm w)
  /\ datagram (fsm w1) = datagram (fsm w)
  /\ slaves w1 = slaves w
  /\ (datagrams w1 = datagrams w
      \/ exists f op,
           datagrams w !! p = Some f
           /\ datagrams w1 = <[p := set_armed op f]> (datagrams w))
  /\ (requests w1 = requests w
      \/ exists rp req v,
           request (fsm w) = Some rp /\ requests w !! rp = Some req
           /\ (requests w1 = <[rp := set_jiffies_sent v req]> (requests w)
               \/ requests w1 = <[rp := set_result v req]> (requests w))).

(** The transitions of the state machine, from the state a handler is
    called in to the state it leaves. *)
Definition may_follow (s s1 : state_fn) : bool :=
  match s, s1 with
  | fn_set_ip_start, (fn_set_ip_request | fn_error) => true
  | fn_set_ip_request, (fn_set_ip_request | fn_set_ip_check | fn_error) => true
  | fn_set_ip_check, (fn_set_ip_check | fn_set_ip_response | fn_error) => true
  | fn_set_ip_response,
    (fn_set_ip_response | fn_set_ip_check | fn_end | fn_error) => true
  | fn_end, fn_end => true
  | fn_error, fn_error => true
  | _, _ => false
  end.


(** What a call does to the frame type retries, by the state it was
    called in and the state it leaves: REQUEST sets them to ten on its way
    to CHECK, RESPONSE takes one on its way back to CHECK, and no other
    step that does not end in ERROR changes them. *)
Definition budget_effect (s : state_fn) (w w1 : world) : Prop :=
  match s, state (fsm w1) with
  | fn_set_ip_request, Some fn_set_ip_check =>
      frame_type_retries (fsm w1) = 10
  | fn_set_ip_response, Some fn_set_ip_check =>
      frame_type_retries (fsm w) <> 0
      /\ frame_type_retries (fsm w1) = uint (frame_type_retries (fsm w) - 1)
  | _, Some fn_error => True
  | _, _ => frame_type_retries (fsm w1) = frame_type_retries (fsm w)
  end.

(** Where the result of the request comes from: a call leaves the results
    of all requests alone and does not enter END, or it is RESPONSE
    storing the result [v] and going to END when [v] is 0 and to ERROR
    otherwise. *)
Definition result_effect (s : state_fn) (w w1 : world) : Prop :=
  ((forall rq, result <$> requests w1 !! rq = result <$> requests w !! rq)
   /\ (state (fsm w1) = Some fn_end -> s = fn_end))
  \/ (s = fn_set_ip_response
      /\ exists rp req v,
           request (fsm w) = Some rp /\ requests w !! rp = Some req
           /\ requests w1 = <[rp := set_result v req]> (requests w)
           /\ state (fsm w1) = Some (if v =? 0 then fn_end else fn_error)).

(** *** Runs under any transport *)

(** The states a run can be in after it was in [s]. *)
Definition may_reach (s s1 : state_fn) : bool :=
  match s, s1 with
  | fn_set_ip_start, _ => true
  | fn_set_ip_request, fn_set_ip_start => false
  | fn_set_ip_request, _ => true
  | (fn_set_ip_check | fn_set_ip_response),
    (fn_set_ip_check | fn_set_ip_response | fn_end | fn_error) => true
  | fn_end, fn_end => true
  | fn_error, fn_error => true
  | _, _ => false
  end.

(** The pointers of the context lead somewhere, a handler is set, and a
    datagram is stored whenever the handler is one that reads it. *)
Definition operable (w : world) : Prop :=
  (exists sp, slave (fsm w) = Some sp /\ sp ∈ dom (slaves w))
  /\ (exists rp, request (fsm w) = Some rp /\ rp ∈ dom (requests w))
  /\ (forall dp, datagram (fsm w) = Some dp -> dp ∈ dom (datagrams w))
  /\ exists s,
       state (fsm w) = Some s
       /\ (s = fn_set_ip_start \/ s = fn_end \/ s = fn_error
           \/ exists dp, datagram (fsm w) = Some dp).

(** The request of the context carries the result 0. *)
Definition result_zero (w : world) : Prop :=
  exists rp req,
    request (fsm w) = Some rp /\ requests w !! rp = Some req
    /\ result req = 0.

(** The stray frames a run may still discard: ten before the request is
    acknowledged, the frame type retries while the response is awaited,
    none once the operation has ended. *)
Definition discard_bound (w : world) : Z :=
  match state (fsm w) with
  | Some fn_set_ip_start | Some fn_set_ip_request => 10
  | Some fn_set_ip_check | Some fn_set_ip_response =>
      frame_type_retries (fsm w)
  | _ => 0
  end.

(** While the response is awaited the frame type retries are a number an
    [unsigned int] holds. *)
Definition budget_in_range (w : world) : Prop :=
  match state (fsm w) with
  | Some fn_set_ip_check | Some fn_set_ip_response =>
      0 <= frame_type_retries (fsm w) < 2 ^ 32
  | _ => True
  end.

(** A cycle discards a frame when it takes the machine from RESPONSE back
    to CHECK. *)
Definition discarded (w w1 : world) : bool :=
  match state (fsm w), state (fsm w1) with
  | Some fn_set_ip_response, Some fn_set_ip_check => true
  | _, _ => false
  end.

(** The number of frames a run discards. *)
Fixpoint discards (cs : list cycle) (w : world) : nat :=
  match cs with
  | [] => 0%nat
  | c :: cs =>
      match step c w with
      | Some w1 =>
          ((if discarded w w1 then 1 else 0) + discards cs w1)%nat
      | None => 0%nat
      end
  end.

(** *** Cycles that fail *)

(** A cycle that finds the stored datagram timed out and has a datagram
    of the world [w] to use. *)
Definition lost_cycle (w : world) (c : cycle) : Prop :=
  r_state (resolved c) = EC_DATAGRAM_TIMED_OUT
  /\ slot c ∈ dom (datagrams w).

(** What CHECK and RESPONSE arm when they ask again. *)
Definition poll_of (s : state_fn) : option mbox_op :=
  match s with
  | fn_set_ip_check => Some MboxCheck
  | fn_set_ip_response => Some MboxFetch
  | _ => None
  end.

(** A mailbox check that finds no data. *)
Definition no_data_cycle (w : world) (c : cycle) : Prop :=
  received_cycle w c 1 /\ r_has_data (resolved c) = false.

(** An exchange that came back but failed, seen from the state [s] with
    the request last stamped at [sent]: the working counter is not 1, and
    where REQUEST would ask again (the counter is 0) the milliseconds
    since the stamp, as the handler computes them with [diff_ms], have
    reached the response timeout; or the fetch of RESPONSE reports an
    error. *)
Definition failed_exchange (s : state_fn) (sent : Z) (c : cycle) : Prop :=
  r_state (resolved c) = EC_DATAGRAM_RECEIVED
  /\ ((r_working_counter (resolved c) <> 1
       /\ (s = fn_set_ip_request -> r_working_counter (resolved c) = 0 ->
           EC_EOE_RESPONSE_TIMEOUT
             <= diff_ms (jiffies_now (outside c)) sent))
      \/ (s = fn_set_ip_response /\ r_working_counter (resolved c) = 1
          /\ r_reply (resolved c) = None)).

End Machine.

(** ** Concrete instances *)

(** A 64-bit Linux host with the constants of the master's headers. *)
Definition linux64 : platform :=
  {| HZ := 250; ULONG_BITS := 64; EC_FSM_RETRIES := 3;
     EC_MAX_HOSTNAME_SIZE := 32; EC_MBOX_TYPE_EOE := 2; EC_MBOX_EOE := 2 |}.

(** A 32-bit platform at 1000 ticks a second. *)
Definition ilp32 : platform :=
  {| HZ := 1000; ULONG_BITS := 32; EC_FSM_RETRIES := 3;
     EC_MAX_HOSTNAME_SIZE := 32; EC_MBOX_TYPE_EOE := 2; EC_MBOX_EOE := 2 |}.

(** The request of the specification's success scenario: only the IP
    address, 192.0.2.10, is included. *)
Definition demo_request : ec_eoe_request_t :=
  {| jiffies_sent := 0;
     mac_address_included := 0; ip_address_included := 1;
     subnet_mask_included := 0; gateway_included := 0;
     dns_included := 0; name_included := 0;
     mac_address := [x02; x00; x5e; x10; x00; x01];
     ip_address := [xc0; x00; x02; x0a];
     subnet_mask := [xff; xff; xff; x00];
     gateway := [xc0; x00; x02; x01];
     dns := [xc0; x00; x02; x35];
     name := replicate 32 x41;
     result := 0 |}.

Definition demo_slave : ec_slave_t := {| mailbox_protocols := 2 |}.

(** A datagram as the transport hands it out, and one as it comes back:
    in the state [st], with the working counter [wc], received at the
    tick [at_tick], with the mailbox flag [ready] and the reply [reply]. *)
Definition idle_datagram : ec_datagram_t :=
  {| dg_state := EC_DATAGRAM_INIT; working_counter := 0;
     dg_jiffies_sent := 0; jiffies_received := 0; armed := MboxIdle;
     mbox_has_data := false; mbox_reply := None |}.

Definition back (st : ec_datagram_state_t) (wc at_tick : Z) (ready : bool)
    (reply : option (Z * buf)) : resolution :=
  {| r_state := st; r_working_counter := wc; r_jiffies_sent := at_tick - 1;
     r_jiffies_received := at_tick; r_has_data := ready; r_reply := reply |}.

(** A context in the state [s] with [r] retries and [ftr] frame type
    retries, on the slave at address 1 and the request at address 2, with
    the datagram at address 10 stored. *)
Definition demo_fsm (s : state_fn) (r ftr : Z) : ec_fsm_eoe_t :=
  {| slave := Some 1%N; retries := r; state := Some s;
     datagram := Some 10%N; jiffies_start := 0; request := Some 2%N;
     frame_type_retries := ftr |}.

(** A world around the context [f]: the slave, the request, and two
    datagrams at the addresses 10 and 11, the first as [d] has it. *)
Definition demo_world (f : ec_fsm_eoe_t) (d : ec_datagram_t) : world :=
  {| fsm := f;
     slaves := {[ 1%N := demo_slave ]};
     requests := {[ 2%N := demo_request ]};
     datagrams := {[ 10%N := d; 11%N := idle_datagram ]} |}.

Definition demo_env (now : Z) (send : send_result) : env :=
  {| jiffies_now := now; jiffies_stamp := now; mbox_send := send;
     stale := replicate 70 xee |}.

Definition demo_cycle (r : resolution) (p : ptr) (now : Z)
    (send : send_result) : cycle :=
  {| resolved := r; slot := p; outside := demo_env now send |}.

(** A round of the stray-segment recovery at the tick [t]: the check
    finds data, and the fetch brings an EoE fragment (frame type 0). *)
Definition demo_round (t : Z) : cycle * cycle :=
  (demo_cycle (back EC_DATAGRAM_RECEIVED 1 t true None) 10%N t SendOk,
   demo_cycle (back EC_DATAGRAM_RECEIVED 1 (t + 1) false
                 (Some (2, [x00; x00; x00; x00; x45])))
              11%N (t + 1) SendOk).

(** * Properties *)

(** ** Bytes *)

Lemma byte_Z_range (b : byte) : 0 <= byte_Z b < 256.
Proof.
  unfold byte_Z. pose proof (Byte.to_N_bounded b). lia.
Qed.

Lemma u8_byte_Z (b : byte) : u8 (byte_Z b) = b.
Proof.
  unfold u8. rewrite Z.mod_small by apply byte_Z_range.
  unfold byte_Z. rewrite N2Z.id, Byte.of_to_N. reflexivity.
Qed.

Lemma byte_Z_u8 (z : Z) : byte_Z (u8 z) = z mod 256.
Proof.
  unfold u8, byte_Z.
  assert (Hr : 0 <= z mod 256 < 256) by (apply Z.mod_pos_bound; lia).
  destruct (Byte.of_N (Z.to_N (z mod 256))) as [b|] eqn:Hb.
  - apply Byte.to_of_N in Hb. simpl. rewrite Hb. lia.
  - apply Byte.of_N_None_iff in Hb. lia.
Qed.

Lemma byte_Z_inj (a b : byte) : byte_Z a = byte_Z b -> a = b.
Proof.
  intros H. rewrite <- (u8_byte_Z a), <- (u8_byte_Z b), H. reflexivity.
Qed.

(** ** The pointer model *)

Lemma memcpy_app (src old rest : buf) (n : nat) :
  length src = n -> length old = n ->
  memcpy src n (old ++ rest) = src ++ rest.
Proof.
  intros Hs Ho. unfold memcpy.
  rewrite firstn_all2 by lia.
  apply list_inserts_0_r. lia.
Qed.

(** ** The byte-order helper *)

Lemma memcpy_swap32_cons (a b c d : byte) (s : buf) (w x y z : byte) (r : buf) :
  memcpy_swap32 (a :: b :: c :: d :: s) (w :: x :: y :: z :: r)
  = d :: c :: b :: a :: r.
Proof. reflexivity. Qed.

Lemma length4 {A} (l : list A) :
  length l = 4%nat -> exists a b c d, l = [a; b; c; d].
Proof.
  destruct l as [|a [|b [|c [|d [|]]]]]; simpl; intros H; try lia.
  eauto.
Qed.

Lemma length_ge4 {A} (l : list A) :
  (4 <= length l)%nat -> exists a b c d r, l = a :: b :: c :: d :: r.
Proof.
  destruct l as [|a [|b [|c [|d r]]]]; simpl; intros H; try lia.
  eauto 6.
Qed.

Lemma le32_value_le32 (x : Z) :
  0 <= x < 2 ^ 32 -> le32_value (le32 x) = x.
Proof.
  intros Hx. unfold le32, le32_value.
  rewrite !byte_Z_u8, !Z.shiftr_div_pow2 by lia.
  change (2 ^ 8) with 256. change (2 ^ 16) with 65536.
  change (2 ^ 24) with 16777216. change (2 ^ 32) with 4294967296 in Hx.
  Z.div_mod_to_equations. lia.
Qed.

Lemma le32_le32_value (a b c d : byte) (r : buf) :
  le32 (le32_value (a :: b :: c :: d :: r)) = [a; b; c; d].
Proof.
  unfold le32_value, le32.
  pose proof (byte_Z_range a). pose proof (byte_Z_range b).
  pose proof (byte_Z_range c). pose proof (byte_Z_range d).
  rewrite !Z.shiftr_div_pow2 by lia.
  change (2 ^ 8) with 256. change (2 ^ 16) with 65536.
  change (2 ^ 24) with 16777216.
  f_equal; [|f_equal; [|f_equal; [|f_equal]]];
    apply byte_Z_inj; rewrite byte_Z_u8; Z.div_mod_to_equations; lia.
Qed.

Lemma store32_load32 (e : endianness) (a b c d : byte) (r : buf) :
  store32 e (load32 e (a :: b :: c :: d :: r)) = [a; b; c; d].
Proof.
  destruct e; cbn [store32 load32].
  - apply le32_le32_value.
  - change (rev (take 4 (a :: b :: c :: d :: r))) with [d; c; b; a].
    rewrite (le32_le32_value d c b a []). reflexivity.
Qed.

Lemma load32_store32 (e : endianness) (x : Z) :
  0 <= x < 2 ^ 32 -> load32 e (store32 e x) = x.
Proof.
  intros Hx. destruct e; cbn [store32 load32].
  - apply le32_value_le32, Hx.
  - change (take 4 (rev (le32 x))) with (rev (le32 x)).
    rewrite rev_involutive. apply le32_value_le32, Hx.
Qed.

(** C8.  [memcpy_swap32] reverses four bytes whatever the host: byte [i]
    of the destination is byte [3 - i] of the source and the rest of the
    destination is untouched; a second swap through another buffer gives
    the source bytes back, and on a host of either byte order the 32-bit
    value read after two swaps is the value stored before them. *)
Theorem memcpy_swap32_reverses_and_is_involutive :
  forall (src dst tmp : buf),
    length src = 4%nat -> (4 <= length dst)%nat -> (4 <= length tmp)%nat ->
    (forall i, (i < 4)%nat -> memcpy_swap32 src dst !! i = src !! (3 - i)%nat)
    /\ drop 4 (memcpy_swap32 src dst) = drop 4 dst
    /\ take 4 (memcpy_swap32 (memcpy_swap32 src tmp) dst) = src
    /\ (forall (e : endianness) (x : Z),
           0 <= x < 2 ^ 32 ->
           store32 e (swap32 e dst x) = rev (store32 e x)
           /\ swap32 e dst (swap32 e tmp x) = x).
Proof.
  intros src dst tmp (a & b & c & d & ->)%length4
         (w & x & y & z & r & ->)%length_ge4
         (w' & x' & y' & z' & r' & ->)%length_ge4.
  split; [|split; [|split]].
  - intros i Hi.
    destruct i as [|[|[|[|i]]]]; try lia; reflexivity.
  - reflexivity.
  - reflexivity.
  - intros e v Hv. unfold swap32.
    assert (Hs : exists a b c d, store32 e v = [a; b; c; d]).
    { destruct e; simpl; unfold le32; eauto 6. }
    destruct Hs as (a0 & b0 & c0 & d0 & Hs). rewrite Hs.
    rewrite !memcpy_swap32_cons. split.
    + apply store32_load32.
    + rewrite store32_load32, memcpy_swap32_cons.
      assert (Hl : load32 e (a0 :: b0 :: c0 :: d0 :: r) = load32 e (store32 e v)).
      { rewrite Hs. destruct e; reflexivity. }
      rewrite Hl. apply load32_store32, Hv.
Qed.

(** ** The request encoder *)

Section Encoder.

Variable cfg : platform.

Lemma length6 {A} (l : list A) :
  length l = 6%nat -> exists a b c d e f, l = [a; b; c; d; e; f].
Proof.
  destruct l as [|a [|b [|c [|d [|e [|f [|]]]]]]]; simpl; intros H; try lia.
  eauto 7.
Qed.

Lemma field_length (flag : Z) (bytes : buf) (n : nat) :
  length bytes = n -> length (field flag bytes n) = n.
Proof.
  intros H. unfold field. destruct (included flag); [exact H|].
  apply length_replicate.
Qed.

Lemma set_ip_layout_length (req : ec_eoe_request_t) :
  request_sized cfg req ->
  length (set_ip_layout cfg req) = set_ip_size cfg.
Proof.
  intros (Hm & Hi & Hs & Hg & Hd & Hn).
  unfold set_ip_layout, set_ip_size.
  rewrite !length_app, !field_length by (rewrite ?length_rev; assumption).
  reflexivity.
Qed.

(** The writes of the encoder produce the layout, and leave what lies
    behind the payload alone. *)
Lemma set_ip_data_layout (req : ec_eoe_request_t) (old : buf) :
  request_sized cfg req ->
  set_ip_data cfg req old
  = set_ip_layout cfg req ++ drop (set_ip_size cfg) old.
Proof.
  intros (Hm & Hi & Hs & Hg & Hd & Hn).
  unfold set_ip_data, set_ip_layout, field, memset.
  destruct (length6 _ Hm) as (m0 & m1 & m2 & m3 & m4 & m5 & ->).
  destruct (length4 _ Hi) as (i0 & i1 & i2 & i3 & ->).
  destruct (length4 _ Hs) as (s0 & s1 & s2 & s3 & ->).
  destruct (length4 _ Hg) as (g0 & g1 & g2 & g3 & ->).
  destruct (length4 _ Hd) as (d0 & d1 & d2 & d3 & ->).
  generalize (set_ip_flags req) as flags. intros flags.
  generalize (drop (set_ip_size cfg) old) as rest. intros rest.
  change (set_ip_size cfg) with (30 + EC_MAX_HOSTNAME_SIZE cfg)%nat.
  rewrite replicate_add.
  assert (Hname :
    list_inserts 0 (take (EC_MAX_HOSTNAME_SIZE cfg) (name req))
                 (replicate (EC_MAX_HOSTNAME_SIZE cfg) x00 ++ rest)
    = name req ++ rest).
  { apply (memcpy_app (name req) (replicate (EC_MAX_HOSTNAME_SIZE cfg) x00));
      [exact Hn | apply length_replicate]. }
  destruct (included (mac_address_included req)),
           (included (ip_address_included req)),
           (included (subnet_mask_included req)),
           (included (gateway_included req)),
           (included (dns_included req)),
           (included (name_included req));
    cbn -[u8 Z.shiftr]; rewrite ?take_0, ?drop_0; unfold memcpy;
    rewrite ?Hname; change (u8 0) with x00;
    change (u8 (Z.shiftr 0 8)) with x00; reflexivity.
Qed.

End Encoder.

(** ** The handlers, branch by branch *)

(** Projections of updated worlds. *)
Ltac world_simpl :=
  cbn [fsm slaves requests datagrams with_fsm with_requests with_datagrams
       goto set_state set_retries set_datagram set_jiffies_start set_request
       set_slave set_frame_type_retries slave retries state datagram
       jiffies_start request frame_type_retries] in *.

Section Handlers.

Variable cfg : platform.

Implicit Types (w : world) (d : ec_datagram_t) (e : env) (p : ptr).

(** Without wrap-around the elapsed time of the handlers is the elapsed
    number of ticks in milliseconds, rounded down. *)
Lemma diff_ms_exact (later earlier : Z) :
  0 <= later - earlier ->
  (later - earlier) * 1000 < 2 ^ ULONG_BITS cfg ->
  diff_ms cfg later earlier = (later - earlier) * 1000 / HZ cfg.
Proof.
  intros Hpos Hfit. unfold diff_ms, ulong, wrap.
  rewrite (Z.mod_small (later - earlier)) by lia.
  rewrite Z.mod_small by lia. reflexivity.
Qed.

Lemma previous_datagram_lookup w dp d :
  datagram (fsm w) = Some dp -> datagrams w !! dp = Some d ->
  previous_datagram w = Some d.
Proof.
  intros Hp Hd. unfold previous_datagram. rewrite Hp. simpl. exact Hd.
Qed.

Lemma arm_lookup (op : mbox_op) p w d :
  datagrams w !! p = Some d ->
  arm op p w = Some (with_datagrams (insert p (set_armed op d)) w).
Proof.
  intros Hd. unfold arm. rewrite Hd. reflexivity.
Qed.

(** The encoder on a send that the mailbox layer accepts. *)
Lemma prepare_set_ok p e w sp (s : ec_slave_t) d rp (req : ec_eoe_request_t) :
  slave (fsm w) = Some sp -> slaves w !! sp = Some s ->
  mbox_send e = SendOk ->
  datagrams w !! p = Some d ->
  request (fsm w) = Some rp -> requests w !! rp = Some req ->
  ec_fsm_eoe_prepare_set cfg p e w
  = Some (0,
          with_requests
            (insert rp (set_jiffies_sent (jiffies_stamp e) req))
            (with_datagrams
               (insert p
                  (set_armed
                     (MboxSend (EC_MBOX_TYPE_EOE cfg)
                        (take (set_ip_size cfg)
                              (set_ip_data cfg req (stale e)))) d)) w)).
Proof.
  intros Hs Hsl Hm Hd Hr Hrq. unfold ec_fsm_eoe_prepare_set.
  rewrite Hs. simpl. rewrite Hsl. simpl. rewrite Hm, Hd. simpl.
  rewrite Hr. simpl. rewrite Hrq. reflexivity.
Qed.

(** The encoder on a send that the mailbox layer refuses. *)
Lemma prepare_set_err p e w sp (s : ec_slave_t) (errno : positive) :
  slave (fsm w) = Some sp -> slaves w !! sp = Some s ->
  mbox_send e = SendErr errno ->
  ec_fsm_eoe_prepare_set cfg p e w = Some (Z.neg errno, w).
Proof.
  intros Hs Hsl Hm. unfold ec_fsm_eoe_prepare_set.
  rewrite Hs. simpl. rewrite Hsl. simpl. rewrite Hm. reflexivity.
Qed.

Lemma prepare_set_or_error_ok p e w sp (s : ec_slave_t) d rp
    (req : ec_eoe_request_t) :
  slave (fsm w) = Some sp -> slaves w !! sp = Some s ->
  mbox_send e = SendOk ->
  datagrams w !! p = Some d ->
  request (fsm w) = Some rp -> requests w !! rp = Some req ->
  prepare_set_or_error cfg p e w
  = Some (with_requests
            (insert rp (set_jiffies_sent (jiffies_stamp e) req))
            (with_datagrams
               (insert p
                  (set_armed
                     (MboxSend (EC_MBOX_TYPE_EOE cfg)
                        (take (set_ip_size cfg)
                              (set_ip_data cfg req (stale e)))) d)) w)).
Proof.
  intros Hs Hsl Hm Hd Hr Hrq. unfold prepare_set_or_error.
  rewrite (prepare_set_ok p e w sp s d rp req) by assumption.
  reflexivity.
Qed.

Lemma prepare_set_or_error_err p e w sp (s : ec_slave_t) (errno : positive) :
  slave (fsm w) = Some sp -> slaves w !! sp = Some s ->
  mbox_send e = SendErr errno ->
  prepare_set_or_error cfg p e w = Some (goto fn_error w).
Proof.
  intros Hs Hsl Hm. unfold prepare_set_or_error.
  rewrite (prepare_set_err p e w sp s errno) by assumption.
  reflexivity.
Qed.

(** The retry test that opens the three waiting handlers. *)
Lemma timed_out_and_retry_again d w :
  dg_state d = EC_DATAGRAM_TIMED_OUT -> retries (fsm w) <> 0 ->
  timed_out_and_retry d w
  = (true, with_fsm (set_retries (uint (retries (fsm w) - 1))) w).
Proof.
  intros Hs Hr. unfold timed_out_and_retry, post_decrement.
  rewrite Hs. simpl.
  destruct (Z.eqb_spec (retries (fsm w)) 0); [contradiction | reflexivity].
Qed.

Lemma timed_out_and_retry_exhausted d w :
  dg_state d = EC_DATAGRAM_TIMED_OUT -> retries (fsm w) = 0 ->
  timed_out_and_retry d w
  = (false, with_fsm (set_retries (uint (0 - 1))) w).
Proof.
  intros Hs Hr. unfold timed_out_and_retry, post_decrement.
  rewrite Hs, Hr. reflexivity.
Qed.

Lemma timed_out_and_retry_received d w :
  dg_state d = EC_DATAGRAM_RECEIVED ->
  timed_out_and_retry d w = (false, w).
Proof.
  intros Hs. unfold timed_out_and_retry. rewrite Hs. reflexivity.
Qed.

(** REQUEST: a timed-out datagram and retries left. *)
Lemma request_timed_out_again p e w d :
  previous_datagram w = Some d ->
  dg_state d = EC_DATAGRAM_TIMED_OUT -> retries (fsm w) <> 0 ->
  ec_fsm_eoe_set_ip_request cfg p e w
  = prepare_set_or_error cfg p e
      (with_fsm (set_retries (uint (retries (fsm w) - 1))) w).
Proof.
  intros Hd Hs Hr. unfold ec_fsm_eoe_set_ip_request. rewrite Hd. simpl.
  rewrite timed_out_and_retry_again by assumption. reflexivity.
Qed.

(** REQUEST: a timed-out datagram and no retry left. *)
Lemma request_timed_out_exhausted p e w d :
  previous_datagram w = Some d ->
  dg_state d = EC_DATAGRAM_TIMED_OUT -> retries (fsm w) = 0 ->
  ec_fsm_eoe_set_ip_request cfg p e w
  = Some (goto fn_error (with_fsm (set_retries (uint (0 - 1))) w)).
Proof.
  intros Hd Hs Hr. unfold ec_fsm_eoe_set_ip_request. rewrite Hd. simpl.
  rewrite timed_out_and_retry_exhausted by assumption.
  rewrite Hs. reflexivity.
Qed.

(** REQUEST: received, but no slave answered, inside the window. *)
Lemma request_unanswered_in_window p e w d rp (req : ec_eoe_request_t) :
  previous_datagram w = Some d ->
  dg_state d = EC_DATAGRAM_RECEIVED -> working_counter d = 0 ->
  request (fsm w) = Some rp -> requests w !! rp = Some req ->
  diff_ms cfg (jiffies_now e) (jiffies_sent req) < EC_EOE_RESPONSE_TIMEOUT ->
  ec_fsm_eoe_set_ip_request cfg p e w = prepare_set_or_error cfg p e w.
Proof.
  intros Hd Hs Hwc Hr Hrq Hdiff.
  unfold ec_fsm_eoe_set_ip_request. rewrite Hd. simpl.
  rewrite timed_out_and_retry_received by assumption.
  rewrite Hs, Hwc, Hr. simpl. rewrite Hrq. simpl.
  destruct (Z.ltb_spec (diff_ms cfg (jiffies_now e) (jiffies_sent req))
                       EC_EOE_RESPONSE_TIMEOUT); [reflexivity | lia].
Qed.


(** CHECK: received, acknowledged, and the mailbox is still empty. *)
Lemma check_no_data_timeout p e w d :
  previous_datagram w = Some d ->
  dg_state d = EC_DATAGRAM_RECEIVED -> working_counter d = 1 ->
  ec_slave_mbox_check d = false ->
  EC_EOE_RESPONSE_TIMEOUT
    <= diff_ms cfg (jiffies_received d) (jiffies_start (fsm w)) ->
  ec_fsm_eoe_set_ip_check cfg p e w = Some (goto fn_error w).
Proof.
  intros Hd Hs Hwc Hc Hdiff.
  unfold ec_fsm_eoe_set_ip_check. rewrite Hd. simpl.
  rewrite timed_out_and_retry_received by assumption.
  rewrite Hs, Hwc, Hc. simpl.
  destruct (Z.geb_spec (diff_ms cfg (jiffies_received d) (jiffies_start (fsm w)))
                       EC_EOE_RESPONSE_TIMEOUT); [reflexivity | lia].
Qed.

Lemma check_no_data_again p e w d f :
  previous_datagram w = Some d ->
  dg_state d = EC_DATAGRAM_RECEIVED -> working_counter d = 1 ->
  ec_slave_mbox_check d = false ->
  diff_ms cfg (jiffies_received d) (jiffies_start (fsm w))
    < EC_EOE_RESPONSE_TIMEOUT ->
  datagrams w !! p = Some f ->
  ec_fsm_eoe_set_ip_check cfg p e w
  = Some (with_fsm (set_retries (EC_FSM_RETRIES cfg))
            (with_datagrams (insert p (set_armed MboxCheck f)) w)).
Proof.
  intros Hd Hs Hwc Hc Hdiff Hf.
  unfold ec_fsm_eoe_set_ip_check. rewrite Hd. simpl.
  rewrite timed_out_and_retry_received by assumption.
  rewrite Hs, Hwc, Hc. simpl.
  destruct (Z.geb_spec (diff_ms cfg (jiffies_received d) (jiffies_start (fsm w)))
                       EC_EOE_RESPONSE_TIMEOUT); [lia |].
  unfold ec_slave_mbox_prepare_check.
  rewrite (arm_lookup MboxCheck p _ f) by exact Hf. reflexivity.
Qed.


Lemma response_fetched p e w d mbox_prot data :
  fetched w d mbox_prot data ->
  ec_fsm_eoe_set_ip_response cfg p e w
  = if negb (mbox_prot =? EC_MBOX_TYPE_EOE cfg) then Some (goto fn_error w)
    else if Z.of_nat (length data) <? 4 then Some (goto fn_error w)
    else
      b0 ← EC_READ_U8 data;
      let frame_type := Z.land b0 15 in
      if negb (frame_type =? EC_EOE_FRAMETYPE_SET_IP_RES) then
        let '(again, r) := post_decrement (frame_type_retries (fsm w)) in
        let w := with_fsm (set_frame_type_retries r) w in
        if again then
          let w := with_fsm (set_jiffies_start (dg_jiffies_sent d)) w in
          w ← ec_slave_mbox_prepare_check p w;
          let w := with_fsm (set_retries (EC_FSM_RETRIES cfg)) w in
          Some (goto fn_set_ip_check w)
        else Some (goto fn_error w)
      else
        res ← EC_READ_U16 (drop 2 data);
        rp ← request (fsm w);
        req ← requests w !! rp;
        let w := with_requests (insert rp (set_result res req)) w in
        if negb (res =? 0) then Some (goto fn_error w)
        else Some (goto fn_end w).
Proof.
  intros ((sp & s & Hs & Hsl) & Hd & Hst & Hwc & Hf).
  unfold ec_fsm_eoe_set_ip_response.
  rewrite Hs. simpl. rewrite Hsl. simpl. rewrite Hd. simpl.
  rewrite timed_out_and_retry_received by assumption.
  rewrite Hst, Hwc, Hf. reflexivity.
Qed.

Lemma response_wrong_protocol p e w d mbox_prot data :
  fetched w d mbox_prot data ->
  mbox_prot <> EC_MBOX_TYPE_EOE cfg ->
  ec_fsm_eoe_set_ip_response cfg p e w = Some (goto fn_error w).
Proof.
  intros Hf Hp. rewrite (response_fetched p e w d mbox_prot data Hf).
  destruct (Z.eqb_spec mbox_prot (EC_MBOX_TYPE_EOE cfg));
    [contradiction | reflexivity].
Qed.

Lemma response_truncated p e w d data :
  fetched w d (EC_MBOX_TYPE_EOE cfg) data ->
  (length data < 4)%nat ->
  ec_fsm_eoe_set_ip_response cfg p e w = Some (goto fn_error w).
Proof.
  intros Hf Hl. rewrite (response_fetched p e w d _ data Hf).
  rewrite Z.eqb_refl. simpl.
  destruct (Z.ltb_spec (Z.of_nat (length data)) 4); [reflexivity | lia].
Qed.



Lemma response_result p e w d (b0 b1 b2 b3 : byte) (rest : buf) rp
    (req : ec_eoe_request_t) :
  fetched w d (EC_MBOX_TYPE_EOE cfg) (b0 :: b1 :: b2 :: b3 :: rest) ->
  Z.land (byte_Z b0) 15 = EC_EOE_FRAMETYPE_SET_IP_RES ->
  request (fsm w) = Some rp -> requests w !! rp = Some req ->
  ec_fsm_eoe_set_ip_response cfg p e w
  = Some (goto (if byte_Z b2 + 256 * byte_Z b3 =? 0 then fn_end else fn_error)
            (with_requests
               (insert rp (set_result (byte_Z b2 + 256 * byte_Z b3) req)) w)).
Proof.
  intros Hf Hn Hr Hrq. rewrite (response_fetched p e w d _ _ Hf).
  rewrite Z.eqb_refl. cbn [negb length].
  destruct (Z.ltb_spec (Z.of_nat (S (S (S (S (length rest)))))) 4); [lia |].
  cbn [EC_READ_U8 lookup list_lookup fmap option_fmap option_map mbind
       option_bind].
  rewrite Hn. cbn [Z.eqb EC_EOE_FRAMETYPE_SET_IP_RES Pos.eqb negb].
  cbn [EC_READ_U16 drop lookup list_lookup mbind option_bind].
  rewrite Hr. cbn [mbind option_bind]. rewrite Hrq. cbn [mbind option_bind].
  destruct (byte_Z b2 + 256 * byte_Z b3 =? 0); reflexivity.
Qed.

(** START on a slave with the EoE bit and a mailbox layer that accepts the
    send: the request is encoded into the datagram of the call, and the
    machine enters REQUEST with [EC_FSM_RETRIES] retries. *)
Lemma start_enters_request (p : ptr) (e : env) (w : world) (sp : ptr)
    (s : ec_slave_t) (d : ec_datagram_t) (rp : ptr)
    (req : ec_eoe_request_t) :
  slave (fsm w) = Some sp -> slaves w !! sp = Some s ->
  Z.land (mailbox_protocols s) (EC_MBOX_EOE cfg) <> 0 ->
  mbox_send e = SendOk -> datagrams w !! p = Some d ->
  request (fsm w) = Some rp -> requests w !! rp = Some req ->
  exists w',
    ec_fsm_eoe_set_ip_start cfg p e w = Some w'
    /\ state (fsm w') = Some fn_set_ip_request
    /\ retries (fsm w') = EC_FSM_RETRIES cfg
    /\ requests w' !! rp = Some (set_jiffies_sent (jiffies_stamp e) req).
Proof.
  intros Hsp Hs Heoe Hsend Hd Hrp Hreq.
  unfold ec_fsm_eoe_set_ip_start. rewrite Hsp. cbn. rewrite Hs. cbn.
  destruct (Z.eqb_spec (Z.land (mailbox_protocols s) (EC_MBOX_EOE cfg)) 0);
    [contradiction|].
  rewrite (prepare_set_ok p e w sp s d rp req) by assumption. cbn.
  eexists. split; [reflexivity|]. world_simpl.
  split_and!; try reflexivity. apply lookup_insert_eq.
Qed.

(** START on a slave without the EoE bit: ERROR, and nothing is sent. *)
Lemma start_without_eoe (p : ptr) (e : env) (w : world) (sp : ptr)
    (s : ec_slave_t) :
  slave (fsm w) = Some sp -> slaves w !! sp = Some s ->
  Z.land (mailbox_protocols s) (EC_MBOX_EOE cfg) = 0 ->
  ec_fsm_eoe_set_ip_start cfg p e w = Some (goto fn_error w).
Proof.
  intros Hsp Hs Heoe.
  unfold ec_fsm_eoe_set_ip_start. rewrite Hsp. cbn. rewrite Hs. cbn.
  rewrite Heoe. reflexivity.
Qed.

(** *** The cyclic entry point *)

Lemma exec_deferred p e w :
  datagram_pending w = Some true ->
  ec_fsm_eoe_exec cfg p e w = Some (0, w).
Proof.
  intros H. unfold ec_fsm_eoe_exec. rewrite H. reflexivity.
Qed.

Lemma exec_called p e w (s : state_fn) :
  datagram_pending w = Some false -> state (fsm w) = Some s ->
  ec_fsm_eoe_exec cfg p e w
  = match call cfg s p e w with
    | Some w1 =>
        if is_terminal (fsm w1)
        then Some (0, with_fsm (set_datagram None) w1)
        else Some (1, with_fsm (set_datagram (Some p)) w1)
    | None => None
    end.
Proof.
  intros H Hs. unfold ec_fsm_eoe_exec. rewrite H. simpl. rewrite Hs. simpl.
  destruct (call cfg s p e w) as [w1|]; [|reflexivity]. simpl.
  destruct (is_terminal (fsm w1)); reflexivity.
Qed.

Lemma datagram_pending_lookup w dp d :
  datagram (fsm w) = Some dp -> datagrams w !! dp = Some d ->
  datagram_pending w
  = Some (bool_decide (dg_state d = EC_DATAGRAM_INIT)
          || bool_decide (dg_state d = EC_DATAGRAM_QUEUED)
          || bool_decide (dg_state d = EC_DATAGRAM_SENT)).
Proof.
  intros Hp Hd. unfold datagram_pending. rewrite Hp, Hd. reflexivity.
Qed.

End Handlers.

(** ** Cycles *)

Section Cycles.

Variable cfg : platform.

Implicit Types (w : world) (d : ec_datagram_t) (e : env) (p : ptr)
  (c : cycle).

Lemma is_terminal_state (f : ec_fsm_eoe_t) :
  is_terminal f
  = match state f with
    | Some fn_end | Some fn_error => true
    | _ => false
    end.
Proof.
  unfold is_terminal. destruct (state f) as [[]|]; reflexivity.
Qed.

Lemma same_layout_refl w : same_layout w w.
Proof. unfold same_layout. auto. Qed.

Lemma same_layout_trans w1 w2 w3 :
  same_layout w1 w2 -> same_layout w2 w3 -> same_layout w1 w3.
Proof.
  unfold same_layout. intros (A1 & A2 & A3 & A4 & A5) (B1 & B2 & B3 & B4 & B5).
  repeat split; congruence.
Qed.

Lemma dom_insert_present {A} (m : gmap N A) (k : N) (v : A) :
  k ∈ dom m -> dom (<[k := v]> m) = dom m.
Proof.
  intros H. rewrite dom_insert_L.
  apply subseteq_union_1_L, singleton_subseteq_l, H.
Qed.

Lemma lookup_present {A} (m : gmap N A) (k : N) :
  k ∈ dom m -> exists v, m !! k = Some v.
Proof. intros H. apply elem_of_dom in H. destruct H as [v Hv]. eauto. Qed.

Lemma present_lookup {A} (m : gmap N A) (k : N) (v : A) :
  m !! k = Some v -> k ∈ dom m.
Proof. intros H. apply elem_of_dom. eauto. Qed.

(** The transport resolves the stored datagram and nothing else. *)
Lemma transport_stored (r : resolution) w dp d :
  datagram (fsm w) = Some dp -> datagrams w !! dp = Some d ->
  fsm (transport r w) = fsm w
  /\ slaves (transport r w) = slaves w
  /\ requests (transport r w) = requests w
  /\ dom (datagrams (transport r w)) = dom (datagrams w)
  /\ previous_datagram (transport r w) = Some (resolve r d).
Proof.
  intros Hp Hd. unfold transport. rewrite Hp. cbn.
  repeat split.
  - apply dom_alter_L.
  - unfold previous_datagram. cbn. rewrite Hp. cbn.
    rewrite lookup_alter_eq, Hd. reflexivity.
Qed.

Lemma pending_resolved (r : resolution) w dp d :
  datagram (fsm w) = Some dp -> datagrams w !! dp = Some d ->
  r_state r = EC_DATAGRAM_TIMED_OUT \/ r_state r = EC_DATAGRAM_RECEIVED ->
  datagram_pending (transport r w) = Some false.
Proof.
  intros Hp Hd Hr.
  destruct (transport_stored r w dp d Hp Hd) as (Hf & _ & _ & _ & Hprev).
  unfold datagram_pending. rewrite Hf, Hp.
  unfold previous_datagram in Hprev. rewrite Hf, Hp in Hprev.
  cbn in Hprev. rewrite Hprev. cbn.
  destruct Hr as [-> | ->]; reflexivity.
Qed.

(** A cycle that finds the stored datagram resolved calls the handler of
    the current state and keeps the datagram of the cycle unless the
    handler ended the operation. *)
Lemma step_called c w dp d (s : state_fn) :
  datagram (fsm w) = Some dp -> datagrams w !! dp = Some d ->
  r_state (resolved c) = EC_DATAGRAM_TIMED_OUT
  \/ r_state (resolved c) = EC_DATAGRAM_RECEIVED ->
  state (fsm w) = Some s ->
  step cfg c w
  = match call cfg s (slot c) (outside c) (transport (resolved c) w) with
    | Some w1 =>
        Some (with_fsm
                (set_datagram
                   (if is_terminal (fsm w1) then None else Some (slot c)))
                w1)
    | None => None
    end.
Proof.
  intros Hdp Hd Hr Hst.
  destruct (transport_stored (resolved c) w dp d Hdp Hd) as (Hf & _).
  unfold step.
  rewrite (exec_called cfg _ _ _ s)
    by (first [ eapply pending_resolved; eauto | rewrite Hf; exact Hst ]).
  destruct (call cfg s (slot c) (outside c) (transport (resolved c) w))
    as [w1|]; [|reflexivity].
  destruct (is_terminal (fsm w1)); reflexivity.
Qed.

(** What a wired world offers to a cycle whose datagram it holds. *)
Lemma wired_cycle c w :
  wired w -> slot c ∈ dom (datagrams w) ->
  exists sp s rp req dp d f,
    slave (fsm w) = Some sp /\ slaves w !! sp = Some s
    /\ request (fsm w) = Some rp /\ requests w !! rp = Some req
    /\ datagram (fsm w) = Some dp /\ datagrams w !! dp = Some d
    /\ datagrams (transport (resolved c) w) !! slot c = Some f
    /\ fsm (transport (resolved c) w) = fsm w
    /\ slaves (transport (resolved c) w) = slaves w
    /\ requests (transport (resolved c) w) = requests w
    /\ dom (datagrams (transport (resolved c) w)) = dom (datagrams w)
    /\ previous_datagram (transport (resolved c) w)
       = Some (resolve (resolved c) d).
Proof.
  intros ((sp & Hsp & Hsl) & (rp & Hrp & Hrq) & (dp & Hdp & Hdg)) Hslot.
  destruct (lookup_present _ _ Hsl) as [s Hs].
  destruct (lookup_present _ _ Hrq) as [req Hreq].
  destruct (lookup_present _ _ Hdg) as [d Hd].
  destruct (transport_stored (resolved c) w dp d Hdp Hd)
    as (Hf & Hss & Hrs & Hdom & Hprev).
  assert (Hslot' : slot c ∈ dom (datagrams (transport (resolved c) w)))
    by (rewrite Hdom; exact Hslot).
  destruct (lookup_present _ _ Hslot') as [f Hfl].
  exists sp, s, rp, req, dp, d, f. repeat split; assumption.
Qed.

Ltac open_cycle Hw Hslot :=
  let sp := fresh "sp" in let s := fresh "s" in let rp := fresh "rp" in
  let req := fresh "req" in let dp := fresh "dp" in let d := fresh "d" in
  let f := fresh "f" in
  destruct (wired_cycle _ _ Hw Hslot)
    as (sp & s & rp & req & dp & d & f & Hsp & Hs & Hrp & Hreq & Hdp & Hd
        & Hfl & Hf & Hss & Hrs & Hdom & Hprev).

Ltac close_cycle :=
  unfold wired, same_layout, re_encoded; world_simpl;
  repeat match goal with
         | H : fsm (transport _ _) = _ |- _ => rewrite H
         | H : slaves (transport _ _) = _ |- _ => rewrite H
         | H : requests (transport _ _) = _ |- _ => rewrite H
         end;
  rewrite ?dom_insert_present
    by first [ assumption | eapply present_lookup; eassumption ].

(** REQUEST, the stored datagram timed out, retries left, the encoder
    succeeds: the machine stays in REQUEST with one retry less and the
    request encoded anew in the datagram of the cycle. *)
Lemma step_request_timed_out c w :
  wired w -> state (fsm w) = Some fn_set_ip_request ->
  timed_out_cycle w c -> retries (fsm w) <> 0 ->
  exists w',
    step cfg c w = Some w' /\ wired w' /\ same_layout w w'
    /\ state (fsm w') = Some fn_set_ip_request
    /\ retries (fsm w') = uint (retries (fsm w) - 1)
    /\ re_encoded cfg c w'.
Proof.
  intros Hw Hst (Hto & Hsend & Hslot) Hr. open_cycle Hw Hslot.
  rewrite (step_called c w dp d fn_set_ip_request) by auto.
  cbn [call].
  rewrite (request_timed_out_again cfg _ _ _ (resolve (resolved c) d))
    by (first [ exact Hprev | exact Hto | rewrite Hf; exact Hr ]).
  rewrite (prepare_set_or_error_ok cfg _ _ _ sp s f rp req)
    by (world_simpl; rewrite ?Hf, ?Hss, ?Hrs; assumption).
  rewrite is_terminal_state. world_simpl. rewrite Hf, Hst.
  eexists. split; [reflexivity|]. close_cycle.
  repeat apply conj; eauto using present_lookup.
  exists rp. eexists. eexists.
  split; [exact Hrp|]. rewrite !lookup_insert_eq.
  split; [reflexivity|]. split; [reflexivity|].
  split; reflexivity.
Qed.

(** REQUEST, the stored datagram timed out and no retry is left: ERROR. *)
Lemma step_request_exhausted c w :
  wired w -> state (fsm w) = Some fn_set_ip_request ->
  timed_out_cycle w c -> retries (fsm w) = 0 ->
  exists w',
    step cfg c w = Some w' /\ state (fsm w') = Some fn_error
    /\ datagram (fsm w') = None.
Proof.
  intros Hw Hst (Hto & Hsend & Hslot) Hr. open_cycle Hw Hslot.
  rewrite (step_called c w dp d fn_set_ip_request) by auto.
  cbn [call].
  rewrite (request_timed_out_exhausted cfg _ _ _ (resolve (resolved c) d))
    by (first [ exact Hprev | exact Hto | rewrite Hf; exact Hr ]).
  rewrite is_terminal_state. world_simpl.
  eexists. split; [reflexivity|]. world_simpl. split; reflexivity.
Qed.


(** REQUEST, received but not acknowledged inside the window, and the
    mailbox layer refuses the send: ERROR. *)
Lemma step_request_unanswered_refused c w rp (req : ec_eoe_request_t)
    (errno : positive) :
  wired w -> state (fsm w) = Some fn_set_ip_request ->
  request (fsm w) = Some rp -> requests w !! rp = Some req ->
  received_cycle w c 0 -> mbox_send (outside c) = SendErr errno ->
  diff_ms cfg (jiffies_now (outside c)) (jiffies_sent req)
    < EC_EOE_RESPONSE_TIMEOUT ->
  exists w', step cfg c w = Some w' /\ state (fsm w') = Some fn_error.
Proof.
  intros Hw Hst Hrp0 Hreq0 (Hrc & Hwc & Hslot) Hsend Hdiff.
  open_cycle Hw Hslot.
  assert (rp0 = rp) by congruence. subst rp0.
  assert (req0 = req) by congruence. subst req0.
  rewrite (step_called c w dp d fn_set_ip_request) by auto.
  cbn [call].
  rewrite (request_unanswered_in_window cfg _ _ _ (resolve (resolved c) d)
             rp req)
    by (first [ exact Hprev | exact Hrc | exact Hwc | exact Hdiff
              | rewrite ?Hf, ?Hrs; assumption ]).
  rewrite (prepare_set_or_error_err cfg _ _ _ sp s errno)
    by (rewrite ?Hf, ?Hss, ?Hrs; assumption).
  rewrite is_terminal_state. world_simpl.
  eexists. split; reflexivity.
Qed.







(** *** Runs *)

Lemma run_app (cs1 cs2 : list cycle) w :
  run cfg (cs1 ++ cs2) w = run cfg cs1 w ≫= run cfg cs2.
Proof.
  revert w. induction cs1 as [|c cs1 IH]; intros w; [reflexivity|].
  cbn [run app]. destruct (step cfg c w) as [w1|]; [|reflexivity].
  cbn. apply IH.
Qed.

End Cycles.

(** ** The retry bound of REQUEST *)

Section RetryBound.

Variable cfg : platform.

Implicit Types (w : world) (c : cycle) (cs : list cycle).

Lemma uint_small (z : Z) : 0 <= z < 2 ^ 32 -> uint z = z.
Proof. intros H. unfold uint, wrap, UINT_BITS. apply Z.mod_small, H. Qed.

Lemma timed_out_cycle_layout w w' c :
  same_layout w w' -> timed_out_cycle w c -> timed_out_cycle w' c.
Proof.
  intros (_ & _ & _ & _ & Hdom) (H1 & H2 & H3).
  unfold timed_out_cycle. rewrite Hdom. auto.
Qed.

(** As long as retries are left, timed-out cycles keep the machine in
    REQUEST, each taking one retry and encoding the request anew. *)
Lemma request_retries_run cs :
  forall w,
    wired w -> state (fsm w) = Some fn_set_ip_request ->
    0 <= retries (fsm w) < 2 ^ 32 ->
    Z.of_nat (length cs) <= retries (fsm w) ->
    Forall (timed_out_cycle w) cs ->
    exists w',
      run cfg cs w = Some w' /\ wired w' /\ same_layout w w'
      /\ state (fsm w') = Some fn_set_ip_request
      /\ retries (fsm w') = retries (fsm w) - Z.of_nat (length cs)
      /\ forall c, last cs = Some c -> re_encoded cfg c w'.
Proof.
  induction cs as [|c cs IH] using rev_ind; intros w Hw Hst Hr Hlen Hall.
  - exists w. cbn [run length last].
    split_and!; auto using same_layout_refl; [lia | discriminate].
  - rewrite length_app in Hlen. cbn [length] in Hlen.
    apply Forall_app in Hall. destruct Hall as [Hcs Hc].
    apply Forall_inv in Hc.
    destruct (IH w Hw Hst Hr ltac:(lia) Hcs)
      as (w1 & Hrun & Hw1 & Hl1 & Hst1 & Hr1 & _).
    destruct (step_request_timed_out cfg c w1 Hw1 Hst1
                (timed_out_cycle_layout _ _ _ Hl1 Hc) ltac:(lia))
      as (w2 & Hstep & Hw2 & Hl2 & Hst2 & Hr2 & Henc).
    exists w2. rewrite run_app, Hrun. cbn. rewrite Hstep. cbn.
    split_and!; auto.
    + eapply same_layout_trans; eassumption.
    + rewrite Hr2, Hr1, length_app. cbn [length].
      rewrite uint_small by lia. lia.
    + intros c' Hc'. rewrite last_snoc in Hc'. congruence.
Qed.

(** C3.  In REQUEST with the retry count [N = EC_FSM_RETRIES] that START
    left there, [N + 1] cycles in a row that find the stored datagram
    timed out, with an encoder that succeeds every time: after each of
    the first [N] the machine is still in REQUEST, has one retry less and
    has encoded the request anew into the datagram of that cycle; the
    cycle [N + 1] takes it to ERROR. *)
Theorem request_retry_bound w cs (final : cycle) :
  0 <= EC_FSM_RETRIES cfg < 2 ^ 32 ->
  wired w -> state (fsm w) = Some fn_set_ip_request ->
  retries (fsm w) = EC_FSM_RETRIES cfg ->
  length cs = Z.to_nat (EC_FSM_RETRIES cfg) ->
  Forall (timed_out_cycle w) (cs ++ [final]) ->
  (forall k, (k <= length cs)%nat ->
     exists wk,
       run cfg (take k cs) w = Some wk
       /\ state (fsm wk) = Some fn_set_ip_request
       /\ retries (fsm wk) = EC_FSM_RETRIES cfg - Z.of_nat k
       /\ forall c, last (take k cs) = Some c -> re_encoded cfg c wk)
  /\ exists w',
       run cfg (cs ++ [final]) w = Some w'
       /\ state (fsm w') = Some fn_error.
Proof.
  intros HN Hw Hst Hr Hlen Hall.
  apply Forall_app in Hall. destruct Hall as [Hcs Hfin].
  apply Forall_inv in Hfin.
  split.
  - intros k Hk.
    destruct (request_retries_run (take k cs) w Hw Hst)
      as (wk & Hrun & _ & _ & Hstk & Hrk & Henc).
    + lia.
    + rewrite length_take. lia.
    + apply Forall_take, Hcs.
    + exists wk. split_and!; auto.
      rewrite Hrk, Hr, length_take. lia.
  - destruct (request_retries_run cs w Hw Hst)
      as (w1 & Hrun & Hw1 & Hl1 & Hst1 & Hr1 & _); [lia | lia | exact Hcs |].
    destruct (step_request_exhausted cfg final w1 Hw1 Hst1
                (timed_out_cycle_layout _ _ _ Hl1 Hfin) ltac:(lia))
      as (w2 & Hstep & Hst2 & _).
    exists w2. rewrite run_app, Hrun. cbn. rewrite Hstep. cbn. auto.
Qed.

End RetryBound.

(** ** The response window of REQUEST *)

Section RequestWindow.

Variable cfg : platform.

Implicit Types (w : world) (c : cycle) (cs : list cycle).






End RequestWindow.

(** ** The stray-segment recovery *)

Section StraySegments.

Variable cfg : platform.

Implicit Types (w : world) (c : cycle) (cs : list cycle).








End StraySegments.

(** ** The handlers return *)

Section Totality.

Variable cfg : platform.

Implicit Types (w : world) (d : ec_datagram_t) (e : env) (p : ptr).

Lemma reachable_with_fsm w p (g : ec_fsm_eoe_t -> ec_fsm_eoe_t) :
  slave (g (fsm w)) = slave (fsm w) ->
  request (g (fsm w)) = request (fsm w) ->
  reachable w p -> reachable (with_fsm g w) p.
Proof.
  intros Hs Hr H. unfold reachable in *. world_simpl.
  rewrite Hs, Hr. exact H.
Qed.

Lemma arm_returns (op : mbox_op) p w :
  reachable w p -> exists w', arm op p w = Some w'.
Proof.
  intros (_ & _ & f & Hf). rewrite (arm_lookup op p w f Hf). eauto.
Qed.

Lemma prepare_set_returns p e w :
  reachable w p -> exists rc w', ec_fsm_eoe_prepare_set cfg p e w = Some (rc, w').
Proof.
  intros ((sp & s & Hsp & Hs) & (rp & req & Hrp & Hreq) & f & Hf).
  destruct (mbox_send e) as [|errno] eqn:Hsend.
  - rewrite (prepare_set_ok cfg p e w sp s f rp req) by assumption. eauto.
  - rewrite (prepare_set_err cfg p e w sp s errno) by assumption. eauto.
Qed.

Lemma prepare_set_or_error_returns p e w :
  reachable w p -> exists w', prepare_set_or_error cfg p e w = Some w'.
Proof.
  intros H. destruct (prepare_set_returns p e w H) as (rc & w' & Hp).
  unfold prepare_set_or_error. rewrite Hp. cbn. eauto.
Qed.

Lemma timed_out_and_retry_reachable d w p :
  reachable w p -> reachable (snd (timed_out_and_retry d w)) p.
Proof.
  intros H. unfold timed_out_and_retry, post_decrement.
  destruct (bool_decide (dg_state d = EC_DATAGRAM_TIMED_OUT)); [|exact H].
  cbn. apply reachable_with_fsm; auto.
Qed.

(** With the pointers it follows in place, every handler returns. *)
Lemma call_returns (s : state_fn) p e w :
  reachable w p ->
  s = fn_set_ip_start \/ s = fn_end \/ s = fn_error
  \/ (exists d, previous_datagram w = Some d) ->
  exists w', call cfg s p e w = Some w'.
Proof.
  intros Hre Hprev.
  assert (Hd : match s with
               | fn_set_ip_start | fn_end | fn_error => True
               | _ => exists d, previous_datagram w = Some d
               end)
    by (destruct Hprev as [-> | [-> | [-> | Hd]]]; try exact I;
        destruct s; auto).
  clear Hprev.
  pose proof (fun d => timed_out_and_retry_reachable d w p Hre) as Hre'.
  pose proof Hre as ((sp & sl & Hsp & Hsl) & (rp & req & Hrp & Hreq) & f & Hf).
  destruct s; cbn [call].
  - unfold ec_fsm_eoe_set_ip_start. rewrite Hsp. cbn. rewrite Hsl. cbn.
    destruct (Z.land (mailbox_protocols sl) (EC_MBOX_EOE cfg) =? 0); [eauto|].
    destruct (prepare_set_returns p e w Hre) as (rc & w' & ->). cbn.
    destruct (rc =? 0); eauto.
  - destruct Hd as [d Hd]. specialize (Hre' d).
    unfold ec_fsm_eoe_set_ip_request. rewrite Hd. cbn.
    destruct (timed_out_and_retry d w) as [again w1]. cbn [snd] in Hre'.
    destruct again; [apply prepare_set_or_error_returns, Hre'|].
    destruct (negb (bool_decide (dg_state d = EC_DATAGRAM_RECEIVED)));
      [eauto|].
    pose proof Hre' as (_ & (rp1 & req1 & Hrp1 & Hreq1) & _).
    destruct (negb (working_counter d =? 1)).
    + rewrite Hrp1. cbn. rewrite Hreq1. cbn.
      destruct (_ && _); [apply prepare_set_or_error_returns, Hre' | eauto].
    + destruct (arm_returns MboxCheck p
                  (with_fsm (set_jiffies_start (dg_jiffies_sent d)) w1))
        as (w2 & Hw2); [apply reachable_with_fsm; auto|].
      unfold ec_slave_mbox_prepare_check. rewrite Hw2. cbn. eauto.
  - destruct Hd as [d Hd]. specialize (Hre' d).
    unfold ec_fsm_eoe_set_ip_check. rewrite Hd. cbn.
    destruct (timed_out_and_retry d w) as [again w1]. cbn [snd] in Hre'.
    unfold ec_slave_mbox_prepare_check, ec_slave_mbox_prepare_fetch.
    destruct again; [apply arm_returns, Hre'|].
    destruct (negb (bool_decide (dg_state d = EC_DATAGRAM_RECEIVED)));
      [eauto|].
    destruct (negb (working_counter d =? 1)); [eauto|].
    destruct (negb (ec_slave_mbox_check d)).
    + destruct (_ >=? _); [eauto|].
      destruct (arm_returns MboxCheck p w1 Hre') as (w2 & ->). cbn. eauto.
    + destruct (arm_returns MboxFetch p w1 Hre') as (w2 & ->). cbn. eauto.
  - destruct Hd as [d Hd]. specialize (Hre' d).
    unfold ec_fsm_eoe_set_ip_response. rewrite Hsp. cbn. rewrite Hsl. cbn.
    rewrite Hd. cbn.
    destruct (timed_out_and_retry d w) as [again w1]. cbn [snd] in Hre'.
    unfold ec_slave_mbox_prepare_check, ec_slave_mbox_prepare_fetch.
    destruct again; [apply arm_returns, Hre'|].
    destruct (negb (bool_decide (dg_state d = EC_DATAGRAM_RECEIVED)));
      [eauto|].
    destruct (negb (working_counter d =? 1)); [eauto|].
    destruct (ec_slave_mbox_fetch d) as [[mbox_prot data]|]; [|eauto].
    destruct (negb (mbox_prot =? EC_MBOX_TYPE_EOE cfg)); [eauto|].
    destruct (Z.ltb_spec (Z.of_nat (length data)) 4) as [|Hlen]; [eauto|].
    destruct data as [|b0 [|b1 [|b2 [|b3 rest]]]]; cbn [length] in Hlen;
      try lia.
    cbn [EC_READ_U8 EC_READ_U16 drop lookup list_lookup fmap option_fmap
         option_map mbind option_bind].
    destruct (negb (_ =? EC_EOE_FRAMETYPE_SET_IP_RES)).
    + unfold post_decrement.
      destruct (negb (frame_type_retries (fsm w1) =? 0)); [|eauto].
      match goal with
      | |- context [arm MboxCheck p ?x] =>
          destruct (arm_returns MboxCheck p x) as (w2 & Hw2);
            [repeat apply reachable_with_fsm; auto|]
      end.
      rewrite Hw2. cbn. eauto.
    + pose proof Hre' as (_ & (rp1 & req1 & Hrp1 & Hreq1) & _).
      rewrite Hrp1. cbn. rewrite Hreq1. cbn.
      destruct (negb (_ =? 0)); eauto.
  - unfold ec_fsm_eoe_end. eauto.
  - unfold ec_fsm_eoe_error. eauto.
Qed.

End Totality.

(** ** The claims on single calls *)

Section Calls.

Variable cfg : platform.

Implicit Types (w : world) (d : ec_datagram_t) (e : env) (p : ptr).

(** The elapsed time of the handlers [t] ticks after a stamp, with a tick
    counter that may have wrapped in between, when [t * 1000] fits an
    [unsigned long]. *)
Lemma diff_ms_elapsed (earlier t : Z) :
  0 <= ULONG_BITS cfg -> 0 <= t -> t * 1000 < 2 ^ ULONG_BITS cfg ->
  diff_ms cfg (ulong cfg (earlier + t)) earlier = t * 1000 / HZ cfg.
Proof.
  intros Hbits Hpos Hfit.
  assert (HM : 0 < 2 ^ ULONG_BITS cfg) by (apply Z.pow_pos_nonneg; lia).
  unfold diff_ms, ulong, wrap.
  rewrite Zminus_mod_idemp_l.
  replace (earlier + t - earlier) with t by lia.
  rewrite Z.mul_mod_idemp_l by lia.
  rewrite Z.mod_small by lia. reflexivity.
Qed.

(** C2, with the condition under which it holds.  CHECK on a received
    datagram with working counter 1 whose mailbox check finds no data,
    received [t] ticks after [jiffies_start], where [t * 1000] fits an
    [unsigned long]: when the elapsed time [t * 1000 / HZ] milliseconds
    has reached the response timeout, the machine goes to ERROR whatever
    its retry count, and arms nothing; below the timeout it arms a mailbox
    check in the datagram of the call, sets the retry count to
    [EC_FSM_RETRIES], and stays in CHECK with the same [jiffies_start]. *)
Theorem check_absolute_timeout w p e dp d (t : Z) :
  0 <= ULONG_BITS cfg ->
  state (fsm w) = Some fn_set_ip_check ->
  datagram (fsm w) = Some dp -> datagrams w !! dp = Some d ->
  dg_state d = EC_DATAGRAM_RECEIVED -> working_counter d = 1 ->
  ec_slave_mbox_check d = false ->
  0 <= t -> t * 1000 < 2 ^ ULONG_BITS cfg ->
  jiffies_received d = ulong cfg (jiffies_start (fsm w) + t) ->
  (EC_EOE_RESPONSE_TIMEOUT <= t * 1000 / HZ cfg ->
   exists w',
     call cfg fn_set_ip_check p e w = Some w'
     /\ state (fsm w') = Some fn_error
     /\ datagrams w' = datagrams w
     /\ requests w' = requests w)
  /\ (t * 1000 / HZ cfg < EC_EOE_RESPONSE_TIMEOUT ->
      forall f, datagrams w !! p = Some f ->
      exists w' f',
        call cfg fn_set_ip_check p e w = Some w'
        /\ state (fsm w') = Some fn_set_ip_check
        /\ retries (fsm w') = EC_FSM_RETRIES cfg
        /\ jiffies_start (fsm w') = jiffies_start (fsm w)
        /\ datagrams w' !! p = Some f'
        /\ armed f' = MboxCheck
        /\ (forall q, q <> p -> datagrams w' !! q = datagrams w !! q)
        /\ requests w' = requests w).
Proof.
  intros Hbits Hst Hdp Hd Hrc Hwc Hno Hpos Hfit Hrecv.
  pose proof (previous_datagram_lookup w dp d Hdp Hd) as Hprev.
  assert (Hms : diff_ms cfg (jiffies_received d) (jiffies_start (fsm w))
                = t * 1000 / HZ cfg)
    by (rewrite Hrecv; apply diff_ms_elapsed; assumption).
  cbn [call]. split.
  - intros Hlate.
    rewrite (check_no_data_timeout cfg p e w d)
      by (first [ assumption | rewrite Hms; exact Hlate ]).
    eexists. split; [reflexivity|]. world_simpl. split_and!; reflexivity.
  - intros Hearly f Hf.
    rewrite (check_no_data_again cfg p e w d f)
      by (first [ assumption | rewrite Hms; exact Hearly ]).
    eexists. exists (set_armed MboxCheck f).
    split; [reflexivity|]. world_simpl.
    split_and!; try reflexivity; try exact Hst.
    + apply lookup_insert_eq.
    + intros q Hq. apply lookup_insert_ne. congruence.
Qed.

(** C4.  RESPONSE behind a fetch that succeeded: a protocol tag other
    than EoE is an error, whatever the size; with the EoE tag a payload of
    less than four bytes is an error; in both cases no request is
    written.  Otherwise the frame type is the low nibble of byte 0, and
    when it is the set IP parameter response the little-endian 16-bit
    number of bytes 2 and 3 is stored as the result of the request, whose
    other fields stay, and the machine goes to END when the number is 0
    and to ERROR otherwise, the number kept in the request. *)
Theorem response_validation w p e d (mbox_prot : Z) (data : buf) :
  fetched w d mbox_prot data ->
  (mbox_prot <> EC_MBOX_TYPE_EOE cfg ->
   exists w',
     call cfg fn_set_ip_response p e w = Some w'
     /\ state (fsm w') = Some fn_error
     /\ requests w' = requests w
     /\ datagrams w' = datagrams w)
  /\ (mbox_prot = EC_MBOX_TYPE_EOE cfg -> (length data < 4)%nat ->
      exists w',
        call cfg fn_set_ip_response p e w = Some w'
        /\ state (fsm w') = Some fn_error
        /\ requests w' = requests w
        /\ datagrams w' = datagrams w)
  /\ (mbox_prot = EC_MBOX_TYPE_EOE cfg ->
      forall (b0 b1 b2 b3 : byte) (rest : buf) rp (req : ec_eoe_request_t),
        data = b0 :: b1 :: b2 :: b3 :: rest ->
        Z.land (byte_Z b0) 15 = EC_EOE_FRAMETYPE_SET_IP_RES ->
        request (fsm w) = Some rp -> requests w !! rp = Some req ->
        exists w' req',
          call cfg fn_set_ip_response p e w = Some w'
          /\ requests w' !! rp = Some req'
          /\ result req' = byte_Z b2 + 256 * byte_Z b3
          /\ req' = set_result (result req') req
          /\ (forall q, q <> rp -> requests w' !! q = requests w !! q)
          /\ (byte_Z b2 + 256 * byte_Z b3 = 0 ->
              state (fsm w') = Some fn_end)
          /\ (byte_Z b2 + 256 * byte_Z b3 <> 0 ->
              state (fsm w') = Some fn_error
              /\ result req' <> 0)
          /\ datagrams w' = datagrams w).
Proof.
  intros Hf. cbn [call]. split_and!.
  - intros Hp.
    rewrite (response_wrong_protocol cfg p e w d mbox_prot data)
      by assumption.
    eexists. split; [reflexivity|]. world_simpl. split_and!; reflexivity.
  - intros -> Hl.
    rewrite (response_truncated cfg p e w d data) by assumption.
    eexists. split; [reflexivity|]. world_simpl. split_and!; reflexivity.
  - intros -> b0 b1 b2 b3 rest rp req -> Hn Hrp Hreq.
    rewrite (response_result cfg p e w d b0 b1 b2 b3 rest rp req)
      by assumption.
    eexists. exists (set_result (byte_Z b2 + 256 * byte_Z b3) req).
    split; [reflexivity|]. world_simpl.
    split_and!.
    + apply lookup_insert_eq.
    + reflexivity.
    + reflexivity.
    + intros q Hq. apply lookup_insert_ne. congruence.
    + intros ->. reflexivity.
    + intros Hne. split; [|exact Hne].
      destruct (Z.eqb_spec (byte_Z b2 + 256 * byte_Z b3) 0);
        [contradiction | reflexivity].
    + reflexivity.
Qed.

Lemma unresolved_pending w : unresolved w -> datagram_pending w = Some true.
Proof.
  intros (dp & d & Hdp & Hd & Hs).
  rewrite (datagram_pending_lookup w dp d Hdp Hd).
  destruct Hs as [-> | [-> | ->]]; reflexivity.
Qed.

Lemma settled_pending w : settled w -> datagram_pending w = Some false.
Proof.
  intros [Hn | (dp & d & Hdp & Hd & Hs)].
  - unfold datagram_pending. rewrite Hn. reflexivity.
  - rewrite (datagram_pending_lookup w dp d Hdp Hd).
    destruct Hs as [-> | ->]; reflexivity.
Qed.

Lemma is_terminal_false (f : ec_fsm_eoe_t) :
  state f <> Some fn_end -> state f <> Some fn_error ->
  is_terminal f = false.
Proof.
  intros H1 H2. rewrite is_terminal_state.
  destruct (state f) as [[]|]; congruence.
Qed.

Lemma is_terminal_true (f : ec_fsm_eoe_t) :
  state f = Some fn_end \/ state f = Some fn_error ->
  is_terminal f = true.
Proof.
  intros H. rewrite is_terminal_state. destruct H as [-> | ->]; reflexivity.
Qed.

(** C5.  [ec_fsm_eoe_exec] returns 0 and leaves the world as it is, no
    handler called, when a datagram is stored and is in state Init, Queued
    or Sent.  Otherwise it calls the handler of the current state once:
    when that returns a world whose state is neither END nor ERROR, exec
    returns 1 and the datagram of the call is the stored datagram
    afterwards; when the state is END or ERROR, exec returns 0 and no
    datagram is stored afterwards; every other field of the context and
    the rest of the world are as the handler left them.  The handler
    returns whenever the pointers it follows lead somewhere. *)
Theorem exec_driving_contract w p e :
  (unresolved w -> ec_fsm_eoe_exec cfg p e w = Some (0, w))
  /\ (settled w ->
      forall s, state (fsm w) = Some s ->
        (forall w1, call cfg s p e w = Some w1 ->
           exists (used : Z) w',
             ec_fsm_eoe_exec cfg p e w = Some (used, w')
             /\ (state (fsm w1) <> Some fn_end ->
                 state (fsm w1) <> Some fn_error ->
                 used = 1 /\ datagram (fsm w') = Some p)
             /\ (state (fsm w1) = Some fn_end
                 \/ state (fsm w1) = Some fn_error ->
                 used = 0 /\ datagram (fsm w') = None)
             /\ state (fsm w') = state (fsm w1)
             /\ slave (fsm w') = slave (fsm w1)
             /\ request (fsm w') = request (fsm w1)
             /\ retries (fsm w') = retries (fsm w1)
             /\ jiffies_start (fsm w') = jiffies_start (fsm w1)
             /\ frame_type_retries (fsm w') = frame_type_retries (fsm w1)
             /\ slaves w' = slaves w1
             /\ requests w' = requests w1
             /\ datagrams w' = datagrams w1)
        /\ (call cfg s p e w = None -> ec_fsm_eoe_exec cfg p e w = None)
        /\ (reachable w p ->
            s = fn_set_ip_start \/ s = fn_end \/ s = fn_error
            \/ (exists d, previous_datagram w = Some d) ->
            exists w1, call cfg s p e w = Some w1)).
Proof.
  split.
  - intros H. apply exec_deferred, unresolved_pending, H.
  - intros H s Hs.
    pose proof (exec_called cfg p e w s (settled_pending w H) Hs) as Hexec.
    split_and!.
    + intros w1 Hc. rewrite Hc in Hexec. rewrite Hexec.
      rewrite is_terminal_state.
      destruct (state (fsm w1)) as [[]|] eqn:Hs1;
        eexists _, _; (split; [reflexivity|]); world_simpl;
        (split_and!; try reflexivity; try exact Hs1;
         [ intros H1 H2; first [ split; reflexivity | congruence ]
         | intros [H1 | H1];
           first [ split; reflexivity | discriminate H1 ] ]).
    + intros Hc. rewrite Hc in Hexec. exact Hexec.
    + apply call_returns.
Qed.

(** C9.  In END or ERROR, with no stored datagram still on its way,
    [ec_fsm_eoe_exec] returns 0; no datagram changes, so nothing is armed;
    the requests and the slaves are as before, and so is every field of
    the context but the stored datagram, which is NULL afterwards. *)
Theorem terminal_states_idle w p e :
  state (fsm w) = Some fn_end \/ state (fsm w) = Some fn_error ->
  settled w ->
  exists w',
    ec_fsm_eoe_exec cfg p e w = Some (0, w')
    /\ datagrams w' = datagrams w
    /\ requests w' = requests w
    /\ slaves w' = slaves w
    /\ datagram (fsm w') = None
    /\ slave (fsm w') = slave (fsm w)
    /\ retries (fsm w') = retries (fsm w)
    /\ state (fsm w') = state (fsm w)
    /\ jiffies_start (fsm w') = jiffies_start (fsm w)
    /\ request (fsm w') = request (fsm w)
    /\ frame_type_retries (fsm w') = frame_type_retries (fsm w).
Proof.
  intros Hterm Hset.
  exists (with_fsm (set_datagram None) w). split; [|split_and!; reflexivity].
  assert (Hcall : exists s, state (fsm w) = Some s /\ call cfg s p e w = Some w).
  { destruct Hterm as [H | H]; eexists; (split; [exact H | reflexivity]). }
  destruct Hcall as (s & Hs & Hcall).
  rewrite (exec_called cfg p e w s (settled_pending w Hset) Hs), Hcall.
  rewrite is_terminal_true by exact Hterm. reflexivity.
Qed.

End Calls.

(** ** Construction and start *)

(** C7, as the code has it.  [ec_fsm_eoe_set_ip_param] sets the state to
    START and the slave and the request to the given ones, and leaves the
    retry count, the frame type retries, the start of the response window
    and the stored datagram as they were; they have their empty values,
    0 and NULL, when the context comes from [ec_fsm_eoe_init].  A stored
    datagram that is left over is still consulted by the cyclic entry
    point: while it is in state Init, Queued or Sent, [ec_fsm_eoe_exec]
    returns 0, changes nothing and does not call START. *)
Theorem set_ip_param_sets_three_fields :
  forall (f : ec_fsm_eoe_t) (sl rq : option ptr),
    state (ec_fsm_eoe_set_ip_param sl rq f) = Some fn_set_ip_start
    /\ slave (ec_fsm_eoe_set_ip_param sl rq f) = sl
    /\ request (ec_fsm_eoe_set_ip_param sl rq f) = rq
    /\ retries (ec_fsm_eoe_set_ip_param sl rq f) = retries f
    /\ frame_type_retries (ec_fsm_eoe_set_ip_param sl rq f)
       = frame_type_retries f
    /\ jiffies_start (ec_fsm_eoe_set_ip_param sl rq f) = jiffies_start f
    /\ datagram (ec_fsm_eoe_set_ip_param sl rq f) = datagram f
    /\ retries (ec_fsm_eoe_set_ip_param sl rq (ec_fsm_eoe_init f)) = 0
    /\ frame_type_retries (ec_fsm_eoe_set_ip_param sl rq (ec_fsm_eoe_init f))
       = 0
    /\ jiffies_start (ec_fsm_eoe_set_ip_param sl rq (ec_fsm_eoe_init f)) = 0
    /\ datagram (ec_fsm_eoe_set_ip_param sl rq (ec_fsm_eoe_init f)) = None
    /\ forall (cfg : platform) (w : world) (p : ptr) (e : env) (dp : ptr)
         (d : ec_datagram_t),
         fsm w = ec_fsm_eoe_set_ip_param sl rq f ->
         datagram f = Some dp -> datagrams w !! dp = Some d ->
         dg_state d = EC_DATAGRAM_INIT \/ dg_state d = EC_DATAGRAM_QUEUED
         \/ dg_state d = EC_DATAGRAM_SENT ->
         ec_fsm_eoe_exec cfg p e w = Some (0, w).
Proof.
  intros f sl rq. split_and!; try reflexivity.
  intros cfg w p e dp d Hfsm Hdp Hd Hs.
  apply exec_deferred.
  rewrite (datagram_pending_lookup w dp d)
    by (first [ rewrite Hfsm; exact Hdp | exact Hd ]).
  destruct Hs as [-> | [-> | ->]]; reflexivity.
Qed.

(** ** The layout of the request *)

Section Layout.

Variable cfg : platform.

Lemma set_ip_flags_bits (req : ec_eoe_request_t) :
  0 <= set_ip_flags req < 64
  /\ Z.testbit (set_ip_flags req) 0 = included (mac_address_included req)
  /\ Z.testbit (set_ip_flags req) 1 = included (ip_address_included req)
  /\ Z.testbit (set_ip_flags req) 2 = included (subnet_mask_included req)
  /\ Z.testbit (set_ip_flags req) 3 = included (gateway_included req)
  /\ Z.testbit (set_ip_flags req) 4 = included (dns_included req)
  /\ Z.testbit (set_ip_flags req) 5 = included (name_included req).
Proof.
  unfold set_ip_flags, nonzero, included.
  destruct (mac_address_included req =? 0),
           (ip_address_included req =? 0),
           (subnet_mask_included req =? 0),
           (gateway_included req =? 0),
           (dns_included req =? 0),
           (name_included req =? 0);
    vm_compute; intuition congruence.
Qed.

Lemma set_ip_flags_high_bits (req : ec_eoe_request_t) (k : Z) :
  6 <= k -> Z.testbit (set_ip_flags req) k = false.
Proof.
  intros Hk. destruct (set_ip_flags_bits req) as ([Hlo Hhi] & _).
  destruct (Z.eq_dec (set_ip_flags req) 0) as [-> | Hne].
  - apply Z.testbit_0_l.
  - apply Z.bits_above_log2; [lia|].
    assert (Z.log2 (set_ip_flags req) < 6); [|lia].
    apply Z.log2_lt_pow2; lia.
Qed.

(** C6.  When the mailbox layer hands out a buffer, the encoder returns 0
    and what is armed in the datagram of the call afterwards is a send,
    with the EoE mailbox type, of a payload of [8 + 6 + 4 * 4 +
    EC_MAX_HOSTNAME_SIZE] bytes: byte 0 is the set IP parameter request
    frame type, bytes 1 to 3 are zero, bytes 4 to 7 are the little-endian
    mask whose bits 0 to 5 tell whether MAC, IP address, subnet mask,
    gateway, DNS server and name are included and whose other bits are
    clear; the MAC address is at bytes 8 to 13 as it is, the four
    addresses follow in four bytes each with their bytes reversed, the
    name fills the last [EC_MAX_HOSTNAME_SIZE] bytes as it is; a field
    that is not included is all zero. *)
Theorem prepare_set_layout (w : world) (p : ptr) (e : env) (sp : ptr)
    (s : ec_slave_t) (f : ec_datagram_t) (rp : ptr)
    (req : ec_eoe_request_t) :
  slave (fsm w) = Some sp -> slaves w !! sp = Some s ->
  mbox_send e = SendOk -> datagrams w !! p = Some f ->
  request (fsm w) = Some rp -> requests w !! rp = Some req ->
  request_sized cfg req ->
  exists w' f' payload,
    ec_fsm_eoe_prepare_set cfg p e w = Some (0, w')
    /\ datagrams w' !! p = Some f'
    /\ armed f' = MboxSend (EC_MBOX_TYPE_EOE cfg) payload
    /\ length payload = (8 + 6 + 4 * 4 + EC_MAX_HOSTNAME_SIZE cfg)%nat
    /\ payload = set_ip_layout cfg req
    /\ payload !! 0%nat = Some (u8 EC_EOE_FRAMETYPE_SET_IP_REQ)
    /\ slice 1 3 payload = [x00; x00; x00]
    /\ le32_value (slice 4 4 payload) = set_ip_flags req
    /\ (forall k,
          Z.testbit (set_ip_flags req) k
          = if k =? 0 then included (mac_address_included req)
            else if k =? 1 then included (ip_address_included req)
            else if k =? 2 then included (subnet_mask_included req)
            else if k =? 3 then included (gateway_included req)
            else if k =? 4 then included (dns_included req)
            else if k =? 5 then included (name_included req)
            else false)
    /\ slice 8 6 payload
       = field (mac_address_included req) (mac_address req) 6
    /\ slice 14 4 payload
       = field (ip_address_included req) (rev (ip_address req)) 4
    /\ slice 18 4 payload
       = field (subnet_mask_included req) (rev (subnet_mask req)) 4
    /\ slice 22 4 payload
       = field (gateway_included req) (rev (gateway req)) 4
    /\ slice 26 4 payload
       = field (dns_included req) (rev (dns req)) 4
    /\ drop 30 payload
       = field (name_included req) (name req) (EC_MAX_HOSTNAME_SIZE cfg).
Proof.
  intros Hsp Hs Hsend Hf Hrp Hreq Hsized.
  rewrite (prepare_set_ok cfg p e w sp s f rp req) by assumption.
  rewrite set_ip_data_layout by exact Hsized.
  rewrite take_app_length'
    by (symmetry; apply set_ip_layout_length, Hsized).
  eexists. eexists. exists (set_ip_layout cfg req). split; [reflexivity|].
  world_simpl. split; [apply lookup_insert_eq|].
  split; [reflexivity|].
  split; [rewrite set_ip_layout_length by exact Hsized; reflexivity|].
  split; [reflexivity|].
  destruct (set_ip_flags_bits req) as (Hrange & B0 & B1 & B2 & B3 & B4 & B5).
  assert (Hbits : forall k,
    Z.testbit (set_ip_flags req) k
    = if k =? 0 then included (mac_address_included req)
      else if k =? 1 then included (ip_address_included req)
      else if k =? 2 then included (subnet_mask_included req)
      else if k =? 3 then included (gateway_included req)
      else if k =? 4 then included (dns_included req)
      else if k =? 5 then included (name_included req)
      else false).
  { intros k.
    destruct (Z.eqb_spec k 0) as [-> | ?]; [exact B0|].
    destruct (Z.eqb_spec k 1) as [-> | ?]; [exact B1|].
    destruct (Z.eqb_spec k 2) as [-> | ?]; [exact B2|].
    destruct (Z.eqb_spec k 3) as [-> | ?]; [exact B3|].
    destruct (Z.eqb_spec k 4) as [-> | ?]; [exact B4|].
    destruct (Z.eqb_spec k 5) as [-> | ?]; [exact B5|].
    destruct (Z.ltb_spec k 0); [apply Z.testbit_neg_r; lia|].
    apply set_ip_flags_high_bits. lia. }
  assert (Hval : le32_value (le32 (set_ip_flags req)) = set_ip_flags req)
    by (apply le32_value_le32; lia).
  destruct Hsized as (Hm & Hi & Hsn & Hg & Hd & Hn).
  destruct (length6 _ Hm) as (m0 & m1 & m2 & m3 & m4 & m5 & Em).
  destruct (length4 _ Hi) as (i0 & i1 & i2 & i3 & Ei).
  destruct (length4 _ Hsn) as (s0 & s1 & s2 & s3 & Es).
  destruct (length4 _ Hg) as (g0 & g1 & g2 & g3 & Eg).
  destruct (length4 _ Hd) as (d0 & d1 & d2 & d3 & Ed).
  unfold set_ip_layout, slice. rewrite Em, Ei, Es, Eg, Ed.
  generalize dependent (set_ip_flags req). intros flags _ _ _ _ _ _ _ Hbits Hval.
  generalize (field (name_included req) (name req)
                (EC_MAX_HOSTNAME_SIZE cfg)) as tail.
  intros tail. unfold field.
  split; [reflexivity|]. split; [reflexivity|].
  split; [exact Hval|]. split; [exact Hbits|].
  destruct (included (mac_address_included req)),
           (included (ip_address_included req)),
           (included (subnet_mask_included req)),
           (included (gateway_included req)),
           (included (dns_included req));
    split_and!; reflexivity.
Qed.

End Layout.

(** ** The claims at concrete inputs *)

Ltac present := apply elem_of_dom; eexists; vm_compute; reflexivity.

Ltac demo_wired :=
  unfold wired; split_and!; eexists; (split; [reflexivity | present]).

(** C8 at the bytes 1, 2, 3, 4 and the value 0x0A0B0C0D. *)
Lemma memcpy_swap32_witness :
  memcpy_swap32 [x01; x02; x03; x04] [x00; x00; x00; x00; xee]
  = [x04; x03; x02; x01; xee]
  /\ swap32 BigEndian [x00; x00; x00; x00; xee]
       (swap32 BigEndian [xff; xff; xff; xff] 168496141)
     = 168496141.
Proof.
  destruct (memcpy_swap32_reverses_and_is_involutive
              [x01; x02; x03; x04] [x00; x00; x00; x00; xee]
              [xff; xff; xff; xff] eq_refl
              ltac:(cbn; lia) ltac:(cbn; lia))
    as (_ & _ & _ & Hvalue).
  split; [reflexivity|].
  apply (Hvalue BigEndian 168496141). lia.
Defined.

(** C6 at the request of the success scenario. *)
Lemma prepare_set_layout_witness :
  exists w' f',
    ec_fsm_eoe_prepare_set linux64 11%N (demo_env 5 SendOk)
      (demo_world (demo_fsm fn_set_ip_start 0 0) idle_datagram)
    = Some (0, w')
    /\ datagrams w' !! 11%N = Some f'
    /\ armed f'
       = MboxSend 2
           ([x02; x00; x00; x00; x02; x00; x00; x00]
            ++ replicate 6 x00 ++ [x0a; x02; x00; xc0]
            ++ replicate 44 x00).
Proof.
  destruct (prepare_set_layout linux64
              (demo_world (demo_fsm fn_set_ip_start 0 0) idle_datagram)
              11%N (demo_env 5 SendOk) 1%N demo_slave idle_datagram 2%N
              demo_request)
    as (w' & f' & payload & H0 & H1 & H2 & _ & H4 & _); try reflexivity.
  - unfold request_sized. split_and!; reflexivity.
  - exists w', f'. split; [exact H0|]. split; [exact H1|].
    rewrite H2, H4. reflexivity.
Defined.

(** C3 on a 64-bit host with three retries: four timed-out cycles. *)
Lemma request_retry_bound_witness :
  (exists w3,
     run linux64
       [demo_cycle (back EC_DATAGRAM_TIMED_OUT 0 10 false None) 11%N 10 SendOk;
        demo_cycle (back EC_DATAGRAM_TIMED_OUT 0 20 false None) 10%N 20 SendOk;
        demo_cycle (back EC_DATAGRAM_TIMED_OUT 0 30 false None) 11%N 30 SendOk]
       (demo_world (demo_fsm fn_set_ip_request 3 0) idle_datagram)
     = Some w3
     /\ state (fsm w3) = Some fn_set_ip_request /\ retries (fsm w3) = 0)
  /\ exists w4,
       run linux64
         [demo_cycle (back EC_DATAGRAM_TIMED_OUT 0 10 false None) 11%N 10 SendOk;
          demo_cycle (back EC_DATAGRAM_TIMED_OUT 0 20 false None) 10%N 20 SendOk;
          demo_cycle (back EC_DATAGRAM_TIMED_OUT 0 30 false None) 11%N 30 SendOk;
          demo_cycle (back EC_DATAGRAM_TIMED_OUT 0 40 false None) 10%N 40 SendOk]
         (demo_world (demo_fsm fn_set_ip_request 3 0) idle_datagram)
       = Some w4
       /\ state (fsm w4) = Some fn_error.
Proof.
  destruct (request_retry_bound linux64
              (demo_world (demo_fsm fn_set_ip_request 3 0) idle_datagram)
              [demo_cycle (back EC_DATAGRAM_TIMED_OUT 0 10 false None) 11%N 10 SendOk;
               demo_cycle (back EC_DATAGRAM_TIMED_OUT 0 20 false None) 10%N 20 SendOk;
               demo_cycle (back EC_DATAGRAM_TIMED_OUT 0 30 false None) 11%N 30 SendOk]
              (demo_cycle (back EC_DATAGRAM_TIMED_OUT 0 40 false None) 10%N 40 SendOk))
    as [Hprefix Hfinal].
  - cbn. lia.
  - demo_wired.
  - reflexivity.
  - reflexivity.
  - reflexivity.
  - repeat constructor; present.
  - split; [|exact Hfinal].
    destruct (Hprefix 3%nat ltac:(cbn; lia)) as (w3 & H1 & H2 & H3 & _).
    exists w3. split; [exact H1|]. split; [exact H2 | exact H3].
Defined.





(** C2 on a 64-bit host at 250 Hz: 750 ticks are 3000 ms, with all three
    retries left; 749 ticks are less. *)
Lemma check_absolute_timeout_witness :
  (exists w',
     call linux64 fn_set_ip_check 11%N (demo_env 751 SendOk)
       (demo_world (demo_fsm fn_set_ip_check 3 10)
          (resolve (back EC_DATAGRAM_RECEIVED 1 750 false None)
                   idle_datagram))
     = Some w'
     /\ state (fsm w') = Some fn_error)
  /\ exists w' f',
       call linux64 fn_set_ip_check 11%N (demo_env 750 SendOk)
         (demo_world (demo_fsm fn_set_ip_check 0 10)
            (resolve (back EC_DATAGRAM_RECEIVED 1 749 false None)
                     idle_datagram))
       = Some w'
       /\ state (fsm w') = Some fn_set_ip_check
       /\ retries (fsm w') = 3
       /\ datagrams w' !! 11%N = Some f'
       /\ armed f' = MboxCheck.
Proof.
  split.
  - destruct (check_absolute_timeout linux64
                (demo_world (demo_fsm fn_set_ip_check 3 10)
                   (resolve (back EC_DATAGRAM_RECEIVED 1 750 false None)
                            idle_datagram))
                11%N (demo_env 751 SendOk) 10%N
                (resolve (back EC_DATAGRAM_RECEIVED 1 750 false None)
                         idle_datagram)
                750)
      as (Hlate & _);
      try first [ reflexivity | vm_compute; first [reflexivity | discriminate] ].
    destruct Hlate as (w' & H1 & H2 & _); [vm_compute; discriminate|].
    exists w'. split; assumption.
  - destruct (check_absolute_timeout linux64
                (demo_world (demo_fsm fn_set_ip_check 0 10)
                   (resolve (back EC_DATAGRAM_RECEIVED 1 749 false None)
                            idle_datagram))
                11%N (demo_env 750 SendOk) 10%N
                (resolve (back EC_DATAGRAM_RECEIVED 1 749 false None)
                         idle_datagram)
                749)
      as (_ & Hearly);
      try first [ reflexivity | vm_compute; first [reflexivity | discriminate] ].
    destruct (Hearly eq_refl idle_datagram eq_refl)
      as (w' & f' & H1 & H2 & H3 & _ & H5 & H6 & _).
    exists w', f'. split_and!; assumption.
Defined.

(** C2 does not hold when the product wraps: on a 32-bit host at 1000 Hz
    a poll that is received 4294968 ticks, more than an hour, after
    [jiffies_start] finds no data, and the handler, whose product
    4294968000 is 704 modulo 2^32, computes 0 ms: it arms another check
    and stays in CHECK. *)
Lemma check_timeout_wraps_on_32_bits :
  jiffies_received
    (resolve (back EC_DATAGRAM_RECEIVED 1 4294968 false None) idle_datagram)
  = jiffies_start (demo_fsm fn_set_ip_check 3 10) + 4294968
  /\ EC_EOE_RESPONSE_TIMEOUT <= 4294968 * 1000 / HZ ilp32
  /\ diff_ms ilp32 4294968 0 = 0
  /\ exists w',
       call ilp32 fn_set_ip_check 11%N (demo_env 4294969 SendOk)
         (demo_world (demo_fsm fn_set_ip_check 3 10)
            (resolve (back EC_DATAGRAM_RECEIVED 1 4294968 false None)
                     idle_datagram))
       = Some w'
       /\ state (fsm w') = Some fn_set_ip_check
       /\ state (fsm w') <> Some fn_error.
Proof.
  split; [reflexivity|]. split; [vm_compute; discriminate|].
  split; [reflexivity|].
  eexists. split; [vm_compute; reflexivity|].
  split; [reflexivity | discriminate].
Qed.

(** C4 at the rejection scenario of the specification: the reply
    03 00 01 00 gives the result 1 and ERROR. *)
Lemma response_validation_witness :
  exists w' req',
    call linux64 fn_set_ip_response 11%N (demo_env 60 SendOk)
      (demo_world (demo_fsm fn_set_ip_response 3 10)
         (resolve (back EC_DATAGRAM_RECEIVED 1 50 false
                     (Some (2, [x03; x00; x01; x00])))
                  idle_datagram))
    = Some w'
    /\ requests w' !! 2%N = Some req'
    /\ result req' = 1
    /\ state (fsm w') = Some fn_error.
Proof.
  destruct (response_validation linux64
              (demo_world (demo_fsm fn_set_ip_response 3 10)
                 (resolve (back EC_DATAGRAM_RECEIVED 1 50 false
                             (Some (2, [x03; x00; x01; x00])))
                          idle_datagram))
              11%N (demo_env 60 SendOk)
              (resolve (back EC_DATAGRAM_RECEIVED 1 50 false
                          (Some (2, [x03; x00; x01; x00])))
                       idle_datagram)
              2 [x03; x00; x01; x00])
    as (_ & _ & Hres).
  - unfold fetched. split_and!; try reflexivity.
    eexists _, _. split; reflexivity.
  - destruct (Hres eq_refl x03 x00 x01 x00 [] 2%N demo_request
                eq_refl eq_refl eq_refl eq_refl)
      as (w' & req' & H1 & H2 & H3 & _ & _ & _ & H7 & _).
    exists w', req'. split; [exact H1|]. split; [exact H2|].
    split; [exact H3|].
    apply H7. vm_compute. discriminate.
Defined.

(** C9 in END, the stored datagram received. *)
Lemma terminal_states_idle_witness :
  exists w',
    ec_fsm_eoe_exec linux64 11%N (demo_env 70 SendOk)
      (demo_world (demo_fsm fn_end 3 10)
         (resolve (back EC_DATAGRAM_RECEIVED 1 50 false None) idle_datagram))
    = Some (0, w')
    /\ datagram (fsm w') = None
    /\ state (fsm w') = Some fn_end
    /\ datagrams w'
       = datagrams
           (demo_world (demo_fsm fn_end 3 10)
              (resolve (back EC_DATAGRAM_RECEIVED 1 50 false None)
                       idle_datagram)).
Proof.
  destruct (terminal_states_idle linux64
              (demo_world (demo_fsm fn_end 3 10)
                 (resolve (back EC_DATAGRAM_RECEIVED 1 50 false None)
                          idle_datagram))
              11%N (demo_env 70 SendOk))
    as (w' & H1 & H2 & _ & _ & H3 & _ & _ & H4 & _).
  - left. reflexivity.
  - right. eexists _, _. split; [reflexivity|]. split; [reflexivity|].
    left. reflexivity.
  - exists w'. split; [exact H1|]. split; [exact H3|].
    split; [exact H4 | exact H2].
Defined.



(** C7 does not hold with a reset: on a context that an earlier operation
    left with 2 retries, 7 frame type retries and a stored datagram,
    [ec_fsm_eoe_set_ip_param] resets none of them. *)
Lemma set_ip_param_resets_nothing :
  retries (ec_fsm_eoe_set_ip_param (Some 1%N) (Some 2%N)
             (demo_fsm fn_error 2 7)) = 2
  /\ frame_type_retries (ec_fsm_eoe_set_ip_param (Some 1%N) (Some 2%N)
                           (demo_fsm fn_error 2 7)) = 7
  /\ datagram (ec_fsm_eoe_set_ip_param (Some 1%N) (Some 2%N)
                 (demo_fsm fn_error 2 7)) = Some 10%N
  /\ ~ (retries (ec_fsm_eoe_set_ip_param (Some 1%N) (Some 2%N)
                   (demo_fsm fn_error 2 7))
        = retries (ec_fsm_eoe_init (demo_fsm fn_error 2 7))
        /\ frame_type_retries (ec_fsm_eoe_set_ip_param (Some 1%N) (Some 2%N)
                                 (demo_fsm fn_error 2 7))
           = frame_type_retries (ec_fsm_eoe_init (demo_fsm fn_error 2 7))
        /\ datagram (ec_fsm_eoe_set_ip_param (Some 1%N) (Some 2%N)
                       (demo_fsm fn_error 2 7))
           = datagram (ec_fsm_eoe_init (demo_fsm fn_error 2 7))).
Proof.
  split_and!; try reflexivity. intros (H & _). discriminate H.
Qed.

(** C7 at a context that an earlier operation left with a stored datagram
    which is still queued: after [ec_fsm_eoe_set_ip_param] the cyclic
    entry point returns 0 and START has not run. *)
Lemma set_ip_param_sets_three_fields_witness :
  ec_fsm_eoe_exec linux64 11%N (demo_env 1 SendOk)
    (demo_world
       (ec_fsm_eoe_set_ip_param (Some 1%N) (Some 2%N)
          (demo_fsm fn_error 2 7))
       (resolve (back EC_DATAGRAM_QUEUED 0 0 false None) idle_datagram))
  = Some (0,
          demo_world
            (ec_fsm_eoe_set_ip_param (Some 1%N) (Some 2%N)
               (demo_fsm fn_error 2 7))
            (resolve (back EC_DATAGRAM_QUEUED 0 0 false None) idle_datagram)).
Proof.
  destruct (set_ip_param_sets_three_fields (demo_fsm fn_error 2 7)
              (Some 1%N) (Some 2%N))
    as (_ & _ & _ & _ & _ & _ & _ & _ & _ & _ & _ & Hdeferred).
  apply (Hdeferred linux64 _ 11%N (demo_env 1 SendOk) 10%N
           (resolve (back EC_DATAGRAM_QUEUED 0 0 false None) idle_datagram)).
  - reflexivity.
  - reflexivity.
  - reflexivity.
  - right. left. reflexivity.
Defined.

(** The success scenario of the specification: the request with only the
    IP address 192.0.2.10, an acknowledged request, a mailbox check that
    finds data, and the reply 03 00 00 00. *)
Example success_scenario :
  (fun w => (ec_fsm_eoe_success (fsm w), state (fsm w), datagram (fsm w),
             result <$> requests w !! 2%N))
  <$> run linux64
        [demo_cycle (back EC_DATAGRAM_INIT 0 0 false None) 10%N 1 SendOk;
         demo_cycle (back EC_DATAGRAM_RECEIVED 1 2 false None) 11%N 2 SendOk;
         demo_cycle (back EC_DATAGRAM_RECEIVED 1 3 true None) 10%N 3 SendOk;
         demo_cycle (back EC_DATAGRAM_RECEIVED 1 4 false
                       (Some (2, [x03; x00; x00; x00]))) 11%N 4 SendOk]
        {| fsm := ec_fsm_eoe_set_ip_param (Some 1%N) (Some 2%N)
                    (ec_fsm_eoe_init (demo_fsm fn_error 2 7));
           slaves := {[ 1%N := demo_slave ]};
           requests := {[ 2%N := set_result 9 demo_request ]};
           datagrams := {[ 10%N := idle_datagram; 11%N := idle_datagram ]} |}
  = Some (true, Some fn_end, None, Some 0).
Proof. vm_compute. reflexivity. Qed.

(** The rejection scenario: the reply 03 00 01 00 ends in ERROR with the
    result 1 in the request. *)
Example rejection_scenario :
  (fun w => (ec_fsm_eoe_success (fsm w), state (fsm w), datagram (fsm w),
             result <$> requests w !! 2%N))
  <$> run linux64
        [demo_cycle (back EC_DATAGRAM_INIT 0 0 false None) 10%N 1 SendOk;
         demo_cycle (back EC_DATAGRAM_RECEIVED 1 2 false None) 11%N 2 SendOk;
         demo_cycle (back EC_DATAGRAM_RECEIVED 1 3 true None) 10%N 3 SendOk;
         demo_cycle (back EC_DATAGRAM_RECEIVED 1 4 false
                       (Some (2, [x03; x00; x01; x00]))) 11%N 4 SendOk]
        {| fsm := ec_fsm_eoe_set_ip_param (Some 1%N) (Some 2%N)
                    (ec_fsm_eoe_init (demo_fsm fn_error 2 7));
           slaves := {[ 1%N := demo_slave ]};
           requests := {[ 2%N := demo_request ]};
           datagrams := {[ 10%N := idle_datagram; 11%N := idle_datagram ]} |}
  = Some (false, Some fn_error, None, Some 1).
Proof. vm_compute. reflexivity. Qed.

(** C5 at a stored datagram that is still queued, and at the START call
    of the success scenario. *)
Lemma exec_driving_contract_witness :
  ec_fsm_eoe_exec linux64 11%N (demo_env 1 SendOk)
    (demo_world (demo_fsm fn_set_ip_check 3 10)
       (resolve (back EC_DATAGRAM_QUEUED 0 0 false None) idle_datagram))
  = Some (0, demo_world (demo_fsm fn_set_ip_check 3 10)
               (resolve (back EC_DATAGRAM_QUEUED 0 0 false None)
                        idle_datagram))
  /\ exists w1 w',
       call linux64 fn_set_ip_start 11%N (demo_env 1 SendOk)
         (demo_world
            (ec_fsm_eoe_set_ip_param (Some 1%N) (Some 2%N)
               (ec_fsm_eoe_init (demo_fsm fn_error 2 7)))
            idle_datagram)
       = Some w1
       /\ ec_fsm_eoe_exec linux64 11%N (demo_env 1 SendOk)
            (demo_world
               (ec_fsm_eoe_set_ip_param (Some 1%N) (Some 2%N)
                  (ec_fsm_eoe_init (demo_fsm fn_error 2 7)))
               idle_datagram)
          = Some (1, w')
       /\ datagram (fsm w') = Some 11%N
       /\ state (fsm w') = Some fn_set_ip_request.
Proof.
  split.
  - apply (proj1 (exec_driving_contract linux64 _ 11%N (demo_env 1 SendOk))).
    eexists _, _. split; [reflexivity|]. split; [reflexivity|].
    right. left. reflexivity.
  - destruct (exec_driving_contract linux64
                (demo_world
                   (ec_fsm_eoe_set_ip_param (Some 1%N) (Some 2%N)
                      (ec_fsm_eoe_init (demo_fsm fn_error 2 7)))
                   idle_datagram)
                11%N (demo_env 1 SendOk))
      as [_ Hcall].
    destruct (Hcall (or_introl eq_refl) fn_set_ip_start eq_refl)
      as (Hused & _ & Hreturns).
    destruct Hreturns as (w1 & Hw1).
    + unfold reachable. split_and!; eexists; try eexists;
        try (split; reflexivity); reflexivity.
    + left. reflexivity.
    + destruct (Hused w1 Hw1) as (used & w' & Hexec & Hrun & _ & Hstate & _).
      assert (Hs1 : state (fsm w1) = Some fn_set_ip_request)
        by (vm_compute in Hw1; injection Hw1 as <-; reflexivity).
      destruct Hrun as [-> Hstored];
        [rewrite Hs1; discriminate | rewrite Hs1; discriminate |].
      exists w1, w'. split_and!; try assumption. congruence.
Defined.

(** ** What a call may change *)

Section Effects.

Variable cfg : platform.

Implicit Types (w : world) (d : ec_datagram_t) (e : env) (p : ptr).

Ltac effect_done :=
  unfold touches_only; world_simpl;
  split_and!; try reflexivity;
  first [ left; reflexivity
        | right; do 2 eexists; split; [eassumption | reflexivity]
        | right; do 3 eexists; split; [eassumption|];
          split; [eassumption|]; first [left; reflexivity | right; reflexivity] ].

Ltac budget_done Hst :=
  unfold budget_effect; world_simpl; rewrite ?Hst;
  first [ reflexivity | exact I | split; [assumption | reflexivity] ].

Ltac result_done Hst :=
  unfold result_effect; world_simpl;
  first
    [ left; split;
      [ intros rq;
        first
          [ reflexivity
          | match goal with
            | Hreq : requests _ !! ?rp = Some _ |- _ =>
                destruct (decide (rp = rq)) as [<- | ?];
                [ rewrite lookup_insert_eq, Hreq; reflexivity
                | rewrite lookup_insert_ne by assumption; reflexivity ]
            end ]
      | first [ intros _; reflexivity | congruence ] ]
    | right; split; [reflexivity|];
      do 3 eexists; split; [eassumption|]; split; [eassumption|];
      split; reflexivity ].

Ltac conclude Hst :=
  split; [effect_done|];
  split; [eexists; split;
          [world_simpl; first [reflexivity | exact Hst] | reflexivity]|];
  split; [budget_done Hst | result_done Hst].

Ltac leaf H Hst := injection H as <-; conclude Hst.

Lemma arm_effect (op : mbox_op) p w w1 :
  arm op p w = Some w1 ->
  exists f,
    datagrams w !! p = Some f
    /\ w1 = with_datagrams (insert p (set_armed op f)) w.
Proof.
  unfold arm. destruct (datagrams w !! p) as [f|] eqn:Hf; [|discriminate].
  cbn. intros [= <-]. exists f. split; first [reflexivity | assumption].
Qed.

Lemma prepare_set_effect p e w (rc : Z) w1 :
  ec_fsm_eoe_prepare_set cfg p e w = Some (rc, w1) ->
  (rc <> 0 /\ w1 = w)
  \/ (rc = 0
      /\ exists f rp req,
           datagrams w !! p = Some f /\ request (fsm w) = Some rp
           /\ requests w !! rp = Some req
           /\ w1 = with_requests
                     (insert rp (set_jiffies_sent (jiffies_stamp e) req))
                     (with_datagrams
                        (insert p
                           (set_armed
                              (MboxSend (EC_MBOX_TYPE_EOE cfg)
                                 (take (set_ip_size cfg)
                                       (set_ip_data cfg req (stale e))))
                              f)) w)).
Proof.
  unfold ec_fsm_eoe_prepare_set.
  destruct (slave (fsm w)) as [sp|]; [|discriminate]. cbn.
  destruct (slaves w !! sp) as [s|]; [|discriminate]. cbn.
  destruct (mbox_send e) as [|errno].
  - destruct (datagrams w !! p) as [f|] eqn:Hf; [|discriminate]. cbn.
    destruct (request (fsm w)) as [rp|] eqn:Hrp; [|discriminate]. cbn.
    destruct (requests w !! rp) as [req|] eqn:Hreq; [|discriminate]. cbn.
    intros [= <- <-]. right. split; [reflexivity|].
    exists f, rp, req. split_and!; first [reflexivity | assumption].
  - intros [= <- <-]. left. split; [lia | reflexivity].
Qed.

Lemma prepare_set_or_error_effect p e w w1 :
  prepare_set_or_error cfg p e w = Some w1 ->
  w1 = goto fn_error w
  \/ exists f rp req,
       datagrams w !! p = Some f /\ request (fsm w) = Some rp
       /\ requests w !! rp = Some req
       /\ w1 = with_requests
                 (insert rp (set_jiffies_sent (jiffies_stamp e) req))
                 (with_datagrams
                    (insert p
                       (set_armed
                          (MboxSend (EC_MBOX_TYPE_EOE cfg)
                             (take (set_ip_size cfg)
                                   (set_ip_data cfg req (stale e))))
                          f)) w).
Proof.
  unfold prepare_set_or_error.
  destruct (ec_fsm_eoe_prepare_set cfg p e w) as [[rc w2]|] eqn:Hp;
    [|discriminate].
  cbn. intros [= <-].
  destruct (prepare_set_effect p e w rc w2 Hp)
    as [[Hrc ->] | [-> Hok]].
  - left. destruct (Z.eqb_spec rc 0); [contradiction | reflexivity].
  - right. exact Hok.
Qed.

Ltac settle H Hst :=
  first
    [ discriminate H
    | leaf H Hst
    | let f := fresh "f" in let rp := fresh "rp" in
      let req := fresh "req" in
      let Hf := fresh "Hf" in let Hrp := fresh "Hrp" in
      let Hreq := fresh "Hreq" in
      destruct (prepare_set_or_error_effect _ _ _ _ H)
        as [-> | (f & rp & req & Hf & Hrp & Hreq & ->)];
      clear H; conclude Hst
    | let w2 := fresh "w2" in let Ha := fresh "Ha" in
      let f := fresh "f" in let Hf := fresh "Hf" in
      match type of H with
      | context [arm ?op ?p ?x] =>
          destruct (arm op p x) as [w2|] eqn:Ha; [|discriminate H];
          apply arm_effect in Ha; destruct Ha as (f & Hf & ->);
          cbn in H; leaf H Hst
      end ].

Lemma with_fsm_same_retries w :
  with_fsm (set_retries (retries (fsm w))) w = w.
Proof. destruct w as [[] ? ? ?]. reflexivity. Qed.

Lemma timed_out_and_retry_shape d w :
  exists r, snd (timed_out_and_retry d w) = with_fsm (set_retries r) w.
Proof.
  unfold timed_out_and_retry, post_decrement.
  destruct (bool_decide (dg_state d = EC_DATAGRAM_TIMED_OUT)); cbn.
  - eauto.
  - exists (retries (fsm w)). symmetry. apply with_fsm_same_retries.
Qed.

Lemma call_effect (s : state_fn) p e w w1 :
  state (fsm w) = Some s ->
  call cfg s p e w = Some w1 ->
  touches_only p w w1
  /\ (exists s1, state (fsm w1) = Some s1 /\ may_follow s s1 = true)
  /\ budget_effect s w w1
  /\ result_effect s w w1.
Proof.
  intros Hst H. destruct s; cbn [call] in H.
  - unfold ec_fsm_eoe_set_ip_start in H.
    destruct (slave (fsm w)) as [sp|]; [|discriminate]. cbn in H.
    destruct (slaves w !! sp) as [sl|]; [|discriminate]. cbn in H.
    destruct (Z.land (mailbox_protocols sl) (EC_MBOX_EOE cfg) =? 0);
      [leaf H Hst|].
    destruct (ec_fsm_eoe_prepare_set cfg p e w) as [[rc w2]|] eqn:Hp;
      [|discriminate].
    cbn in H.
    destruct (prepare_set_effect p e w rc w2 Hp)
      as [[Hrc ->] | [-> (f & rp & req & Hf & Hrp & Hreq & ->)]].
    + destruct (Z.eqb_spec rc 0); [contradiction|]. leaf H Hst.
    + cbn in H. leaf H Hst.
  - unfold ec_fsm_eoe_set_ip_request in H.
    destruct (previous_datagram w) as [d|]; [|discriminate]. cbn in H.
    destruct (timed_out_and_retry_shape d w) as [r Hr].
    destruct (timed_out_and_retry d w) as [again w0]. cbn [snd] in Hr.
    subst w0. unfold ec_slave_mbox_prepare_check in H.
    destruct again; [settle H Hst|].
    destruct (negb (bool_decide (dg_state d = EC_DATAGRAM_RECEIVED)));
      [settle H Hst|].
    destruct (negb (working_counter d =? 1)); [|settle H Hst].
    world_simpl.
    destruct (request (fsm w)) as [rp0|]; [|discriminate]. cbn in H.
    destruct (requests w !! rp0) as [req0|]; [|discriminate]. cbn in H.
    destruct (_ && _); settle H Hst.
  - unfold ec_fsm_eoe_set_ip_check in H.
    destruct (previous_datagram w) as [d|]; [|discriminate]. cbn in H.
    destruct (timed_out_and_retry_shape d w) as [r Hr].
    destruct (timed_out_and_retry d w) as [again w0]. cbn [snd] in Hr.
    subst w0.
    unfold ec_slave_mbox_prepare_check, ec_slave_mbox_prepare_fetch in H.
    destruct again; [settle H Hst|].
    destruct (negb (bool_decide (dg_state d = EC_DATAGRAM_RECEIVED)));
      [settle H Hst|].
    destruct (negb (working_counter d =? 1)); [settle H Hst|].
    destruct (negb (ec_slave_mbox_check d)); [|settle H Hst].
    world_simpl. destruct (_ >=? _); settle H Hst.
  - unfold ec_fsm_eoe_set_ip_response in H.
    destruct (slave (fsm w)) as [sp|]; [|discriminate]. cbn in H.
    destruct (slaves w !! sp) as [sl|]; [|discriminate]. cbn in H.
    destruct (previous_datagram w) as [d|]; [|discriminate]. cbn in H.
    destruct (timed_out_and_retry_shape d w) as [r Hr].
    destruct (timed_out_and_retry d w) as [again w0]. cbn [snd] in Hr.
    subst w0.
    unfold ec_slave_mbox_prepare_check, ec_slave_mbox_prepare_fetch,
      post_decrement in H.
    destruct again; [settle H Hst|].
    destruct (negb (bool_decide (dg_state d = EC_DATAGRAM_RECEIVED)));
      [settle H Hst|].
    destruct (negb (working_counter d =? 1)); [settle H Hst|].
    destruct (ec_slave_mbox_fetch d) as [[mbox_prot data]|];
      [|settle H Hst].
    destruct (negb (mbox_prot =? EC_MBOX_TYPE_EOE cfg)); [settle H Hst|].
    destruct (Z.of_nat (length data) <? 4); [settle H Hst|].
    destruct (EC_READ_U8 data) as [b0|]; [|discriminate]. cbn in H.
    destruct (negb (Z.land b0 15 =? EC_EOE_FRAMETYPE_SET_IP_RES)).
    + world_simpl.
      destruct (Z.eqb_spec (frame_type_retries (fsm w)) 0); cbn [negb] in H;
        settle H Hst.
    + destruct (EC_READ_U16 (drop 2 data)) as [res|]; [|discriminate].
      cbn in H. world_simpl.
      destruct (request (fsm w)) as [rp|] eqn:Hrp; [|discriminate].
      cbn in H.
      destruct (requests w !! rp) as [req|] eqn:Hreq; [|discriminate].
      cbn in H.
      destruct (Z.eqb_spec res 0) as [-> | Hres]; cbn [negb] in H.
      * leaf H Hst.
      * injection H as <-. split; [effect_done|].
        split; [eexists; split; reflexivity|].
        split; [budget_done Hst|].
        right. split; [reflexivity|]. exists rp, req, res.
        world_simpl. split_and!; auto.
        destruct (Z.eqb_spec res 0); [contradiction | reflexivity].
  - unfold ec_fsm_eoe_end in H. leaf H Hst.
  - unfold ec_fsm_eoe_error in H. leaf H Hst.
Qed.
End Effects.

(** ** Runs under any transport *)

Section AnyTransport.

Variable cfg : platform.

Implicit Types (w : world) (d : ec_datagram_t) (e : env) (p : ptr)
  (c : cycle) (cs : list cycle).

Lemma set_armed_same d : set_armed (armed d) d = d.
Proof. destruct d. reflexivity. Qed.

Lemma set_armed_twice (op op' : mbox_op) d :
  set_armed op (set_armed op' d) = set_armed op d.
Proof. reflexivity. Qed.

Lemma unstamped_same (r : ec_eoe_request_t) :
  set_result (result r) (set_jiffies_sent (jiffies_sent r) r) = r.
Proof. destruct r. reflexivity. Qed.

(** The transport leaves the context, the slaves and the requests alone,
    and of the datagrams it changes nothing that was armed. *)
Lemma transport_frame (r : resolution) w :
  fsm (transport r w) = fsm w
  /\ slaves (transport r w) = slaves w
  /\ requests (transport r w) = requests w
  /\ dom (datagrams (transport r w)) = dom (datagrams w)
  /\ forall q,
       armed <$> datagrams (transport r w) !! q = armed <$> datagrams w !! q.
Proof.
  unfold transport. destruct (datagram (fsm w)) as [dp|]; [|auto].
  world_simpl. split_and!; try reflexivity.
  - apply dom_alter_L.
  - intros q. destruct (decide (dp = q)) as [<- | Hne].
    + rewrite lookup_alter_eq. destruct (datagrams w !! dp); reflexivity.
    + rewrite lookup_alter_ne by exact Hne. reflexivity.
Qed.

(** A cycle either defers, and then only the transport acted, or it is one
    call of the handler of the current state on the world the transport
    left, followed by the bookkeeping of the stored datagram. *)
Lemma step_cases c w w1 :
  step cfg c w = Some w1 ->
  w1 = transport (resolved c) w
  \/ exists s w0,
       state (fsm w) = Some s
       /\ call cfg s (slot c) (outside c) (transport (resolved c) w) = Some w0
       /\ w1 = with_fsm
                 (set_datagram
                    (if is_terminal (fsm w0) then None else Some (slot c)))
                 w0.
Proof.
  unfold step, ec_fsm_eoe_exec.
  destruct (transport_frame (resolved c) w) as (Hf & _).
  destruct (datagram_pending (transport (resolved c) w)) as [[|]|];
    cbn; [intros [= <-]; auto | | discriminate].
  rewrite Hf. destruct (state (fsm w)) as [s|] eqn:Hs; [|discriminate]. cbn.
  destruct (call cfg s (slot c) (outside c) (transport (resolved c) w))
    as [w0|] eqn:Hc; [|discriminate].
  cbn. intros H. right. exists s, w0.
  split_and!; try first [reflexivity | assumption].
  destruct (is_terminal (fsm w0)); cbn in H; injection H as <-; reflexivity.
Qed.

Lemma touches_only_layout p w w1 :
  touches_only p w w1 -> same_layout w w1.
Proof.
  intros (H1 & H2 & _ & H4 & Hd & Hr). unfold same_layout.
  split_and!; auto.
  - destruct Hr as [-> | (rp & req & v & _ & Hreq & [-> | ->])];
      [reflexivity | |];
      apply dom_insert_present; eapply present_lookup; eassumption.
  - destruct Hd as [-> | (f & op & Hf & ->)]; [reflexivity|].
    apply dom_insert_present. eapply present_lookup; eassumption.
Qed.

Lemma may_follow_reach (s s1 : state_fn) :
  may_follow s s1 = true -> may_reach s s1 = true.
Proof. destruct s, s1; cbn; congruence. Qed.

Lemma may_reach_refl (s : state_fn) : may_reach s s = true.
Proof. destruct s; reflexivity. Qed.

Lemma may_reach_trans (s1 s2 s3 : state_fn) :
  may_reach s1 s2 = true -> may_reach s2 s3 = true -> may_reach s1 s3 = true.
Proof. destruct s1, s2, s3; cbn; congruence. Qed.

(** Whatever a cycle brings, the state after it is the state before or one
    that may follow it. *)
Lemma step_state c w w1 (s : state_fn) :
  step cfg c w = Some w1 -> state (fsm w) = Some s ->
  exists s1,
    state (fsm w1) = Some s1 /\ (s1 = s \/ may_follow s s1 = true).
Proof.
  intros Hstep Hst.
  destruct (transport_frame (resolved c) w) as (Hf & _).
  destruct (step_cases c w w1 Hstep) as [-> | (s' & w0 & Hs' & Hcall & ->)].
  - exists s. rewrite Hf. auto.
  - assert (s' = s) by congruence. subst s'.
    destruct (call_effect cfg s _ _ _ w0 ltac:(rewrite Hf; exact Hst) Hcall)
      as (_ & (s1 & Hs1 & Hm) & _).
    exists s1. world_simpl. auto.
Qed.

(** X1.  No run, whatever the transport delivers and the mailbox layer
    answers, takes the machine against the order of its states: once out
    of START it never is in START again, once the request is acknowledged
    (CHECK or RESPONSE) it never is in REQUEST again, and END and ERROR
    are never left. *)
Theorem run_keeps_the_order cs :
  forall w w' (s : state_fn),
    state (fsm w) = Some s -> run cfg cs w = Some w' ->
    exists s', state (fsm w') = Some s' /\ may_reach s s' = true.
Proof.
  induction cs as [|c cs IH]; intros w w' s Hst Hrun; cbn [run] in Hrun.
  - injection Hrun as <-. exists s. auto using may_reach_refl.
  - destruct (step cfg c w) as [w1|] eqn:Hstep; [|discriminate].
    cbn in Hrun.
    destruct (step_state c w w1 s Hstep Hst) as (s1 & Hs1 & Hm).
    destruct (IH w1 w' s1 Hs1 Hrun) as (s' & Hs' & Hr).
    exists s'. split; [exact Hs'|].
    destruct Hm as [-> | Hm]; [exact Hr|].
    eapply may_reach_trans; [apply may_follow_reach, Hm | exact Hr].
Qed.

Lemma datagram_pending_operable (r : resolution) w :
  (forall dp, datagram (fsm w) = Some dp -> dp ∈ dom (datagrams w)) ->
  exists b, datagram_pending (transport r w) = Some b.
Proof.
  intros Hdg. destruct (transport_frame r w) as (Hf & _ & _ & Hdom & _).
  unfold datagram_pending. rewrite Hf.
  destruct (datagram (fsm w)) as [dp|] eqn:Hdp; [|eauto].
  specialize (Hdg dp eq_refl). rewrite <- Hdom in Hdg.
  destruct (lookup_present _ _ Hdg) as [d ->]. cbn. eauto.
Qed.

(** One cycle on an operable world returns an operable world. *)
Lemma step_operable c w :
  operable w -> slot c ∈ dom (datagrams w) ->
  exists w1, step cfg c w = Some w1 /\ operable w1 /\ same_layout w w1.
Proof.
  intros ((sp & Hsp & Hsl) & (rp & Hrp & Hrq) & Hdg & s & Hst & Hneed) Hslot.
  destruct (transport_frame (resolved c) w) as (Hf & Hss & Hrs & Hdom & _).
  destruct (datagram_pending_operable (resolved c) w Hdg) as [b Hb].
  assert (Hlay : same_layout w (transport (resolved c) w))
    by (unfold same_layout; rewrite Hf, Hss, Hrs, Hdom; auto).
  unfold step. destruct b.
  - rewrite (exec_deferred cfg _ _ _ Hb). cbn.
    eexists. split; [reflexivity|]. split; [|exact Hlay].
    unfold operable. rewrite Hf, Hss, Hrs, Hdom. split_and!; eauto.
  - rewrite (exec_called cfg _ _ _ s Hb) by (rewrite Hf; exact Hst).
    destruct (lookup_present _ _ Hsl) as [sl Hsl'].
    destruct (lookup_present _ _ Hrq) as [req Hreq].
    destruct (call_returns cfg s (slot c) (outside c)
                (transport (resolved c) w)) as [w0 Hcall].
    { unfold reachable. rewrite Hf, Hss, Hrs. split_and!; eauto.
      apply lookup_present. rewrite Hdom. exact Hslot. }
    { destruct Hneed as [-> | [-> | [-> | (dp & Hdp)]]]; auto.
      right. right. right. unfold previous_datagram. rewrite Hf, Hdp. cbn.
      apply lookup_present. rewrite Hdom. apply Hdg, Hdp. }
    rewrite Hcall.
    destruct (call_effect cfg s _ _ _ w0 ltac:(rewrite Hf; exact Hst) Hcall)
      as (Htouch & (s1 & Hs1 & Hm) & _).
    pose proof (touches_only_layout _ _ _ Htouch)
      as (L1 & L2 & L3 & L4 & L5).
    rewrite is_terminal_state, Hs1.
    assert (Hgoal : forall x,
      (x = None -> s1 = fn_end \/ s1 = fn_error) ->
      (x = None \/ x = Some (slot c)) ->
      operable (with_fsm (set_datagram x) w0)
      /\ same_layout w (with_fsm (set_datagram x) w0)).
    { intros x Hnone Hx. unfold operable, same_layout. world_simpl.
      rewrite L1, L2, L3, L4, L5, Hf, Hss, Hrs, Hdom, Hs1.
      split_and!; eauto.
      - intros dp ->. destruct Hx as [? | [= ->]]; [discriminate|].
        exact Hslot.
      - exists s1. split; [reflexivity|].
        destruct x as [dp|]; [eauto 6|].
        destruct (Hnone eq_refl) as [-> | ->]; auto. }
    destruct s1; eexists; (split; [reflexivity|]); apply Hgoal;
      intros; auto; discriminate.
Qed.

(** X2.  On a context that was started, with a slave and a request behind
    its pointers, and with an allocated datagram in every cycle, the
    cyclic entry point returns in every cycle, whatever the transport
    delivers and the mailbox layer answers: no handler is called through
    a NULL state, none follows a NULL pointer, and no byte is read
    outside a reply. *)
Theorem run_never_faults cs :
  forall w,
    operable w -> Forall (fun c => slot c ∈ dom (datagrams w)) cs ->
    exists w', run cfg cs w = Some w' /\ operable w' /\ same_layout w w'.
Proof.
  induction cs as [|c cs IH]; intros w Hop Hall; cbn [run].
  - exists w. auto using same_layout_refl.
  - apply Forall_cons in Hall. destruct Hall as [Hc Hcs].
    destruct (step_operable c w Hop Hc) as (w1 & -> & Hop1 & Hl1). cbn.
    destruct (IH w1 Hop1) as (w' & Hrun & Hop' & Hl').
    { destruct Hl1 as (_ & _ & _ & _ & Hdom). rewrite Hdom. exact Hcs. }
    exists w'. split_and!; auto. eapply same_layout_trans; eassumption.
Qed.

(** What END means for the request is kept by every cycle. *)
Lemma step_keeps_result c w w1 :
  step cfg c w = Some w1 ->
  (state (fsm w) = Some fn_end -> result_zero w) ->
  state (fsm w1) = Some fn_end -> result_zero w1.
Proof.
  intros Hstep Hk Hend.
  destruct (transport_frame (resolved c) w) as (Hf & _ & Hrs & _).
  destruct (step_cases c w w1 Hstep) as [-> | (s & w0 & Hs & Hcall & ->)].
  - rewrite Hf in Hend. unfold result_zero. rewrite Hf, Hrs.
    apply Hk, Hend.
  - world_simpl.
    destruct (call_effect cfg s _ _ _ w0 ltac:(rewrite Hf; exact Hs) Hcall)
      as ((_ & T2 & _) & _ & _ & Hres).
    rewrite Hf in T2. unfold result_zero. world_simpl. rewrite T2.
    destruct Hres as [[Hsame Honly] | (-> & rp & req & v & Hrp & Hreq & -> & Hv)].
    + pose proof (Honly Hend) as ->.
      destruct (Hk Hs) as (rp & req & Hrp & Hreq & Hz).
      exists rp. specialize (Hsame rp). rewrite Hrs, Hreq in Hsame.
      destruct (requests w0 !! rp) as [req0|]; [|discriminate].
      exists req0. cbn in Hsame. split_and!; congruence.
    + rewrite Hf in Hrp. exists rp, (set_result v req).
      rewrite lookup_insert_eq. split_and!; auto.
      rewrite Hv in Hend. cbn.
      destruct (Z.eqb_spec v 0); [assumption | discriminate].
Qed.

(** X3.  Success means result 0: when a run that did not start in END ends
    there, whatever happened in between, the request of the context
    carries the result 0. *)
Theorem success_means_result_zero cs :
  forall w w',
    state (fsm w) <> Some fn_end -> run cfg cs w = Some w' ->
    ec_fsm_eoe_success (fsm w') = true -> result_zero w'.
Proof.
  assert (Hinv : forall cs w w',
    (state (fsm w) = Some fn_end -> result_zero w) ->
    run cfg cs w = Some w' ->
    state (fsm w') = Some fn_end -> result_zero w').
  { clear cs. induction cs as [|c cs IH]; intros w w' Hk Hrun;
      cbn [run] in Hrun.
    - injection Hrun as <-. exact Hk.
    - destruct (step cfg c w) as [w1|] eqn:Hstep; [|discriminate].
      cbn in Hrun. apply (IH w1 w'); [|exact Hrun].
      apply (step_keeps_result c w w1 Hstep Hk). }
  intros w w' Hne Hrun Hok. apply (Hinv cs w w'); [|exact Hrun|].
  - intros H. contradiction.
  - unfold ec_fsm_eoe_success in Hok. apply bool_decide_eq_true in Hok.
    exact Hok.
Qed.

(** One cycle pays for the frame it discards. *)
Lemma step_discard_bound c w w1 :
  step cfg c w = Some w1 -> budget_in_range w ->
  budget_in_range w1
  /\ discard_bound w1 + (if discarded w w1 then 1 else 0) <= discard_bound w
  /\ 0 <= discard_bound w1.
Proof.
  intros Hstep Hgood.
  destruct (transport_frame (resolved c) w) as (Hf & _).
  destruct (step_cases c w w1 Hstep) as [-> | (s & w0 & Hs & Hcall & ->)].
  - unfold budget_in_range, discard_bound, discarded in *. rewrite Hf.
    destruct (state (fsm w)) as [[]|]; cbn; split_and!; auto; lia.
  - destruct (call_effect cfg s _ _ _ w0 ltac:(rewrite Hf; exact Hs) Hcall)
      as (_ & (s1 & Hs1 & Hm) & Hb & _).
    unfold budget_effect in Hb. rewrite Hs1, Hf in Hb.
    unfold budget_in_range, discard_bound, discarded in *. world_simpl.
    rewrite Hs in *. rewrite Hs1.
    destruct s, s1; cbn in Hm; try discriminate; cbn in *;
      lazymatch type of Hb with
      | _ /\ _ =>
          destruct Hb as [Hb0 Hb1]; rewrite Hb1, uint_small by lia
      | True => idtac
      | _ => rewrite ?Hb
      end;
      split_and!; auto; lia.
Qed.

(** X4.  However the transport behaves, a run discards at most ten stray
    frames per operation: from START or REQUEST at most ten, and while the
    response is awaited at most the frame type retries that are left. *)
Theorem discards_bounded cs :
  forall w,
    budget_in_range w ->
    Z.of_nat (discards cfg cs w) <= discard_bound w
    /\ discard_bound w <= Z.max 10 (frame_type_retries (fsm w)).
Proof.
  assert (Hmain : forall cs w,
    budget_in_range w -> 0 <= discard_bound w ->
    Z.of_nat (discards cfg cs w) <= discard_bound w).
  { clear cs. induction cs as [|c cs IH]; intros w Hgood Hpos;
      cbn [discards]; [lia|].
    destruct (step cfg c w) as [w1|] eqn:Hstep; [|lia].
    destruct (step_discard_bound c w w1 Hstep Hgood) as (Hg1 & Hle & Hp1).
    specialize (IH w1 Hg1 Hp1).
    destruct (discarded w w1); lia. }
  intros w Hgood.
  assert (Hpos : 0 <= discard_bound w).
  { unfold budget_in_range, discard_bound in *.
    destruct (state (fsm w)) as [[]|]; lia. }
  split; [apply Hmain; assumption|].
  unfold discard_bound. destruct (state (fsm w)) as [[]|]; lia.
Qed.

(** X5.  END and ERROR absorb every cycle: whatever the transport
    delivers and however often the entry point is called, the state
    stays, the requests and the slaves are untouched, nothing is armed in
    any datagram, and the stored datagram is dropped or kept, never
    replaced. *)
Theorem terminal_states_absorb cs :
  forall w (s : state_fn),
    state (fsm w) = Some s -> s = fn_end \/ s = fn_error ->
    (forall dp, datagram (fsm w) = Some dp -> dp ∈ dom (datagrams w)) ->
    exists w',
      run cfg cs w = Some w'
      /\ state (fsm w') = Some s
      /\ requests w' = requests w
      /\ slaves w' = slaves w
      /\ (forall q,
            armed <$> datagrams w' !! q = armed <$> datagrams w !! q)
      /\ (datagram (fsm w') = None \/ datagram (fsm w') = datagram (fsm w)).
Proof.
  induction cs as [|c cs IH]; intros w s Hst Hterm Hdg; cbn [run].
  - exists w. split_and!; auto.
  - destruct (transport_frame (resolved c) w)
      as (Hf & Hss & Hrs & Hdom & Harm).
    destruct (datagram_pending_operable (resolved c) w Hdg) as [b Hb].
    assert (Hstep : exists w1,
      step cfg c w = Some w1
      /\ (w1 = transport (resolved c) w
          \/ w1 = with_fsm (set_datagram None) (transport (resolved c) w))).
    { unfold step. destruct b.
      - rewrite (exec_deferred cfg _ _ _ Hb). cbn. eauto.
      - rewrite (exec_called cfg _ _ _ s Hb) by (rewrite Hf; exact Hst).
        assert (Hcall : call cfg s (slot c) (outside c)
                          (transport (resolved c) w)
                        = Some (transport (resolved c) w))
          by (destruct Hterm as [-> | ->]; reflexivity).
        rewrite Hcall, is_terminal_true
          by (rewrite Hf, Hst; destruct Hterm as [-> | ->]; auto).
        eauto. }
    destruct Hstep as (w1 & -> & Hw1). cbn.
    destruct (IH w1 s) as (w' & Hrun & H1 & H2 & H3 & H4 & H5).
    { destruct Hw1 as [-> | ->]; world_simpl; rewrite Hf; exact Hst. }
    { exact Hterm. }
    { destruct Hw1 as [-> | ->]; world_simpl; [|discriminate].
      rewrite Hf, Hdom. exact Hdg. }
    exists w'. split; [exact Hrun|].
    destruct Hw1 as [-> | ->]; world_simpl;
      rewrite ?Hf, ?Hss, ?Hrs in *;
      split_and!; auto; try tauto; intros q; rewrite H4; apply Harm.
Qed.

End AnyTransport.

(** ** What the handlers leave alone *)

Section Frame.

Variable cfg : platform.

Implicit Types (w : world) (p : ptr) (e : env).

(** X6.  A call of a handler through the state pointer, whichever the
    handler and whatever it finds, writes no pointer of the context, no
    slave, and no datagram other than the one it is passed, which it
    hands to the mailbox layer; it writes no request but the one of the
    context, and of that one only the send stamp and the result, never a
    parameter or an inclusion flag. *)
Theorem handlers_touch_only (s : state_fn) p e w w1 :
  state (fsm w) = Some s ->
  call cfg s p e w = Some w1 ->
  slave (fsm w1) = slave (fsm w)
  /\ request (fsm w1) = request (fsm w)
  /\ datagram (fsm w1) = datagram (fsm w)
  /\ slaves w1 = slaves w
  /\ (forall q, q <> p -> datagrams w1 !! q = datagrams w !! q)
  /\ (forall q, request (fsm w) <> Some q ->
        requests w1 !! q = requests w !! q)
  /\ (forall rp req,
        request (fsm w) = Some rp -> requests w !! rp = Some req ->
        exists sent res,
          requests w1 !! rp
          = Some (set_result res (set_jiffies_sent sent req))).
Proof.
  intros Hst Hcall.
  destruct (call_effect cfg s p e w w1 Hst Hcall)
    as ((T1 & T2 & T3 & T4 & T5 & T6) & _).
  split_and!; auto.
  - intros q Hq.
    destruct T5 as [-> | (f & op & Hf & ->)]; [reflexivity|].
    apply lookup_insert_ne. congruence.
  - intros q Hq.
    destruct T6 as [-> | (rp & req & v & Hrp & Hreq & [-> | ->])];
      [reflexivity | |]; apply lookup_insert_ne; congruence.
  - intros rp req Hrp Hreq.
    destruct T6 as [-> | (rp' & req' & v & Hrp' & Hreq' & [-> | ->])].
    + exists (jiffies_sent req), (result req).
      rewrite unstamped_same. exact Hreq.
    + assert (rp' = rp) as -> by congruence.
      assert (req' = req) as -> by congruence.
      exists v, (result req). rewrite lookup_insert_eq.
      reflexivity.
    + assert (rp' = rp) as -> by congruence.
      assert (req' = req) as -> by congruence.
      exists (jiffies_sent req), v. rewrite lookup_insert_eq.
      reflexivity.
Qed.

(** X7.  The transitions of the handlers: a call leaves a state behind,
    and only along the edges START to REQUEST, REQUEST to CHECK, CHECK to
    RESPONSE, RESPONSE back to CHECK or on to END, any of the four to
    itself (START apart) or to ERROR; END and ERROR stay.  CHECK is
    entered from REQUEST with ten frame type retries and from RESPONSE
    with one less than a count that was not zero; on every other edge
    that does not end in ERROR the count is kept.  END is entered from
    RESPONSE only, with the result 0 in the request. *)
Theorem handler_transitions (s : state_fn) p e w w1 :
  state (fsm w) = Some s ->
  call cfg s p e w = Some w1 ->
  exists s1,
    state (fsm w1) = Some s1
    /\ may_follow s s1 = true
    /\ (s = fn_set_ip_request -> s1 = fn_set_ip_check ->
        frame_type_retries (fsm w1) = 10)
    /\ (s = fn_set_ip_response -> s1 = fn_set_ip_check ->
        frame_type_retries (fsm w) <> 0
        /\ frame_type_retries (fsm w1)
           = uint (frame_type_retries (fsm w) - 1))
    /\ (s1 <> fn_error ->
        ~ (s1 = fn_set_ip_check
           /\ (s = fn_set_ip_request \/ s = fn_set_ip_response)) ->
        frame_type_retries (fsm w1) = frame_type_retries (fsm w))
    /\ (s1 = fn_end -> s <> fn_end ->
        s = fn_set_ip_response /\ result_zero w1).
Proof.
  intros Hst Hcall.
  destruct (call_effect cfg s p e w w1 Hst Hcall)
    as ((_ & T2 & _) & (s1 & Hs1 & Hm) & Hb & Hres).
  exists s1. unfold budget_effect in Hb. rewrite Hs1 in Hb.
  split_and!; auto.
  - intros -> ->. exact Hb.
  - intros -> ->. exact Hb.
  - intros Hne Hnot.
    destruct s, s1; cbn in Hm; try discriminate; try congruence;
      try exact Hb; exfalso; apply Hnot; auto.
  - intros -> Hne.
    destruct Hres as [[_ Honly] | (-> & rp & req & v & Hrp & Hreq & Hw1 & Hv)].
    + elim Hne. apply Honly, Hs1.
    + split; [reflexivity|].
      exists rp, (set_result v req). rewrite T2, Hw1, lookup_insert_eq.
      split_and!; auto. rewrite Hs1 in Hv. cbn.
      destruct (Z.eqb_spec v 0); [assumption | discriminate].
Qed.

End Frame.

(** ** What a run leaves alone *)

Section RunFrame.

Variable cfg : platform.

Lemma step_keeps_parameters (c : cycle) (w w1 : world) :
  step cfg c w = Some w1 ->
  slave (fsm w1) = slave (fsm w)
  /\ request (fsm w1) = request (fsm w)
  /\ slaves w1 = slaves w
  /\ forall rp req,
       requests w !! rp = Some req ->
       exists sent res,
         requests w1 !! rp = Some (set_result res (set_jiffies_sent sent req))
         /\ (request (fsm w) <> Some rp -> requests w1 !! rp = Some req).
Proof.
  intros Hstep.
  destruct (transport_frame (resolved c) w) as (Hf & Hss & Hrs & _).
  assert (Hsame : forall rp req,
    requests w !! rp = Some req ->
    exists sent res,
      requests w !! rp = Some (set_result res (set_jiffies_sent sent req))
      /\ (request (fsm w) <> Some rp -> requests w !! rp = Some req)).
  { intros rp req Hreq. exists (jiffies_sent req), (result req).
    rewrite unstamped_same. auto. }
  destruct (step_cases cfg c w w1 Hstep) as [-> | (s & w0 & Hs & Hcall & ->)].
  - rewrite Hf, Hss, Hrs. auto.
  - destruct (call_effect cfg s _ _ _ w0 ltac:(rewrite Hf; exact Hs) Hcall)
      as ((T1 & T2 & _ & T4 & _ & T6) & _).
    world_simpl. rewrite T1, T2, T4, Hf, Hss.
    split_and!; auto. intros rp req Hreq.
    rewrite Hf, Hrs in T6.
    destruct T6 as [-> | (rp' & req' & v & Hrp' & Hreq' & [-> | ->])].
    + auto.
    + destruct (decide (rp' = rp)) as [-> | Hne].
      * assert (req' = req) as -> by congruence.
        exists v, (result req). rewrite lookup_insert_eq.
        split; [reflexivity | congruence].
      * rewrite lookup_insert_ne by exact Hne. auto.
    + destruct (decide (rp' = rp)) as [-> | Hne].
      * assert (req' = req) as -> by congruence.
        exists (jiffies_sent req), v. rewrite lookup_insert_eq.
        split; [reflexivity | congruence].
      * rewrite lookup_insert_ne by exact Hne. auto.
Qed.

(** X8.  An operation never rewrites what it was asked to set: over any
    run, whatever the transport delivers, the slave and the request of
    the context stay the same, no slave is written, every request keeps
    its addresses, its name and its inclusion flags, and a request other
    than the one of the context is not written at all. *)
Theorem run_keeps_the_parameters (cs : list cycle) :
  forall w w',
    run cfg cs w = Some w' ->
    slave (fsm w') = slave (fsm w)
    /\ request (fsm w') = request (fsm w)
    /\ slaves w' = slaves w
    /\ forall rp req,
         requests w !! rp = Some req ->
         exists sent res,
           requests w' !! rp
           = Some (set_result res (set_jiffies_sent sent req))
           /\ (request (fsm w) <> Some rp -> requests w' !! rp = Some req).
Proof.
  induction cs as [|c cs IH]; intros w w' Hrun; cbn [run] in Hrun.
  - injection Hrun as <-. split_and!; auto.
    intros rp req Hreq. exists (jiffies_sent req), (result req).
    rewrite unstamped_same. auto.
  - destruct (step cfg c w) as [w1|] eqn:Hstep; [|discriminate].
    cbn in Hrun.
    destruct (step_keeps_parameters c w w1 Hstep) as (S1 & S2 & S3 & S4).
    destruct (IH w1 w' Hrun) as (R1 & R2 & R3 & R4).
    rewrite R1, R2, R3, S1, S2, S3. split_and!; auto.
    intros rp req Hreq.
    destruct (S4 rp req Hreq) as (sent & res & Hw1 & Hother).
    destruct (R4 rp _ Hw1) as (sent' & res' & Hw' & Hother').
    exists sent', res'. split; [exact Hw'|].
    intros Hne. rewrite S2 in Hother'.
    destruct (R4 rp req (Hother Hne)) as (? & ? & _ & Hkeep).
    apply Hkeep. rewrite S2. exact Hne.
Qed.

End RunFrame.

(** ** Polls that are lost, exchanges that fail *)

Ltac open_cycle Hw Hslot :=
  let sp := fresh "sp" in let s := fresh "s" in let rp := fresh "rp" in
  let req := fresh "req" in let dp := fresh "dp" in let d := fresh "d" in
  let f := fresh "f" in
  destruct (wired_cycle _ _ Hw Hslot)
    as (sp & s & rp & req & dp & d & f & Hsp & Hs & Hrp & Hreq & Hdp & Hd
        & Hfl & Hf & Hss & Hrs & Hdom & Hprev).

Ltac close_cycle :=
  unfold wired, same_layout; world_simpl;
  repeat match goal with
         | H : fsm (transport _ _) = _ |- _ => rewrite H
         | H : slaves (transport _ _) = _ |- _ => rewrite H
         | H : requests (transport _ _) = _ |- _ => rewrite H
         end;
  rewrite ?dom_insert_present
    by first [ assumption | eapply present_lookup; eassumption ].

Section Failures.

Variable cfg : platform.

Implicit Types (w : world) (c : cycle) (cs : list cycle).

Lemma lost_cycle_layout w w' c :
  same_layout w w' -> lost_cycle w c -> lost_cycle w' c.
Proof.
  intros (_ & _ & _ & _ & Hdom) (H1 & H2).
  unfold lost_cycle. rewrite Hdom. auto.
Qed.

(** CHECK or RESPONSE, the stored datagram timed out, retries left: the
    machine stays where it is with one retry less and asks again in the
    datagram of the cycle. *)
Lemma step_poll_timed_out c w (s : state_fn) (op : mbox_op) :
  poll_of s = Some op ->
  wired w -> state (fsm w) = Some s ->
  lost_cycle w c -> retries (fsm w) <> 0 ->
  exists w',
    step cfg c w = Some w' /\ wired w' /\ same_layout w w'
    /\ fsm w'
       = set_datagram (Some (slot c))
           (set_retries (uint (retries (fsm w) - 1)) (fsm w))
    /\ requests w' = requests w
    /\ exists d, datagrams w' !! slot c = Some d /\ armed d = op.
Proof.
  intros Hop Hw Hst (Hto & Hslot) Hr. open_cycle Hw Hslot.
  rewrite (step_called cfg c w dp d s) by auto.
  assert (Hcall :
    call cfg s (slot c) (outside c) (transport (resolved c) w)
    = Some (with_datagrams (insert (slot c) (set_armed op f))
              (with_fsm (set_retries (uint (retries (fsm w) - 1)))
                 (transport (resolved c) w)))).
  { destruct s; try discriminate; injection Hop as <-; cbn [call].
    - unfold ec_fsm_eoe_set_ip_check. rewrite Hprev. cbn.
      rewrite timed_out_and_retry_again
        by (first [ exact Hto | rewrite Hf; exact Hr ]).
      rewrite Hf. unfold ec_slave_mbox_prepare_check.
      rewrite (arm_lookup MboxCheck _ _ f) by exact Hfl. reflexivity.
    - unfold ec_fsm_eoe_set_ip_response. rewrite Hf, Hsp. cbn.
      rewrite Hss, Hs. cbn. rewrite Hprev. cbn.
      rewrite timed_out_and_retry_again
        by (first [ exact Hto | rewrite Hf; exact Hr ]).
      rewrite Hf. unfold ec_slave_mbox_prepare_fetch.
      rewrite (arm_lookup MboxFetch _ _ f) by exact Hfl. reflexivity. }
  rewrite Hcall, is_terminal_false
    by (world_simpl; rewrite Hf, Hst; destruct s; discriminate).
  eexists. split; [reflexivity|]. close_cycle.
  split_and!; eauto using present_lookup.
  eexists. rewrite lookup_insert_eq. split; reflexivity.
Qed.

(** CHECK or RESPONSE, the stored datagram timed out and no retry is
    left: ERROR. *)
Lemma step_poll_exhausted c w (s : state_fn) (op : mbox_op) :
  poll_of s = Some op ->
  wired w -> state (fsm w) = Some s ->
  lost_cycle w c -> retries (fsm w) = 0 ->
  exists w',
    step cfg c w = Some w' /\ state (fsm w') = Some fn_error
    /\ datagram (fsm w') = None.
Proof.
  intros Hop Hw Hst (Hto & Hslot) Hr. open_cycle Hw Hslot.
  rewrite (step_called cfg c w dp d s) by auto.
  assert (Hcall :
    call cfg s (slot c) (outside c) (transport (resolved c) w)
    = Some (goto fn_error
              (with_fsm (set_retries (uint (0 - 1)))
                 (transport (resolved c) w)))).
  { destruct s; try discriminate; cbn [call].
    - unfold ec_fsm_eoe_set_ip_check. rewrite Hprev. cbn.
      rewrite timed_out_and_retry_exhausted
        by (first [ exact Hto | rewrite Hf; exact Hr ]).
      rewrite Hto. reflexivity.
    - unfold ec_fsm_eoe_set_ip_response. rewrite Hf, Hsp. cbn.
      rewrite Hss, Hs. cbn. rewrite Hprev. cbn.
      rewrite timed_out_and_retry_exhausted
        by (first [ exact Hto | rewrite Hf; exact Hr ]).
      rewrite Hto. reflexivity. }
  rewrite Hcall, is_terminal_true by (world_simpl; auto).
  eexists. split; [reflexivity|]. world_simpl. split; reflexivity.
Qed.

Lemma poll_retries_run (s : state_fn) (op : mbox_op) cs :
  poll_of s = Some op ->
  forall w,
    wired w -> state (fsm w) = Some s ->
    0 <= retries (fsm w) < 2 ^ 32 ->
    Z.of_nat (length cs) <= retries (fsm w) ->
    Forall (lost_cycle w) cs ->
    exists w',
      run cfg cs w = Some w' /\ wired w' /\ same_layout w w'
      /\ state (fsm w') = Some s
      /\ retries (fsm w') = retries (fsm w) - Z.of_nat (length cs)
      /\ frame_type_retries (fsm w') = frame_type_retries (fsm w)
      /\ jiffies_start (fsm w') = jiffies_start (fsm w)
      /\ requests w' = requests w
      /\ forall c, last cs = Some c ->
           datagram (fsm w') = Some (slot c)
           /\ exists d, datagrams w' !! slot c = Some d /\ armed d = op.
Proof.
  intros Hop.
  induction cs as [|c cs IH] using rev_ind; intros w Hw Hst Hr Hlen Hall.
  - exists w. cbn [run length last].
    split_and!; auto using same_layout_refl; [lia | discriminate].
  - rewrite length_app in Hlen. cbn [length] in Hlen.
    apply Forall_app in Hall. destruct Hall as [Hcs Hc].
    apply Forall_inv in Hc.
    destruct (IH w Hw Hst Hr ltac:(lia) Hcs)
      as (w1 & Hrun & Hw1 & Hl1 & Hst1 & Hr1 & Hf1 & Hj1 & Hq1 & _).
    destruct (step_poll_timed_out c w1 s op Hop Hw1 Hst1
                (lost_cycle_layout _ _ _ Hl1 Hc) ltac:(lia))
      as (w2 & Hstep & Hw2 & Hl2 & Hfsm & Hq2 & Harm).
    exists w2. rewrite run_app, Hrun. cbn. rewrite Hstep. cbn.
    rewrite Hfsm. world_simpl.
    split_and!; auto.
    + eapply same_layout_trans; eassumption.
    + rewrite Hr1, length_app. cbn [length].
      rewrite uint_small by lia. lia.
    + congruence.
    + intros c' Hc'. rewrite last_snoc in Hc'.
      injection Hc' as <-. split; [reflexivity | exact Harm].
Qed.

(** X9.  CHECK and RESPONSE ask again when their datagram is lost, as
    REQUEST does, but without encoding anything: in either state with [r]
    retries, [r + 1] cycles in a row that find the stored datagram timed
    out keep the machine in its state for the first [r], each taking one
    retry and arming the same poll (a mailbox check in CHECK, a fetch in
    RESPONSE) in the datagram of the cycle, with the deadline, the frame
    type retries and the requests untouched; the cycle [r + 1] ends in
    ERROR. *)
Theorem poll_retry_bound w (s : state_fn) (op : mbox_op) cs (final : cycle) :
  poll_of s = Some op ->
  wired w -> state (fsm w) = Some s ->
  0 <= retries (fsm w) < 2 ^ 32 ->
  length cs = Z.to_nat (retries (fsm w)) ->
  Forall (lost_cycle w) (cs ++ [final]) ->
  (forall k, (k <= length cs)%nat ->
     exists wk,
       run cfg (take k cs) w = Some wk
       /\ state (fsm wk) = Some s
       /\ retries (fsm wk) = retries (fsm w) - Z.of_nat k
       /\ frame_type_retries (fsm wk) = frame_type_retries (fsm w)
       /\ jiffies_start (fsm wk) = jiffies_start (fsm w)
       /\ requests wk = requests w
       /\ forall c, last (take k cs) = Some c ->
            datagram (fsm wk) = Some (slot c)
            /\ exists d, datagrams wk !! slot c = Some d /\ armed d = op)
  /\ exists w',
       run cfg (cs ++ [final]) w = Some w'
       /\ state (fsm w') = Some fn_error
       /\ datagram (fsm w') = None.
Proof.
  intros Hop Hw Hst Hr Hlen Hall.
  apply Forall_app in Hall. destruct Hall as [Hcs Hfin].
  apply Forall_inv in Hfin.
  split.
  - intros k Hk.
    destruct (poll_retries_run s op (take k cs) Hop w Hw Hst Hr)
      as (wk & Hrun & _ & _ & Hstk & Hrk & Hfk & Hjk & Hqk & Harm).
    + rewrite length_take. lia.
    + apply Forall_take, Hcs.
    + exists wk. split_and!; auto.
      rewrite Hrk, length_take. lia.
  - destruct (poll_retries_run s op cs Hop w Hw Hst Hr)
      as (w1 & Hrun & Hw1 & Hl1 & Hst1 & Hr1 & _); [lia | exact Hcs |].
    destruct (step_poll_exhausted final w1 s op Hop Hw1 Hst1
                (lost_cycle_layout _ _ _ Hl1 Hfin) ltac:(lia))
      as (w2 & Hstep & Hst2 & Hd2).
    exists w2. rewrite run_app, Hrun. cbn. rewrite Hstep. cbn. auto.
Qed.

(** REQUEST: the datagram came back with a working counter that is not
    1, and it is not the case that nobody answered inside the window. *)
Lemma request_bad_counter p e w d rp (req : ec_eoe_request_t) :
  previous_datagram w = Some d ->
  dg_state d = EC_DATAGRAM_RECEIVED -> working_counter d <> 1 ->
  request (fsm w) = Some rp -> requests w !! rp = Some req ->
  (working_counter d = 0 ->
   EC_EOE_RESPONSE_TIMEOUT
     <= diff_ms cfg (jiffies_now e) (jiffies_sent req)) ->
  ec_fsm_eoe_set_ip_request cfg p e w = Some (goto fn_error w).
Proof.
  intros Hd Hs Hwc Hrp Hreq Hlate.
  unfold ec_fsm_eoe_set_ip_request. rewrite Hd. cbn.
  rewrite timed_out_and_retry_received by assumption.
  rewrite Hs. cbn.
  destruct (Z.eqb_spec (working_counter d) 1); [contradiction|]. cbn.
  rewrite Hrp. cbn. rewrite Hreq. cbn.
  destruct (Z.eqb_spec (working_counter d) 0); [|reflexivity]. cbn.
  destruct (Z.ltb_spec (diff_ms cfg (jiffies_now e) (jiffies_sent req))
                       EC_EOE_RESPONSE_TIMEOUT); [|reflexivity].
  specialize (Hlate ltac:(assumption)). lia.
Qed.

Lemma check_bad_counter p e w d :
  previous_datagram w = Some d ->
  dg_state d = EC_DATAGRAM_RECEIVED -> working_counter d <> 1 ->
  ec_fsm_eoe_set_ip_check cfg p e w = Some (goto fn_error w).
Proof.
  intros Hd Hs Hwc.
  unfold ec_fsm_eoe_set_ip_check. rewrite Hd. cbn.
  rewrite timed_out_and_retry_received by assumption.
  rewrite Hs. cbn.
  destruct (Z.eqb_spec (working_counter d) 1); [contradiction|].
  reflexivity.
Qed.

Lemma response_bad_counter p e w sp (s : ec_slave_t) d :
  slave (fsm w) = Some sp -> slaves w !! sp = Some s ->
  previous_datagram w = Some d ->
  dg_state d = EC_DATAGRAM_RECEIVED -> working_counter d <> 1 ->
  ec_fsm_eoe_set_ip_response cfg p e w = Some (goto fn_error w).
Proof.
  intros Hsp Hsl Hd Hs Hwc.
  unfold ec_fsm_eoe_set_ip_response. rewrite Hsp. cbn. rewrite Hsl. cbn.
  rewrite Hd. cbn.
  rewrite timed_out_and_retry_received by assumption.
  rewrite Hs. cbn.
  destruct (Z.eqb_spec (working_counter d) 1); [contradiction|].
  reflexivity.
Qed.

Lemma response_fetch_error p e w sp (s : ec_slave_t) d :
  slave (fsm w) = Some sp -> slaves w !! sp = Some s ->
  previous_datagram w = Some d ->
  dg_state d = EC_DATAGRAM_RECEIVED -> working_counter d = 1 ->
  ec_slave_mbox_fetch d = None ->
  ec_fsm_eoe_set_ip_response cfg p e w = Some (goto fn_error w).
Proof.
  intros Hsp Hsl Hd Hs Hwc Hfetch.
  unfold ec_fsm_eoe_set_ip_response. rewrite Hsp. cbn. rewrite Hsl. cbn.
  rewrite Hd. cbn.
  rewrite timed_out_and_retry_received by assumption.
  rewrite Hs, Hwc, Hfetch. reflexivity.
Qed.

(** X10.  An exchange that comes back but fails ends the operation in
    ERROR at once, without a retry: in REQUEST, CHECK and RESPONSE a
    received datagram whose working counter is not 1 (unless, in REQUEST,
    it is 0 and the milliseconds since the stamp of the request, as the
    handler computes them in [unsigned long], are below the response
    timeout), and in RESPONSE a fetch that reports an error.  The retry
    count is not spent, nothing is armed, the request keeps its stamp and
    its result, and no datagram is stored. *)
Theorem failed_exchange_is_error c w (s : state_fn) rp
    (req : ec_eoe_request_t) :
  wired w -> slot c ∈ dom (datagrams w) ->
  state (fsm w) = Some s ->
  s = fn_set_ip_request \/ s = fn_set_ip_check \/ s = fn_set_ip_response ->
  request (fsm w) = Some rp -> requests w !! rp = Some req ->
  failed_exchange cfg s (jiffies_sent req) c ->
  exists w',
    step cfg c w = Some w'
    /\ state (fsm w') = Some fn_error
    /\ datagram (fsm w') = None
    /\ retries (fsm w') = retries (fsm w)
    /\ requests w' = requests w
    /\ datagrams w' = datagrams (transport (resolved c) w).
Proof.
  intros Hw Hslot Hst Hin Hrq0 Hreq0 (Hrec & Hfail). open_cycle Hw Hslot.
  rewrite (step_called cfg c w dp d s) by auto.
  assert (Hcall :
    call cfg s (slot c) (outside c) (transport (resolved c) w)
    = Some (goto fn_error (transport (resolved c) w))).
  { destruct Hfail as [(Hwc & Hlate) | (-> & Hwc & Hnone)].
    - destruct Hin as [-> | [-> | ->]]; cbn [call].
      + apply (request_bad_counter _ _ _ (resolve (resolved c) d) rp req);
          rewrite ?Hf, ?Hrs; auto.
      + apply (check_bad_counter _ _ _ (resolve (resolved c) d)); auto.
      + apply (response_bad_counter _ _ _ sp s0 (resolve (resolved c) d));
          rewrite ?Hf, ?Hss; auto.
    - cbn [call].
      apply (response_fetch_error _ _ _ sp s0 (resolve (resolved c) d));
        rewrite ?Hf, ?Hss; auto. }
  rewrite Hcall, is_terminal_true by (world_simpl; auto).
  eexists. split; [reflexivity|]. world_simpl. rewrite Hf, Hrs.
  split_and!; reflexivity.
Qed.

Lemma no_data_cycle_layout w w' c :
  same_layout w w' -> no_data_cycle w c -> no_data_cycle w' c.
Proof.
  intros (_ & _ & _ & _ & Hdom) ((H1 & H2 & H3) & H4).
  unfold no_data_cycle, received_cycle. rewrite Hdom. auto.
Qed.

(** CHECK, no data yet, before the deadline: poll again. *)
Lemma step_check_no_data c w :
  wired w -> state (fsm w) = Some fn_set_ip_check ->
  no_data_cycle w c ->
  diff_ms cfg (r_jiffies_received (resolved c)) (jiffies_start (fsm w))
    < EC_EOE_RESPONSE_TIMEOUT ->
  exists w',
    step cfg c w = Some w' /\ wired w' /\ same_layout w w'
    /\ fsm w'
       = set_datagram (Some (slot c))
           (set_retries (EC_FSM_RETRIES cfg) (fsm w))
    /\ requests w' = requests w
    /\ exists d, datagrams w' !! slot c = Some d /\ armed d = MboxCheck.
Proof.
  intros Hw Hst ((Hrec & Hwc & Hslot) & Hno) Hdiff. open_cycle Hw Hslot.
  rewrite (step_called cfg c w dp d fn_set_ip_check) by auto.
  cbn [call].
  rewrite (check_no_data_again cfg _ _ _ (resolve (resolved c) d) f)
    by (rewrite ?Hf; auto).
  rewrite is_terminal_false by (world_simpl; rewrite Hf, Hst; discriminate).
  eexists. split; [reflexivity|]. close_cycle.
  split_and!; eauto using present_lookup.
  eexists. rewrite lookup_insert_eq. split; reflexivity.
Qed.

(** CHECK, no data and the deadline has passed: ERROR. *)
Lemma step_check_deadline c w :
  wired w -> state (fsm w) = Some fn_set_ip_check ->
  no_data_cycle w c ->
  EC_EOE_RESPONSE_TIMEOUT
    <= diff_ms cfg (r_jiffies_received (resolved c)) (jiffies_start (fsm w)) ->
  exists w',
    step cfg c w = Some w' /\ state (fsm w') = Some fn_error
    /\ datagram (fsm w') = None.
Proof.
  intros Hw Hst ((Hrec & Hwc & Hslot) & Hno) Hdiff. open_cycle Hw Hslot.
  rewrite (step_called cfg c w dp d fn_set_ip_check) by auto.
  cbn [call].
  rewrite (check_no_data_timeout cfg _ _ _ (resolve (resolved c) d))
    by (rewrite ?Hf; auto).
  rewrite is_terminal_true by (world_simpl; auto).
  eexists. split; [reflexivity|]. world_simpl. split; reflexivity.
Qed.

Lemma check_polls_run cs :
  forall w,
    wired w -> state (fsm w) = Some fn_set_ip_check ->
    Forall (no_data_cycle w) cs ->
    Forall (fun c =>
              diff_ms cfg (r_jiffies_received (resolved c))
                (jiffies_start (fsm w)) < EC_EOE_RESPONSE_TIMEOUT) cs ->
    exists w',
      run cfg cs w = Some w' /\ wired w' /\ same_layout w w'
      /\ state (fsm w') = Some fn_set_ip_check
      /\ jiffies_start (fsm w') = jiffies_start (fsm w)
      /\ frame_type_retries (fsm w') = frame_type_retries (fsm w)
      /\ requests w' = requests w
      /\ forall c, last cs = Some c ->
           retries (fsm w') = EC_FSM_RETRIES cfg
           /\ datagram (fsm w') = Some (slot c)
           /\ exists d, datagrams w' !! slot c = Some d
                         /\ armed d = MboxCheck.
Proof.
  induction cs as [|c cs IH] using rev_ind; intros w Hw Hst Hall Hin.
  - exists w. cbn [run last].
    split_and!; auto using same_layout_refl. discriminate.
  - apply Forall_app in Hall. destruct Hall as [Hcs Hc].
    apply Forall_inv in Hc.
    apply Forall_app in Hin. destruct Hin as [Hin Hlast].
    apply Forall_inv in Hlast.
    destruct (IH w Hw Hst Hcs Hin)
      as (w1 & Hrun & Hw1 & Hl1 & Hst1 & Hj1 & Hf1 & Hq1 & _).
    destruct (step_check_no_data c w1 Hw1 Hst1
                (no_data_cycle_layout _ _ _ Hl1 Hc)
                ltac:(rewrite Hj1; exact Hlast))
      as (w2 & Hstep & Hw2 & Hl2 & Hfsm & Hq2 & Harm).
    exists w2. rewrite run_app, Hrun. cbn. rewrite Hstep. cbn.
    rewrite Hfsm. world_simpl.
    split_and!; auto.
    + eapply same_layout_trans; eassumption.
    + congruence.
    + intros c' Hc'. rewrite last_snoc in Hc'.
      injection Hc' as <-. split_and!; auto.
Qed.

(** X11.  The deadline of CHECK is absolute over a run: polls that find no
    data never move it.  Cycles in CHECK that each find the mailbox empty
    less than the response timeout after [jiffies_start] keep the machine
    in CHECK, however many they are, with the same [jiffies_start], the
    retries refilled and a new check armed; the first empty poll that is
    received at or after the timeout, counted from that same
    [jiffies_start], ends in ERROR. *)
Theorem check_deadline_is_absolute w cs (final : cycle) :
  wired w -> state (fsm w) = Some fn_set_ip_check ->
  Forall (no_data_cycle w) (cs ++ [final]) ->
  Forall (fun c =>
            diff_ms cfg (r_jiffies_received (resolved c))
              (jiffies_start (fsm w)) < EC_EOE_RESPONSE_TIMEOUT) cs ->
  EC_EOE_RESPONSE_TIMEOUT
    <= diff_ms cfg (r_jiffies_received (resolved final))
         (jiffies_start (fsm w)) ->
  (forall k, exists wk,
       run cfg (take k cs) w = Some wk
       /\ state (fsm wk) = Some fn_set_ip_check
       /\ jiffies_start (fsm wk) = jiffies_start (fsm w)
       /\ frame_type_retries (fsm wk) = frame_type_retries (fsm w)
       /\ requests wk = requests w
       /\ forall c, last (take k cs) = Some c ->
            retries (fsm wk) = EC_FSM_RETRIES cfg
            /\ datagram (fsm wk) = Some (slot c)
            /\ exists d, datagrams wk !! slot c = Some d
                          /\ armed d = MboxCheck)
  /\ exists w',
       run cfg (cs ++ [final]) w = Some w'
       /\ state (fsm w') = Some fn_error
       /\ datagram (fsm w') = None.
Proof.
  intros Hw Hst Hall Hin Hlate.
  apply Forall_app in Hall. destruct Hall as [Hcs Hfin].
  apply Forall_inv in Hfin.
  split.
  - intros k.
    destruct (check_polls_run (take k cs) w Hw Hst)
      as (wk & Hrun & _ & _ & Hstk & Hjk & Hfk & Hqk & Harm);
      [apply Forall_take, Hcs | apply Forall_take, Hin |].
    exists wk. split_and!; auto.
  - destruct (check_polls_run cs w Hw Hst Hcs Hin)
      as (w1 & Hrun & Hw1 & Hl1 & Hst1 & Hj1 & _).
    destruct (step_check_deadline final w1 Hw1 Hst1
                (no_data_cycle_layout _ _ _ Hl1 Hfin)
                ltac:(rewrite Hj1; exact Hlate))
      as (w2 & Hstep & Hst2 & Hd2).
    exists w2. rewrite run_app, Hrun. cbn. rewrite Hstep. cbn. auto.
Qed.

End Failures.

(** ** The payload, the clock and the first cycle *)

Section Payload.

Variable cfg : platform.

Lemma set_ip_payload (req : ec_eoe_request_t) (old : buf) :
  request_sized cfg req ->
  take (set_ip_size cfg) (set_ip_data cfg req old) = set_ip_layout cfg req.
Proof.
  intros Hsized. rewrite set_ip_data_layout by exact Hsized.
  apply take_app_length'. symmetry. apply set_ip_layout_length, Hsized.
Qed.

Lemma rev_same {A} (a b : list A) : rev a = rev b -> a = b.
Proof.
  intros H. rewrite <- (rev_involutive a), <- (rev_involutive b), H.
  reflexivity.
Qed.

Lemma field_inj (f1 f2 : Z) (b1 b2 : buf) (n : nat) :
  included f1 = included f2 ->
  field f1 b1 n = field f2 b2 n ->
  included f1 = true -> b1 = b2.
Proof.
  intros Hsame Heq Hin. unfold field in Heq.
  rewrite <- Hsame, Hin in Heq. exact Heq.
Qed.

(** X12.  The payload tells the request, and nothing else: the encoder
    turns two requests, over whatever the two buffers held before, into
    the same bytes exactly when they include the same fields and agree on
    every field they include.  So equal payloads come from requests that
    agree on what they include, and neither the stale content of the
    buffer nor a field that is not included changes a byte that is
    sent. *)
Theorem payload_determines_request (req1 req2 : ec_eoe_request_t)
    (old1 old2 : buf) :
  request_sized cfg req1 -> request_sized cfg req2 ->
  take (set_ip_size cfg) (set_ip_data cfg req1 old1)
  = take (set_ip_size cfg) (set_ip_data cfg req2 old2)
  <->
  (included (mac_address_included req1) = included (mac_address_included req2)
   /\ included (ip_address_included req1) = included (ip_address_included req2)
   /\ included (subnet_mask_included req1)
      = included (subnet_mask_included req2)
   /\ included (gateway_included req1) = included (gateway_included req2)
   /\ included (dns_included req1) = included (dns_included req2)
   /\ included (name_included req1) = included (name_included req2))
  /\ (included (mac_address_included req1) = true ->
      mac_address req1 = mac_address req2)
  /\ (included (ip_address_included req1) = true ->
      ip_address req1 = ip_address req2)
  /\ (included (subnet_mask_included req1) = true ->
      subnet_mask req1 = subnet_mask req2)
  /\ (included (gateway_included req1) = true ->
      gateway req1 = gateway req2)
  /\ (included (dns_included req1) = true -> dns req1 = dns req2)
  /\ (included (name_included req1) = true -> name req1 = name req2).
Proof.
  intros Hs1 Hs2. rewrite !set_ip_payload by assumption. split.
  - intros Heq.
    destruct Hs1 as (Hm1 & Hi1 & Hn1 & Hg1 & Hd1 & Hh1).
    destruct Hs2 as (Hm2 & Hi2 & Hn2 & Hg2 & Hd2 & Hh2).
    unfold set_ip_layout in Heq.
    apply app_inj_1 in Heq; [|reflexivity]. destruct Heq as [_ Heq].
    apply app_inj_1 in Heq; [|reflexivity]. destruct Heq as [Hflags Heq].
    apply app_inj_1 in Heq;
      [|rewrite !field_length by assumption; reflexivity].
    destruct Heq as [Hmac Heq].
    apply app_inj_1 in Heq;
      [|rewrite !field_length by (rewrite length_rev; assumption);
        reflexivity].
    destruct Heq as [Hip Heq].
    apply app_inj_1 in Heq;
      [|rewrite !field_length by (rewrite length_rev; assumption);
        reflexivity].
    destruct Heq as [Hmask Heq].
    apply app_inj_1 in Heq;
      [|rewrite !field_length by (rewrite length_rev; assumption);
        reflexivity].
    destruct Heq as [Hgw Heq].
    apply app_inj_1 in Heq;
      [|rewrite !field_length by (rewrite length_rev; assumption);
        reflexivity].
    destruct Heq as [Hdns Hname].
    destruct (set_ip_flags_bits req1) as (Hr1 & A0 & A1 & A2 & A3 & A4 & A5).
    destruct (set_ip_flags_bits req2) as (Hr2 & B0 & B1 & B2 & B3 & B4 & B5).
    assert (Hsame : set_ip_flags req1 = set_ip_flags req2).
    { rewrite <- (le32_value_le32 (set_ip_flags req1)) by lia.
      rewrite <- (le32_value_le32 (set_ip_flags req2)) by lia.
      rewrite Hflags. reflexivity. }
    rewrite Hsame in A0, A1, A2, A3, A4, A5.
    assert (I0 := eq_trans (eq_sym A0) B0).
    assert (I1 := eq_trans (eq_sym A1) B1).
    assert (I2 := eq_trans (eq_sym A2) B2).
    assert (I3 := eq_trans (eq_sym A3) B3).
    assert (I4 := eq_trans (eq_sym A4) B4).
    assert (I5 := eq_trans (eq_sym A5) B5).
    split; [split_and!; assumption|].
    split_and!; intros Hin.
    + exact (field_inj _ _ _ _ _ I0 Hmac Hin).
    + apply rev_same. exact (field_inj _ _ _ _ _ I1 Hip Hin).
    + apply rev_same. exact (field_inj _ _ _ _ _ I2 Hmask Hin).
    + apply rev_same. exact (field_inj _ _ _ _ _ I3 Hgw Hin).
    + apply rev_same. exact (field_inj _ _ _ _ _ I4 Hdns Hin).
    + exact (field_inj _ _ _ _ _ I5 Hname Hin).
  - intros ((I0 & I1 & I2 & I3 & I4 & I5) & F0 & F1 & F2 & F3 & F4 & F5).
    unfold set_ip_layout, set_ip_flags, nonzero, field.
    unfold included in *.
    destruct (mac_address_included req1 =? 0),
             (mac_address_included req2 =? 0); try discriminate I0;
    destruct (ip_address_included req1 =? 0),
             (ip_address_included req2 =? 0); try discriminate I1;
    destruct (subnet_mask_included req1 =? 0),
             (subnet_mask_included req2 =? 0); try discriminate I2;
    destruct (gateway_included req1 =? 0),
             (gateway_included req2 =? 0); try discriminate I3;
    destruct (dns_included req1 =? 0),
             (dns_included req2 =? 0); try discriminate I4;
    destruct (name_included req1 =? 0),
             (name_included req2 =? 0); try discriminate I5;
    cbn [negb] in *;
    rewrite ?(F0 eq_refl), ?(F1 eq_refl), ?(F2 eq_refl), ?(F3 eq_refl),
      ?(F4 eq_refl), ?(F5 eq_refl);
    reflexivity.
Qed.

(** X13.  The elapsed time of the handlers survives a wrap of the tick
    counter, and wraps itself: for a stamp [earlier] and a counter that
    is [t] ticks further, modulo the width of [unsigned long], the
    milliseconds the handlers compute are [t * 1000] modulo that width,
    divided by [HZ] --- the true [t * 1000 / HZ] as long as [t * 1000]
    fits, whatever the two counter values are, and less than that from
    then on. *)
Theorem diff_ms_wraps (earlier t : Z) :
  0 <= ULONG_BITS cfg ->
  diff_ms cfg (ulong cfg (earlier + t)) earlier
  = (t * 1000) mod 2 ^ ULONG_BITS cfg / HZ cfg
  /\ (0 <= t -> t * 1000 < 2 ^ ULONG_BITS cfg ->
      diff_ms cfg (ulong cfg (earlier + t)) earlier = t * 1000 / HZ cfg)
  /\ (0 < HZ cfg -> 0 <= t ->
      diff_ms cfg (ulong cfg (earlier + t)) earlier <= t * 1000 / HZ cfg).
Proof.
  intros Hbits.
  assert (HM : 0 < 2 ^ ULONG_BITS cfg) by (apply Z.pow_pos_nonneg; lia).
  assert (Hgen : diff_ms cfg (ulong cfg (earlier + t)) earlier
                 = (t * 1000) mod 2 ^ ULONG_BITS cfg / HZ cfg).
  { unfold diff_ms, ulong, wrap.
    rewrite Zminus_mod_idemp_l.
    replace (earlier + t - earlier) with t by lia.
    rewrite Z.mul_mod_idemp_l by lia. reflexivity. }
  split; [exact Hgen|]. split.
  - intros Hpos Hfit. rewrite Hgen, Z.mod_small by lia. reflexivity.
  - intros Hhz Hpos. rewrite Hgen.
    apply Z.div_le_mono; [lia|].
    apply Z.mod_le; lia.
Qed.

End Payload.

(** ** From the constructor to the first cycle *)

Section FirstCycle.

Variable cfg : platform.

(** X14.  The cyclic entry point needs a started context: on a context as
    the constructor leaves it, whatever the world around it, nothing is
    stored that could defer the call, and the call goes through the NULL
    state pointer; and such a context does not count as a success. *)
Theorem exec_needs_a_started_context (p : ptr) (e : env) (w : world) :
  ec_fsm_eoe_exec cfg p e (with_fsm ec_fsm_eoe_init w) = None
  /\ ec_fsm_eoe_success (ec_fsm_eoe_init (fsm w)) = false
  /\ is_terminal (ec_fsm_eoe_init (fsm w)) = false.
Proof. split_and!; reflexivity. Qed.


End FirstCycle.

(** ** The properties above at concrete runs *)

Ltac demo_operable :=
  unfold operable; split_and!;
  [ eexists; split; [reflexivity | present]
  | eexists; split; [reflexivity | present]
  | intros ? [= <-]; present
  | eexists; split; [reflexivity|];
    right; right; right; eexists; reflexivity ].

(** X1 at a REQUEST that is acknowledged and a check that finds data. *)
Lemma run_keeps_the_order_witness :
  exists w' s',
    run linux64
      [demo_cycle (back EC_DATAGRAM_RECEIVED 1 2 false None) 11%N 2 SendOk;
       demo_cycle (back EC_DATAGRAM_RECEIVED 1 3 true None) 10%N 3 SendOk]
      (demo_world (demo_fsm fn_set_ip_request 3 0) idle_datagram)
    = Some w'
    /\ state (fsm w') = Some s'
    /\ may_reach fn_set_ip_request s' = true.
Proof.
  destruct (run linux64
      [demo_cycle (back EC_DATAGRAM_RECEIVED 1 2 false None) 11%N 2 SendOk;
       demo_cycle (back EC_DATAGRAM_RECEIVED 1 3 true None) 10%N 3 SendOk]
      (demo_world (demo_fsm fn_set_ip_request 3 0) idle_datagram))
    as [w'|] eqn:Hrun; [|vm_compute in Hrun; discriminate].
  pose proof Hrun as Hto.
  eapply (run_keeps_the_order linux64) in Hto as (s' & H1 & H2);
    [|reflexivity].
  exists w', s'. split_and!; auto.
Defined.

(** X2 at a lost datagram followed by a reply that is too short. *)
Lemma run_never_faults_witness :
  exists w',
    run linux64
      [demo_cycle (back EC_DATAGRAM_TIMED_OUT 0 2 false None) 11%N 2 SendOk;
       demo_cycle (back EC_DATAGRAM_RECEIVED 1 3 false
                     (Some (2, [x03; x00]))) 10%N 3 SendOk]
      (demo_world (demo_fsm fn_set_ip_response 3 10) idle_datagram)
    = Some w'
    /\ operable w'.
Proof.
  destruct (run_never_faults linux64
      [demo_cycle (back EC_DATAGRAM_TIMED_OUT 0 2 false None) 11%N 2 SendOk;
       demo_cycle (back EC_DATAGRAM_RECEIVED 1 3 false
                     (Some (2, [x03; x00]))) 10%N 3 SendOk]
      (demo_world (demo_fsm fn_set_ip_response 3 10) idle_datagram))
    as (w' & H1 & H2 & _).
  - demo_operable.
  - repeat constructor; present.
  - exists w'. split; assumption.
Defined.

(** X3 at a fetch that brings the response 03 00 00 00. *)
Lemma success_means_result_zero_witness :
  exists w',
    run linux64
      [demo_cycle (back EC_DATAGRAM_RECEIVED 1 4 false
                     (Some (2, [x03; x00; x00; x00]))) 11%N 4 SendOk]
      (with_requests (insert 2%N (set_result 9 demo_request))
         (demo_world (demo_fsm fn_set_ip_response 3 10) idle_datagram))
    = Some w'
    /\ result_zero w'.
Proof.
  destruct (run linux64
      [demo_cycle (back EC_DATAGRAM_RECEIVED 1 4 false
                     (Some (2, [x03; x00; x00; x00]))) 11%N 4 SendOk]
      (with_requests (insert 2%N (set_result 9 demo_request))
         (demo_world (demo_fsm fn_set_ip_response 3 10) idle_datagram)))
    as [w'|] eqn:Hrun; [|vm_compute in Hrun; discriminate].
  exists w'. split; [reflexivity|].
  pose proof Hrun as Hto.
  eapply (success_means_result_zero linux64) in Hto;
    [exact Hto | discriminate |].
  vm_compute in Hrun. injection Hrun as <-. reflexivity.
Defined.

(** X4 at two rounds of the stray-segment recovery. *)
Lemma discards_bounded_witness :
  Z.of_nat
    (discards linux64 (round_cycles (demo_round 5) ++ round_cycles (demo_round 7))
       (demo_world (demo_fsm fn_set_ip_check 3 10) idle_datagram))
  <= 10.
Proof.
  apply (discards_bounded linux64
           (round_cycles (demo_round 5) ++ round_cycles (demo_round 7))
           (demo_world (demo_fsm fn_set_ip_check 3 10) idle_datagram)).
  unfold budget_in_range. cbn. lia.
Defined.

(** X5 at a context in END with a stored datagram that comes back. *)
Lemma terminal_states_absorb_witness :
  exists w',
    run linux64
      [demo_cycle (back EC_DATAGRAM_RECEIVED 1 2 true None) 11%N 2 SendOk;
       demo_cycle (back EC_DATAGRAM_TIMED_OUT 0 3 false None) 10%N 3 SendOk]
      (demo_world (demo_fsm fn_end 3 10) idle_datagram)
    = Some w'
    /\ state (fsm w') = Some fn_end
    /\ requests w' = {[ 2%N := demo_request ]}.
Proof.
  destruct (terminal_states_absorb linux64
      [demo_cycle (back EC_DATAGRAM_RECEIVED 1 2 true None) 11%N 2 SendOk;
       demo_cycle (back EC_DATAGRAM_TIMED_OUT 0 3 false None) 10%N 3 SendOk]
      (demo_world (demo_fsm fn_end 3 10) idle_datagram) fn_end)
    as (w' & H1 & H2 & H3 & _).
  - reflexivity.
  - left. reflexivity.
  - intros ? [= <-]. present.
  - exists w'. split_and!; assumption.
Defined.

(** X6 at the REQUEST call that encodes the request anew. *)
Lemma handlers_touch_only_witness :
  exists w1,
    call linux64 fn_set_ip_request 11%N (demo_env 5 SendOk)
      (demo_world (demo_fsm fn_set_ip_request 3 0)
         (resolve (back EC_DATAGRAM_TIMED_OUT 0 4 false None) idle_datagram))
    = Some w1
    /\ datagrams w1 !! 10%N
       = Some (resolve (back EC_DATAGRAM_TIMED_OUT 0 4 false None)
                 idle_datagram)
    /\ slaves w1 = {[ 1%N := demo_slave ]}.
Proof.
  destruct (call linux64 fn_set_ip_request 11%N (demo_env 5 SendOk)
      (demo_world (demo_fsm fn_set_ip_request 3 0)
         (resolve (back EC_DATAGRAM_TIMED_OUT 0 4 false None) idle_datagram)))
    as [w1|] eqn:Hcall; [|vm_compute in Hcall; discriminate].
  pose proof Hcall as Hto.
  eapply (handlers_touch_only linux64) in Hto as (_ & _ & _ & H4 & H5 & _);
    [|reflexivity].
  exists w1. split_and!; [reflexivity | | exact H4].
  rewrite (H5 10%N) by discriminate. reflexivity.
Defined.

(** X7 at a RESPONSE call that discards a stray frame. *)
Lemma handler_transitions_witness :
  exists w1,
    call linux64 fn_set_ip_response 11%N (demo_env 5 SendOk)
      (demo_world (demo_fsm fn_set_ip_response 3 4)
         (resolve (back EC_DATAGRAM_RECEIVED 1 4 false
                     (Some (2, [x00; x00; x00; x00]))) idle_datagram))
    = Some w1
    /\ state (fsm w1) = Some fn_set_ip_check
    /\ frame_type_retries (fsm w1) = 3.
Proof.
  destruct (call linux64 fn_set_ip_response 11%N (demo_env 5 SendOk)
      (demo_world (demo_fsm fn_set_ip_response 3 4)
         (resolve (back EC_DATAGRAM_RECEIVED 1 4 false
                     (Some (2, [x00; x00; x00; x00]))) idle_datagram)))
    as [w1|] eqn:Hcall; [|vm_compute in Hcall; discriminate].
  pose proof Hcall as Hto.
  eapply (handler_transitions linux64) in Hto
    as (s1 & H1 & _ & _ & H4 & _); [|reflexivity].
  assert (Hs1 : state (fsm w1) = Some fn_set_ip_check)
    by (vm_compute in Hcall; injection Hcall as <-; reflexivity).
  exists w1. split_and!; [reflexivity | exact Hs1 |].
  assert (s1 = fn_set_ip_check) as -> by congruence.
  destruct (H4 eq_refl eq_refl) as [_ ->]. reflexivity.
Defined.

(** X8 at a full operation that ends with the result 1. *)
Lemma run_keeps_the_parameters_witness :
  exists w' sent res,
    run linux64
      [demo_cycle (back EC_DATAGRAM_INIT 0 0 false None) 10%N 1 SendOk;
       demo_cycle (back EC_DATAGRAM_RECEIVED 1 2 false None) 11%N 2 SendOk;
       demo_cycle (back EC_DATAGRAM_RECEIVED 1 3 true None) 10%N 3 SendOk;
       demo_cycle (back EC_DATAGRAM_RECEIVED 1 4 false
                     (Some (2, [x03; x00; x01; x00]))) 11%N 4 SendOk]
      (demo_world
         (ec_fsm_eoe_set_ip_param (Some 1%N) (Some 2%N)
            (ec_fsm_eoe_init (demo_fsm fn_error 2 7)))
         idle_datagram)
    = Some w'
    /\ requests w' !! 2%N
       = Some (set_result res (set_jiffies_sent sent demo_request)).
Proof.
  destruct (run linux64
      [demo_cycle (back EC_DATAGRAM_INIT 0 0 false None) 10%N 1 SendOk;
       demo_cycle (back EC_DATAGRAM_RECEIVED 1 2 false None) 11%N 2 SendOk;
       demo_cycle (back EC_DATAGRAM_RECEIVED 1 3 true None) 10%N 3 SendOk;
       demo_cycle (back EC_DATAGRAM_RECEIVED 1 4 false
                     (Some (2, [x03; x00; x01; x00]))) 11%N 4 SendOk]
      (demo_world
         (ec_fsm_eoe_set_ip_param (Some 1%N) (Some 2%N)
            (ec_fsm_eoe_init (demo_fsm fn_error 2 7)))
         idle_datagram))
    as [w'|] eqn:Hrun; [|vm_compute in Hrun; discriminate].
  destruct (run_keeps_the_parameters linux64 _ _ w' Hrun)
    as (_ & _ & _ & H4).
  destruct (H4 2%N demo_request eq_refl) as (sent & res & H5 & _).
  exists w', sent, res. split; [reflexivity | exact H5].
Defined.

(** X9 in CHECK with two retries: two lost polls, then ERROR. *)
Lemma poll_retry_bound_witness :
  (exists w2,
     run linux64
       [demo_cycle (back EC_DATAGRAM_TIMED_OUT 0 10 false None) 11%N 10 SendOk;
        demo_cycle (back EC_DATAGRAM_TIMED_OUT 0 20 false None) 10%N 20 SendOk]
       (demo_world (demo_fsm fn_set_ip_check 2 10) idle_datagram)
     = Some w2
     /\ state (fsm w2) = Some fn_set_ip_check /\ retries (fsm w2) = 0)
  /\ exists w3,
       run linux64
         [demo_cycle (back EC_DATAGRAM_TIMED_OUT 0 10 false None) 11%N 10 SendOk;
          demo_cycle (back EC_DATAGRAM_TIMED_OUT 0 20 false None) 10%N 20 SendOk;
          demo_cycle (back EC_DATAGRAM_TIMED_OUT 0 30 false None) 11%N 30 SendOk]
         (demo_world (demo_fsm fn_set_ip_check 2 10) idle_datagram)
       = Some w3
       /\ state (fsm w3) = Some fn_error.
Proof.
  destruct (poll_retry_bound linux64
              (demo_world (demo_fsm fn_set_ip_check 2 10) idle_datagram)
              fn_set_ip_check MboxCheck
              [demo_cycle (back EC_DATAGRAM_TIMED_OUT 0 10 false None) 11%N 10 SendOk;
               demo_cycle (back EC_DATAGRAM_TIMED_OUT 0 20 false None) 10%N 20 SendOk]
              (demo_cycle (back EC_DATAGRAM_TIMED_OUT 0 30 false None) 11%N 30 SendOk))
    as [Hprefix Hfinal].
  - reflexivity.
  - demo_wired.
  - reflexivity.
  - cbn. lia.
  - reflexivity.
  - repeat constructor; present.
  - split.
    + destruct (Hprefix 2%nat ltac:(cbn; lia)) as (w2 & H1 & H2 & H3 & _).
      exists w2. split_and!; assumption.
    + destruct Hfinal as (w3 & H1 & H2 & _). exists w3. split; assumption.
Defined.

(** X10 at a mailbox check that comes back with the working counter 0. *)
Lemma failed_exchange_is_error_witness :
  exists w',
    step linux64
      (demo_cycle (back EC_DATAGRAM_RECEIVED 0 5 false None) 11%N 5 SendOk)
      (demo_world (demo_fsm fn_set_ip_check 3 10) idle_datagram)
    = Some w'
    /\ state (fsm w') = Some fn_error
    /\ retries (fsm w') = 3.
Proof.
  destruct (failed_exchange_is_error linux64
      (demo_cycle (back EC_DATAGRAM_RECEIVED 0 5 false None) 11%N 5 SendOk)
      (demo_world (demo_fsm fn_set_ip_check 3 10) idle_datagram)
      fn_set_ip_check 2%N demo_request)
    as (w' & H1 & H2 & _ & H4 & _).
  - demo_wired.
  - present.
  - reflexivity.
  - right. left. reflexivity.
  - reflexivity.
  - reflexivity.
  - split; [reflexivity|]. left. split; [discriminate|].
    intros H. discriminate H.
  - exists w'. split_and!; assumption.
Defined.

(** X11 at 250 ticks a second: empty polls received 400 ms and 2996 ms
    after the start keep CHECK, the one received after 3000 ms ends it. *)
Lemma check_deadline_is_absolute_witness :
  (exists w2,
     run linux64
       [demo_cycle (back EC_DATAGRAM_RECEIVED 1 100 false None) 11%N 100 SendOk;
        demo_cycle (back EC_DATAGRAM_RECEIVED 1 749 false None) 10%N 749 SendOk]
       (demo_world (demo_fsm fn_set_ip_check 3 10) idle_datagram)
     = Some w2
     /\ state (fsm w2) = Some fn_set_ip_check
     /\ jiffies_start (fsm w2) = 0)
  /\ exists w3,
       run linux64
         [demo_cycle (back EC_DATAGRAM_RECEIVED 1 100 false None) 11%N 100 SendOk;
          demo_cycle (back EC_DATAGRAM_RECEIVED 1 749 false None) 10%N 749 SendOk;
          demo_cycle (back EC_DATAGRAM_RECEIVED 1 750 false None) 11%N 750 SendOk]
         (demo_world (demo_fsm fn_set_ip_check 3 10) idle_datagram)
       = Some w3
       /\ state (fsm w3) = Some fn_error.
Proof.
  destruct (check_deadline_is_absolute linux64
      (demo_world (demo_fsm fn_set_ip_check 3 10) idle_datagram)
      [demo_cycle (back EC_DATAGRAM_RECEIVED 1 100 false None) 11%N 100 SendOk;
       demo_cycle (back EC_DATAGRAM_RECEIVED 1 749 false None) 10%N 749 SendOk]
      (demo_cycle (back EC_DATAGRAM_RECEIVED 1 750 false None) 11%N 750 SendOk))
    as [Hprefix Hfinal].
  - demo_wired.
  - reflexivity.
  - repeat constructor; present.
  - repeat constructor.
  - vm_compute. discriminate.
  - split.
    + destruct (Hprefix 2%nat) as (w2 & H1 & H2 & H3 & _).
      exists w2. split_and!; assumption.
    + destruct Hfinal as (w3 & H1 & H2 & _). exists w3. split; assumption.
Defined.

(** X12 at two requests that include the IP address only and differ in
    the MAC address, the name, the stamp and the result, encoded over
    different buffers: the bytes are the same, and the IP addresses are
    the same. *)
Lemma payload_determines_request_witness :
  take (set_ip_size linux64)
    (set_ip_data linux64 demo_request (replicate 70 xee))
  = take (set_ip_size linux64)
      (set_ip_data linux64
         {| jiffies_sent := 7;
            mac_address_included := 0; ip_address_included := 5;
            subnet_mask_included := 0; gateway_included := 0;
            dns_included := 0; name_included := 0;
            mac_address := [x00; x00; x00; x00; x00; x00];
            ip_address := [xc0; x00; x02; x0a];
            subnet_mask := [xff; xff; xff; x00];
            gateway := [xc0; x00; x02; x01];
            dns := [xc0; x00; x02; x35];
            name := replicate 32 x42;
            result := 3 |}
         (replicate 80 x11)).
Proof.
  apply (payload_determines_request linux64 demo_request _
           (replicate 70 xee) (replicate 80 x11)).
  - repeat split.
  - repeat split.
  - split_and!; try reflexivity; intros H; discriminate H.
Defined.

(** X13 on 64 bits at 250 ticks a second: ten ticks across the wrap of
    the counter are 40 ms. *)
Lemma diff_ms_wraps_witness :
  diff_ms linux64 (ulong linux64 (2 ^ 64 - 5 + 10)) (2 ^ 64 - 5) = 40.
Proof.
  destruct (diff_ms_wraps linux64 (2 ^ 64 - 5) 10) as (_ & H & _).
  - cbn. lia.
  - rewrite H; [reflexivity | lia | cbn; lia].
Defined.

